(** * Connecteur Redmine / e-mail: a model of [connect.py] and its properties

    The development follows the layout of the Python module:
    - [PyStr]: the [str] operations the module relies on
      ([split], [startswith], [replace], [strip], [in], [re.search] for the
      one pattern the module uses, and the decimal rendering of f-strings);
    - the data the collaborators hold (Redmine issues and journals, the IMAP
      mailbox, JSON request bodies);
    - [Runtime]: what the interpreter and its libraries decide ([repr],
      [str(e)], the Unicode database, [EmailMessage], the file system);
    - a state-and-exception monad in which the functions of [connect.py] are
      written one for one;
    - the theorems.

    A [string] holds a Python [str] in UTF-8.  The operations that compare
    substrings ([split] on the line feed, [startswith], [replace], [in])
    give on the encoding what Python gives on the characters; the two that
    look at classes of characters ([strip] and the [\d] of the pattern) cut
    the bytes into characters first. *)

From Stdlib Require Import String Ascii List Bool ZArith NArith Lia.
From Stdlib Require Import DecimalString DecimalN DecimalFacts.
From Stdlib Require Import Sorting.Sorted Permutation.
Import ListNotations.

Set Warnings "-register-all".

Open Scope list_scope.
Open Scope string_scope.

(* ------------------------------------------------------------------ *)
(** ** Python [str] operations *)

Module PyStr.

Definition nl : string := String "010"%char EmptyString.

(** [s.startswith(p)], returning what follows the prefix when it matches. *)
Fixpoint strip_prefix (p s : string) : option string :=
  match p, s with
  | EmptyString, _ => Some s
  | String _ _, EmptyString => None
  | String a p', String b s' =>
      if Ascii.eqb a b then strip_prefix p' s' else None
  end.

Definition startswith (s p : string) : bool :=
  match strip_prefix p s with Some _ => true | None => false end.

(** [needle in hay] for two strings. *)
Fixpoint contains (needle hay : string) : bool :=
  match hay with
  | EmptyString => startswith EmptyString needle
  | String _ hay' => startswith hay needle || contains needle hay'
  end.

(** [s.split(sep)] for a one-character separator: never the empty list. *)
Fixpoint split (sep : ascii) (s : string) : list string :=
  match s with
  | EmptyString => [EmptyString]
  | String c s' =>
      if Ascii.eqb c sep then EmptyString :: split sep s'
      else match split sep s' with
           | [] => [String c EmptyString]
           | l :: ls => String c l :: ls
           end
  end.

(** [s.replace(old, new)] for a non-empty [old]: occurrences are replaced
    from the left and do not overlap.  [skip] counts the characters of an
    occurrence that are still to be dropped. *)
Fixpoint replace_go (old new : string) (skip : nat) (s : string) : string :=
  match s with
  | EmptyString => EmptyString
  | String c s' =>
      match skip with
      | S k => replace_go old new k s'
      | O =>
          if startswith s old
          then new ++ replace_go old new (String.length old - 1) s'
          else String c (replace_go old new 0 s')
      end
  end.

Definition replace (s old new : string) : string := replace_go old new 0 s.

(** Truth value of a string: the empty string is false. *)
Definition truthy (s : string) : bool :=
  match s with EmptyString => false | _ => true end.

(** *** Characters

    The characters of a string, each as the bytes that encode it: a
    leading byte takes the continuation bytes it announces when they
    follow it; a byte that is part of no such sequence stands alone. *)

Definition byte (a : ascii) : N := N_of_ascii a.

(** A continuation byte, [10xxxxxx]. *)
Definition is_cont (a : ascii) : bool :=
  ((0x80 <=? byte a) && (byte a <? 0xC0))%N.

(** The number of continuation bytes that the leading byte [a] announces. *)
Definition expects (a : ascii) : nat :=
  let b := byte a in
  if (b <? 0xC2)%N then 0
  else if (b <? 0xE0)%N then 1
  else if (b <? 0xF0)%N then 2
  else if (b <? 0xF5)%N then 3
  else 0.

(** The [k] continuation bytes at the head of [cs], and what follows. *)
Fixpoint take_conts (k : nat) (cs : list string)
  : option (string * list string) :=
  match k with
  | O => Some (EmptyString, cs)
  | S k' =>
      match cs with
      | String b EmptyString :: cs' =>
          if is_cont b
          then match take_conts k' cs' with
               | Some (t, rest) => Some (String b t, rest)
               | None => None
               end
          else None
      | _ => None
      end
  end.

Fixpoint chars (s : string) : list string :=
  match s with
  | EmptyString => []
  | String a r =>
      match take_conts (expects a) (chars r) with
      | Some (t, rest) => String a t :: rest
      | None => String a EmptyString :: chars r
      end
  end.

Definition join (l : list string) : string := fold_right append EmptyString l.

Definition low6 (a : ascii) : N := (byte a - 0x80)%N.

(** The code point that the bytes [c] encode; [None] when they are not
    the encoding of one character (a stray byte, an overlong form, a value
    above U+10FFFF). *)
Definition code_point (c : string) : option N :=
  match c with
  | EmptyString => None
  | String a t =>
      match expects a, t with
      | 0%nat, EmptyString => if (byte a <? 0x80)%N then Some (byte a) else None
      | 1%nat, String b EmptyString =>
          if is_cont b then Some ((byte a - 0xC0) * 64 + low6 b)%N else None
      | 2%nat, String b (String c EmptyString) =>
          if is_cont b && is_cont c
          then let n := ((byte a - 0xE0) * 4096 + low6 b * 64 + low6 c)%N in
               if (0x800 <=? n)%N then Some n else None
          else None
      | 3%nat, String b (String c (String d EmptyString)) =>
          if is_cont b && is_cont c && is_cont d
          then let n := ((byte a - 0xF0) * 262144 + low6 b * 4096
                         + low6 c * 64 + low6 d)%N in
               if ((0x10000 <=? n) && (n <=? 0x10FFFF))%N then Some n else None
          else None
      | _, _ => None
      end
  end.

Definition in_ranges (n : N) (l : list (N * N)) : bool :=
  existsb (fun r => ((fst r <=? n) && (n <=? snd r))%N) l.

(** The characters [str.isspace] accepts, which are those [str.strip]
    removes: TAB to CR, FS to the space, NEL, the no-break space, and the
    spaces and separators of the higher blocks. *)
Definition whitespace : list (N * N) :=
  [(0x9, 0xD); (0x1C, 0x20); (0x85, 0x85); (0xA0, 0xA0); (0x1680, 0x1680);
   (0x2000, 0x200A); (0x2028, 0x2029); (0x202F, 0x202F); (0x205F, 0x205F);
   (0x3000, 0x3000)]%N.

Definition isspace (c : string) : bool :=
  match code_point c with
  | Some n => in_ranges n whitespace
  | None => false
  end.

Fixpoint drop_while {A : Type} (p : A -> bool) (l : list A) : list A :=
  match l with
  | [] => []
  | x :: l' => if p x then drop_while p l' else l
  end.

(** [s.strip()] *)
Definition strip (s : string) : string :=
  join (rev (drop_while isspace (rev (drop_while isspace (chars s))))).

(** The longest prefix of [l] whose elements satisfy [p], and the rest. *)
Fixpoint span {A : Type} (p : A -> bool) (l : list A) : list A * list A :=
  match l with
  | [] => ([], [])
  | x :: l' =>
      if p x then let (a, b) := span p l' in (x :: a, b) else ([], l)
  end.

(** [\d] on a [str] pattern matches the decimal digits of the Unicode
    database of the interpreter, given here as [decimal]. *)
Section Digits.

Variable decimal : N -> bool.

Definition isdecimal (c : string) : bool :=
  match code_point c with
  | Some n => decimal n
  | None => false
  end.

Definition all_digits (s : string) : bool := forallb isdecimal (chars s).

(** The longest run of digits at the head of [s], and the rest. *)
Definition span_digits (s : string) : string * string :=
  let (ds, r) := span isdecimal (chars s) in (join ds, join r).

End Digits.

(** Whatever its version, the Unicode database has, below U+0080, the
    decimal digits ["0"] to ["9"] and no other. *)
Definition ascii_digits (decimal : N -> bool) : bool :=
  forallb (fun n => Bool.eqb (decimal n) ((0x30 <=? n) && (n <=? 0x39))%N)
          (map N.of_nat (seq 0 128)).

Definition is_ascii_digit (c : ascii) : bool :=
  ((0x30 <=? byte c) && (byte c <=? 0x39))%N.

Fixpoint all_ascii_digits (s : string) : bool :=
  match s with
  | EmptyString => true
  | String c s' => is_ascii_digit c && all_ascii_digits s'
  end.

(** [f"{n}"] for a non-negative integer. *)
Definition str_of_N (n : N) : string := NilZero.string_of_uint (N.to_uint n).

(** Reading a run of ASCII digits back. *)
Definition N_of_str (s : string) : option N :=
  option_map N.of_uint (NilZero.uint_of_string s).

(** [b.decode()]: the bytes are the UTF-8 encoding of a [str] when every
    character is well formed and none is a surrogate. *)
Definition valid_char (c : string) : bool :=
  match code_point c with
  | Some n => ((n <? 0xD800) || (0xDFFF <? n))%N
  | None => false
  end.

Definition valid_utf8 (b : string) : bool := forallb valid_char (chars b).

(** [os.path.basename(p)]: what follows the last ["/"]. *)
Definition basename (p : string) : string := last (split "/" p) EmptyString.

End PyStr.
Import PyStr.

(* ------------------------------------------------------------------ *)
(** ** The correlation tag

    [re.search(r'\[Redmine #(\d+)\]', subject)]: the pattern is tried at
    each position from the left; at one position it needs the literal
    ["[Redmine #"], then digits (greedily, at least one), then ["]"].  The
    digits cannot give back a character to ["]"], so the attempt succeeds
    exactly when the longest run of digits is non-empty and is followed by
    ["]"].  The result is [group(1)], a string.  A position inside a
    character never matches, the pattern starting with ["["]. *)

Definition tag_open : string := "[Redmine #".

Definition match_tag_here (decimal : N -> bool) (s : string) : option string :=
  match strip_prefix tag_open s with
  | None => None
  | Some r =>
      match span_digits decimal r with
      | (String d ds, String c _) =>
          if Ascii.eqb c "]" then Some (String d ds) else None
      | _ => None
      end
  end.

Fixpoint re_search_tag (decimal : N -> bool) (subject : string)
  : option string :=
  match match_tag_here decimal subject with
  | Some g => Some g
  | None =>
      match subject with
      | EmptyString => None
      | String _ rest => re_search_tag decimal rest
      end
  end.

(** The tag the module writes into the subjects it sends:
    [f"[Redmine #{issue.id}]"]. *)
Definition tag_of (id : N) : string := tag_open ++ str_of_N id ++ "]".

(* ------------------------------------------------------------------ *)
(** ** Exceptions

    An exception is known by its class and by what it is about; the text
    [str(e)] that the interpreter writes for it is [str_of_exn], below. *)

(** The type of an operand, as a [TypeError] reports it. *)
Inductive kind : Type :=
| NoneType | bool_ | int_ | str_ | list_ | dict_ | datetime_.

Inductive exn : Type :=
| NameError (name : string)
| KeyError (key : string)
| TypeError (operation : string) (operands : list kind)
| ValueError (argument : string)
| UnicodeEncodeError (text : string)
| UnicodeDecodeError (bytes : string)
| OSError (path : string)
| HTTPException (code : Z)
| ResourceNotFoundError
| TransportError (what : string).
(** [HTTPException] is what [request.json] raises on a body that is not
    JSON (400) or is not announced as JSON (415).  [TransportError] stands
    for every other failure a collaborator raises: connection refused,
    authentication failure, a request the server refuses. *)

(* ------------------------------------------------------------------ *)
(** ** JSON request bodies, as [request.json] hands them over

    [data] is the parsed body.  Numbers are the integers. *)

Inductive json : Type :=
| JNull
| JBool (b : bool)
| JNum (z : Z)
| JStr (s : string)
| JArr (items : list json)
| JObj (members : list (string * json)).

Module Json.

Definition kind_of (v : json) : kind :=
  match v with
  | JNull => NoneType
  | JBool _ => bool_
  | JNum _ => int_
  | JStr _ => str_
  | JArr _ => list_
  | JObj _ => dict_
  end.

(** Truth value: [None], [False], [0] and the empty string, list and dict
    are false. *)
Definition truthy (v : json) : bool :=
  match v with
  | JNull => false
  | JBool b => b
  | JNum z => negb (z =? 0)%Z
  | JStr s => PyStr.truthy s
  | JArr l => match l with [] => false | _ => true end
  | JObj l => match l with [] => false | _ => true end
  end.

Fixpoint assoc (k : string) (l : list (string * json)) : option json :=
  match l with
  | [] => None
  | (k', v) :: l' => if String.eqb k k' then Some v else assoc k l'
  end.

Definition is_str (k : string) (v : json) : bool :=
  match v with JStr s => String.eqb s k | _ => false end.

(** [k in v] for a string [k]: key of a dict, element of a list, substring
    of a string; anything else is not iterable. *)
Definition contains (k : string) (v : json) : exn + bool :=
  match v with
  | JObj l => inr (match assoc k l with Some _ => true | None => false end)
  | JArr l => inr (existsb (is_str k) l)
  | JStr s => inr (PyStr.contains k s)
  | JNum _ | JBool _ | JNull => inl (TypeError "in" [kind_of v])
  end.

(** [v[k]] for a string [k]. *)
Definition getitem (v : json) (k : string) : exn + json :=
  match v with
  | JObj l => match assoc k l with Some x => inr x | None => inl (KeyError k) end
  | _ => inl (TypeError "[]" [kind_of v; str_])
  end.

Definition str_of_Z (z : Z) : string := NilZero.string_of_int (Z.to_int z).

End Json.

(** What a handler returns: [jsonify(...), status]. *)
Record Response : Type := mkResponse { payload : json; status : Z }.

(* ------------------------------------------------------------------ *)
(** ** What the interpreter and its libraries decide

    - [repr]: the text of a list or a dict in an f-string;
    - [library_text]: [str(e)] for the exceptions of the libraries;
    - [unicode_decimal]: the decimal digits of the Unicode database;
    - [set_item], [set_content], [add_attachment]: the exception that
      [msg[name] = value], [msg.set_content(body)] and
      [msg.add_attachment(data, ..., filename=name)] raise on an
      [EmailMessage], if any (a header value with a line break is
      refused, a text with a lone surrogate cannot be encoded);
    - [read_file]: [open(path, 'rb')] and [read()], the bytes of the file
      or the exception. *)

Record Runtime : Type := mkRuntime {
  repr : json -> string;
  library_text : exn -> string;
  unicode_decimal : N -> bool;
  set_item : string -> string -> option exn;
  set_content : string -> option exn;
  add_attachment : string -> string -> option exn;
  read_file : string -> exn + string
}.

(** [str(e)], as the f-strings of the [except] clauses write it.  The
    text of a [NameError] is the interpreter's own; the other texts are
    those of the libraries. *)
Definition str_of_exn (rt : Runtime) (e : exn) : string :=
  match e with
  | NameError name => "name '" ++ name ++ "' is not defined"
  | _ => library_text rt e
  end.

(* ------------------------------------------------------------------ *)
(** ** The Redmine server

    Timestamps are seconds on one time line.  [updated_on] and the
    [created_on] of a journal entry reach the module as [datetime]
    objects.

    The server is a table of issues.  It answers a request when it is
    [online]; it creates an issue when its validation [accepts] the data,
    numbering issues from [next_id]; it adds a comment when it [allows]
    the update; it lists the issues that match a query, and, as no status
    is asked for, only those whose status is not a closed one. *)

Module Journal.
Record t : Type := mk {
  created_on : option Z;      (* [None]: the attribute is absent *)
  notes : option string       (* [None]: the attribute is absent *)
}.
End Journal.

Module Issue.
Record t : Type := mk {
  id : N;
  subject : string;
  description : string;
  project_id : Z;
  classifiers : list (string * Z);   (* tracker_id, status_id, ... when set *)
  updated_on : Z;
  journals : list Journal.t
}.
End Issue.

(** The parameters of [redmine.issue.filter]. *)
Inductive sort_order : Type := updated_on_desc | server_default.

Record Query : Type := mkQuery {
  updated_on_ge : Z;
  sort : sort_order;
  limit : nat
}.

Module Redmine.

Record t : Type := mk {
  issues : list Issue.t;
  next_id : N;
  online : bool;                                   (* requests get through *)
  accepts : string -> string -> Z -> bool;         (* validation of a creation *)
  now : Z;                                         (* the server's clock *)
  allows : N -> string -> bool;                    (* a comment on an issue *)
  closed_status : Z -> bool                        (* the statuses that close *)
}.

(** The module names an issue by an [int] (the [id] of a resource, a JSON
    number) or by a [str] (the digits the pattern captured, a JSON string):
    the issue number that [/issues/<ref>.json] names, if any.  A text that
    is not made of the digits ["0"] to ["9"] names none. *)
Definition number_of (r : json) : option N :=
  match r with
  | JNum z => if (0 <=? z)%Z then Some (Z.to_N z) else None
  | JStr s => if all_ascii_digits s then N_of_str s else None
  | _ => None
  end.

Definition lookup (rm : t) (n : N) : option Issue.t :=
  find (fun i => N.eqb (Issue.id i) n) (issues rm).

(** [redmine.issue.get(ref, ...)] *)
Definition issue_get (rm : t) (r : json) : exn + Issue.t :=
  if negb (online rm) then inl (TransportError "connection")
  else match number_of r with
       | None => inl ResourceNotFoundError
       | Some n =>
           match lookup rm n with
           | Some i => inr i
           | None => inl ResourceNotFoundError
           end
       end.

(** [redmine.issue.create(project_id=.., subject=.., description=.., ...)] *)
Definition issue_create (rm : t) (subject description : string)
    (project_id : Z) (extra : list (string * Z)) : exn + (Issue.t * t) :=
  if negb (online rm) then inl (TransportError "connection")
  else if negb (accepts rm subject description project_id)
  then inl (TransportError "validation")
  else
    let i := Issue.mk (next_id rm) subject description project_id extra
                      (now rm) [] in
    inr (i, mk (issues rm ++ [i]) (N.succ (next_id rm)) (online rm)
               (accepts rm) (now rm) (allows rm) (closed_status rm)).

Definition add_journal (rm : t) (n : N) (comment : string) (i : Issue.t)
  : Issue.t :=
  if N.eqb (Issue.id i) n
  then Issue.mk (Issue.id i) (Issue.subject i) (Issue.description i)
                (Issue.project_id i) (Issue.classifiers i) (now rm)
                (Issue.journals i ++ [Journal.mk (Some (now rm)) (Some comment)])
  else i.

(** [redmine.issue.update(ref, notes=comment)]: a request of its own,
    which the server may refuse for an issue it has. *)
Definition issue_update (rm : t) (r : json) (comment : string)
  : exn + t :=
  if negb (online rm) then inl (TransportError "connection")
  else match number_of r with
       | None => inl ResourceNotFoundError
       | Some n =>
           match lookup rm n with
           | None => inl ResourceNotFoundError
           | Some _ =>
               if allows rm n comment
               then inr (mk (map (add_journal rm n comment) (issues rm))
                            (next_id rm) (online rm) (accepts rm) (now rm)
                            (allows rm) (closed_status rm))
               else inl (TransportError "update")
           end
       end.

(** Most recently updated first; issues updated at the same time keep the
    order of the table. *)
Fixpoint insert_desc (i : Issue.t) (l : list Issue.t) : list Issue.t :=
  match l with
  | [] => [i]
  | j :: l' =>
      if (Issue.updated_on j <=? Issue.updated_on i)%Z then i :: j :: l'
      else j :: insert_desc i l'
  end.

Definition sort_desc (l : list Issue.t) : list Issue.t :=
  fold_right insert_desc [] l.

Fixpoint status_id (classifiers : list (string * Z)) : option Z :=
  match classifiers with
  | [] => None
  | (name, z) :: rest =>
      if String.eqb name "status_id" then Some z else status_id rest
  end.

(** An issue without a status of its own has the default one, which is
    open. *)
Definition is_closed (rm : t) (i : Issue.t) : bool :=
  match status_id (Issue.classifiers i) with
  | Some s => closed_status rm s
  | None => false
  end.

Definition selected (q : Query) (rm : t) : list Issue.t :=
  filter (fun i => negb (is_closed rm i)
                   && (updated_on_ge q <=? Issue.updated_on i)%Z)
         (issues rm).

(** [redmine.issue.filter(updated_on=">=..", sort=.., limit=..)], iterated. *)
Definition issue_filter (rm : t) (q : Query) : exn + list Issue.t :=
  if negb (online rm) then inl (TransportError "connection")
  else
    let l := selected q rm in
    inr (firstn (limit q)
           (match sort q with updated_on_desc => sort_desc l | server_default => l end)).

End Redmine.

(* ------------------------------------------------------------------ *)
(** ** The mailbox (IMAP) and the mail relay (SMTP)

    A letter is a message of the mailbox with its [\Seen] flag.  The
    mailbox is selected for reading and writing: [SEARCH UNSEEN] lists the
    letters not seen, [FETCH (RFC822)] reads one and sets its [\Seen]
    flag, [STORE +FLAGS \Seen] sets the flag. *)

Record Part : Type := mkPart {
  content_type : string;
  content_disposition : option string;
  part_payload : string             (* [get_payload(decode=True)], bytes *)
}.

Inductive EmailContent : Type :=
| SinglePart (payload : string)
| Multipart (walk : list Part).

Record EmailMessage : Type := mkEmailMessage {
  Subject : string;
  From : string;                    (* the address [parseaddr] returns *)
  content : EmailContent
}.

Record Letter : Type := mkLetter {
  num : N;
  seen : bool;
  fetch_ok : bool;                  (* [FETCH] answers OK *)
  raw_email : EmailMessage
}.

Record Mailbox : Type := mkMailbox {
  reachable : bool;                 (* connect, login and select succeed *)
  search_ok : bool;                 (* [SEARCH] answers OK *)
  letters : list Letter
}.

(** A notification: recipient, subject, body. *)
Record Mail : Type := mkMail {
  mail_to : string;
  mail_subject : string;
  mail_body : string
}.

(** A message as it is handed to an SMTP server. *)
Record Sent : Type := mkSent {
  smtp_host : string;
  smtp_port : Z;
  sent_from : string;
  sent_cc : option string;
  sent_mail : Mail;
  sent_attachments : list (string * string)    (* file name, bytes *)
}.

Inductive level : Type := INFO | ERROR.

(* ------------------------------------------------------------------ *)
(** ** The world the module runs in

    [smtp_accepts] tells which messages the relay takes: connection,
    [starttls], [login] and [send_message] all succeed.  [requested] is
    the call history of [send_email]: one entry per call, latest first.
    [outbox] holds what the relay took, latest first. *)

Record World : Type := mkWorld {
  redmine : Redmine.t;
  mailbox : Mailbox;
  smtp_accepts : Sent -> bool;
  requested : list Mail;
  outbox : list Sent;
  log : list (level * string)
}.

(** State and exceptions. *)
Definition M (A : Type) : Type := World -> (exn + A) * World.

Definition ret {A} (a : A) : M A := fun w => (inr a, w).

Definition raise {A} (e : exn) : M A := fun w => (inl e, w).

Definition bind {A B} (m : M A) (f : A -> M B) : M B :=
  fun w =>
    match m w with
    | (inl e, w') => (inl e, w')
    | (inr a, w') => f a w'
    end.

(** [try: m  except Exception as e: h e] *)
Definition try_except {A} (m : M A) (h : exn -> M A) : M A :=
  fun w =>
    match m w with
    | (inl e, w') => h e w'
    | (inr a, w') => (inr a, w')
    end.

Definition lift {A} (r : exn + A) : M A :=
  match r with inl e => raise e | inr a => ret a end.

Declare Scope py_scope.
Delimit Scope py_scope with py.
Notation "x <- m ;; k" := (bind m (fun x => k))
  (at level 100, m at next level, right associativity) : py_scope.
Notation "m ;;; k" := (bind m (fun _ => k))
  (at level 100, right associativity) : py_scope.
Open Scope py_scope.

(** [for x in l: body x] *)
Fixpoint for_each {A} (l : list A) (body : A -> M unit) : M unit :=
  match l with
  | [] => ret tt
  | x :: l' => body x ;;; for_each l' body
  end.

Definition logger (lv : level) (msg : string) : M unit :=
  fun w => (inr tt, mkWorld (redmine w) (mailbox w) (smtp_accepts w)
                            (requested w) (outbox w) ((lv, msg) :: log w)).

Definition note_request (m : Mail) : M unit :=
  fun w => (inr tt, mkWorld (redmine w) (mailbox w) (smtp_accepts w)
                            (m :: requested w) (outbox w) (log w)).

(** [smtplib.SMTP(host, port)], [starttls], [login], [send_message]. *)
Definition smtp_send (s : Sent) : M unit :=
  fun w =>
    if smtp_accepts w s
    then (inr tt, mkWorld (redmine w) (mailbox w) (smtp_accepts w)
                          (requested w) (s :: outbox w) (log w))
    else (inl (TransportError "SMTP"), w).

(* ------------------------------------------------------------------ *)
(** ** Primitives of the collaborators, in the monad *)

Definition redmine_issue_create (subject description : string)
    (project_id : Z) (extra : list (string * Z)) : M Issue.t :=
  fun w =>
    match Redmine.issue_create (redmine w) subject description project_id extra with
    | inl e => (inl e, w)
    | inr (i, rm') =>
        (inr i, mkWorld rm' (mailbox w) (smtp_accepts w) (requested w)
                        (outbox w) (log w))
    end.

Definition redmine_issue_get (r : json) : M Issue.t :=
  fun w => (Redmine.issue_get (redmine w) r, w).

Definition redmine_issue_update (r : json) (comment : string) : M unit :=
  fun w =>
    match Redmine.issue_update (redmine w) r comment with
    | inl e => (inl e, w)
    | inr rm' =>
        (inr tt, mkWorld rm' (mailbox w) (smtp_accepts w) (requested w)
                         (outbox w) (log w))
    end.

Definition redmine_issue_filter (q : Query) : M (list Issue.t) :=
  fun w => (Redmine.issue_filter (redmine w) q, w).

(** [imaplib.IMAP4_SSL(host)], [login], [select('inbox')] *)
Definition imap_open (host user password : string) : M unit :=
  fun w =>
    if reachable (mailbox w) then (inr tt, w)
    else (inl (TransportError "IMAP"), w).

Definition unseen (mb : Mailbox) : list N :=
  map num (filter (fun l => negb (seen l)) (letters mb)).

(** [mail.search(None, 'UNSEEN')]: [None] when the status is not OK. *)
Definition imap_search_unseen : M (option (list N)) :=
  fun w =>
    (inr (if search_ok (mailbox w) then Some (unseen (mailbox w)) else None), w).

Definition mark_seen (n : N) (l : Letter) : Letter :=
  if N.eqb (num l) n then mkLetter (num l) true (fetch_ok l) (raw_email l) else l.

(** The mailbox with the [\Seen] flag of the letter [n] set. *)
Definition with_seen (n : N) (w : World) : World :=
  mkWorld (redmine w)
          (mkMailbox (reachable (mailbox w)) (search_ok (mailbox w))
                     (map (mark_seen n) (letters (mailbox w))))
          (smtp_accepts w) (requested w) (outbox w) (log w).

(** [mail.fetch(num, '(RFC822)')], then [email.message_from_bytes]:
    [None] when the status is not OK.  A letter that is fetched is seen. *)
Definition imap_fetch (n : N) : M (option EmailMessage) :=
  fun w =>
    match find (fun l => N.eqb (num l) n) (letters (mailbox w)) with
    | Some l =>
        if fetch_ok l then (inr (Some (raw_email l)), with_seen n w)
        else (inr None, w)
    | None => (inr None, w)
    end.

(** [mail.store(num, '+FLAGS', '\\Seen')] *)
Definition imap_store_seen (n : N) : M unit :=
  fun w => (inr tt, with_seen n w).

Definition is_seen (mb : Mailbox) (n : N) : bool :=
  match find (fun l => N.eqb (num l) n) (letters mb) with
  | Some l => seen l
  | None => false
  end.

(* ------------------------------------------------------------------ *)
(** ** Module globals

    The functions read the module's global names when they run.  Lines
    51-56 of [connect.py] bind [EMAIL_IMAP_SERVER], [EMAIL_SMTP_SERVER],
    [EMAIL_PORT], [EMAIL_USER], [EMAIL_PASSWORD] and [EMAIL_CHECK_INTERVAL];
    [send_email] and [check_emails] read [EMAIL_SERVER], which the module
    itself never binds. *)

Record Config : Type := mkConfig {
  cfg_default_project_id : Z;
  cfg_imap_server : string;
  cfg_smtp_server : string;
  cfg_port : Z;
  cfg_username : string;
  cfg_password : string;
  cfg_check_interval : Z
}.

Record Namespace : Type := mkNamespace {
  default_project_id : Z;          (* config['redmine']['default_project_id'] *)
  EMAIL_IMAP_SERVER : string;
  EMAIL_SMTP_SERVER : string;
  EMAIL_PORT : Z;
  EMAIL_USER : string;
  EMAIL_PASSWORD : string;
  EMAIL_CHECK_INTERVAL : Z;
  EMAIL_SERVER : option string     (* [None]: the name is not bound *)
}.

(** The namespace after the module body has run. *)
Definition connect_module (cfg : Config) : Namespace :=
  mkNamespace (cfg_default_project_id cfg) (cfg_imap_server cfg)
              (cfg_smtp_server cfg) (cfg_port cfg) (cfg_username cfg)
              (cfg_password cfg) (cfg_check_interval cfg) None.

(* ------------------------------------------------------------------ *)
(** ** The texts the module writes *)

Definition confirmation_subject (id : N) : string :=
  tag_of id ++ " Votre demande a été enregistrée".

Definition confirmation_body (id : N) : string :=
  nl ++ "Bonjour," ++ nl ++ nl
  ++ "Votre demande a été enregistrée dans notre système avec le numéro de ticket #"
  ++ str_of_N id ++ "." ++ nl
  ++ "Vous pouvez suivre l'évolution de votre demande en répondant à cet e-mail."
  ++ nl ++ nl ++ "Cordialement," ++ nl ++ "L'équipe support" ++ nl
  ++ "                ".

Definition update_subject (id : N) (subject : string) : string :=
  tag_of id ++ " Mise à jour: " ++ subject.

Definition update_body (id : N) (notes : string) : string :=
  nl ++ "Bonjour," ++ nl ++ nl
  ++ "Une mise à jour a été effectuée sur votre ticket #" ++ str_of_N id ++ ":"
  ++ nl ++ nl ++ notes ++ nl ++ nl
  ++ "Vous pouvez répondre à cet e-mail pour ajouter un commentaire au ticket."
  ++ nl ++ nl ++ "Cordialement," ++ nl ++ "L'équipe support" ++ nl
  ++ "                        ".

Definition webhook_update_body (id : N) : string :=
  nl ++ "Bonjour," ++ nl ++ nl
  ++ "Une mise à jour a été effectuée sur votre ticket #" ++ str_of_N id ++ "."
  ++ nl ++ nl
  ++ "Vous pouvez répondre à cet e-mail pour ajouter un commentaire au ticket."
  ++ nl ++ nl ++ "Cordialement," ++ nl ++ "L'équipe support" ++ nl
  ++ "                    ".

(** [f"De: {from_email}\n\n{body}"] *)
Definition description_of (from_email body : string) : string :=
  "De: " ++ from_email ++ nl ++ nl ++ body.

(** [f"Commentaire par e-mail de {from_email}:\n\n{body}"] *)
Definition comment_of (from_email body : string) : string :=
  "Commentaire par e-mail de " ++ from_email ++ ":" ++ nl ++ nl ++ body.

(* ------------------------------------------------------------------ *)
(** ** The requester of a ticket

    The loop that [process_redmine_updates] and [redmine_webhook] both run
    over [description.split('\n')]: the value of [requester_email] when
    the loop is left. *)

Fixpoint first_De_line (description_lines : list string) : option string :=
  match description_lines with
  | [] => None
  | line :: rest =>
      if startswith line "De:" then Some (strip (replace line "De:" ""))
      else first_De_line rest
  end.

Definition requester_email (description : string) : option string :=
  first_De_line (split "010" description).

(** [if requester_email:] *)
Definition has_requester (r : option string) : bool :=
  match r with Some s => PyStr.truthy s | None => false end.

(* ------------------------------------------------------------------ *)
(** ** The body of a fetched e-mail *)

Definition str_of_header (h : option string) : string :=
  match h with Some s => s | None => "None" end.

(** [payload.decode()] *)
Definition decode (b : string) : exn + string :=
  if valid_utf8 b then inr b else inl (UnicodeDecodeError b).

(** The loop over [email_message.walk()]: [body] stays empty when no part
    qualifies. *)
Fixpoint first_text_plain (parts : list Part) : exn + string :=
  match parts with
  | [] => inr ""
  | part :: rest =>
      if negb (contains "attachment" (str_of_header (content_disposition part)))
      then if String.eqb (content_type part) "text/plain"
           then decode (part_payload part)
           else first_text_plain rest
      else first_text_plain rest
  end.

Definition body_of (email_message : EmailMessage) : exn + string :=
  match content email_message with
  | Multipart parts => first_text_plain parts
  | SinglePart p => decode p
  end.

(** 2000-01-01T00:00:00Z *)
Definition y2k : Z := 946684800.

(* ------------------------------------------------------------------ *)
(** ** Values compared by [>=]

    [journal.created_on] is a [datetime], [updated_since] an [int]: the
    comparison of the two is not defined, and raises. *)

Inductive ordered : Type :=
| an_int (z : Z)
| a_datetime (seconds : Z).

Definition ge (a b : ordered) : exn + bool :=
  match a, b with
  | an_int x, an_int y => inr (y <=? x)%Z
  | a_datetime x, a_datetime y => inr (y <=? x)%Z
  | an_int _, a_datetime _ => inl (TypeError ">=" [int_; datetime_])
  | a_datetime _, an_int _ => inl (TypeError ">=" [datetime_; int_])
  end.

(* ------------------------------------------------------------------ *)
(** ** The functions of [connect.py] *)

Section Connect.

Variable ns : Namespace.
Variable rt : Runtime.

(** [f"{v}"] *)
Definition format (v : json) : string :=
  match v with
  | JStr s => s
  | JNum z => Json.str_of_Z z
  | JBool true => "True"
  | JBool false => "False"
  | JNull => "None"
  | JArr _ | JObj _ => repr rt v
  end.

(** [if tracker_id: issue_data['tracker_id'] = tracker_id] *)
Definition given (name : string) (v : option Z) : list (string * Z) :=
  match v with
  | Some z => if (z =? 0)%Z then [] else [(name, z)]
  | None => []
  end.

Definition create_redmine_issue (subject description : string) (project_id : Z)
    (tracker_id status_id priority_id assigned_to_id : option Z)
  : M (option Issue.t) :=
  try_except
    (let issue_data :=
       (given "tracker_id" tracker_id ++ given "status_id" status_id
        ++ given "priority_id" priority_id
        ++ given "assigned_to_id" assigned_to_id)%list in
     issue <- redmine_issue_create subject description project_id issue_data ;;
     logger INFO ("Ticket Redmine créé avec succès: #" ++ str_of_N (Issue.id issue)) ;;;
     ret (Some issue))
    (fun e =>
       logger ERROR ("Erreur lors de la création du ticket Redmine: "
                     ++ str_of_exn rt e) ;;;
       ret None).

Definition update_redmine_issue (issue_id : json) (notes : string) : M bool :=
  try_except
    (issue <- redmine_issue_get issue_id ;;
     redmine_issue_update issue_id notes ;;;
     logger INFO ("Ticket Redmine #" ++ format issue_id ++ " mis à jour avec succès") ;;;
     ret true)
    (fun e =>
       match e with
       | ResourceNotFoundError =>
           logger ERROR ("Ticket Redmine #" ++ format issue_id ++ " non trouvé") ;;;
           ret false
       | _ =>
           logger ERROR ("Erreur lors de la mise à jour du ticket Redmine #"
                         ++ format issue_id ++ ": " ++ str_of_exn rt e) ;;;
           ret false
       end).

Definition add_comment_to_redmine_issue (issue_id : json) (comment : string)
  : M bool :=
  update_redmine_issue issue_id comment.

Definition get_redmine_issue (issue_id : json) : M (option Issue.t) :=
  try_except
    (issue <- redmine_issue_get issue_id ;; ret (Some issue))
    (fun e =>
       match e with
       | ResourceNotFoundError =>
           logger ERROR ("Ticket Redmine #" ++ format issue_id ++ " non trouvé") ;;;
           ret None
       | _ =>
           logger ERROR ("Erreur lors de la récupération du ticket Redmine #"
                         ++ format issue_id ++ ": " ++ str_of_exn rt e) ;;;
           ret None
       end).

(** [EMAIL_SERVER], read at call time. *)
Definition read_EMAIL_SERVER : M string :=
  match EMAIL_SERVER ns with
  | Some host => ret host
  | None => raise (NameError "EMAIL_SERVER")
  end.

(** A step of the construction of the message that may raise. *)
Definition also {A : Type} (r : option exn) (k : exn + A) : exn + A :=
  match r with Some e => inl e | None => k end.

(** [if cc:] *)
Definition given_cc (cc : option string) : option string :=
  match cc with
  | Some c => if PyStr.truthy c then Some c else None
  | None => None
  end.

(** The loop over [attachments]: each file is read, then attached under
    its base name. *)
Fixpoint attach (attachments : list string) : exn + list (string * string) :=
  match attachments with
  | [] => inr []
  | attachment :: rest =>
      match read_file rt attachment with
      | inl e => inl e
      | inr file_data =>
          let file_name := basename attachment in
          also (add_attachment rt file_data file_name)
               (match attach rest with
                | inl e => inl e
                | inr attached => inr ((file_name, file_data) :: attached)
                end)
      end
  end.

(** Lines 119 to 133 of [send_email]: the headers, the content, the
    attachments ([None] and the empty list alike attach nothing).  The
    result is the list of the files attached. *)
Definition build_message (to_email subject body : string) (cc : option string)
    (attachments : list string) : exn + list (string * string) :=
  also (set_item rt "Subject" subject)
  (also (set_item rt "From" (EMAIL_USER ns))
  (also (set_item rt "To" to_email)
  (also (match given_cc cc with
         | Some c => set_item rt "Cc" c
         | None => None
         end)
  (also (set_content rt body)
        (attach attachments))))).

Definition send_email (to_email subject body : string) (cc : option string)
    (attachments : list string) : M bool :=
  note_request (mkMail to_email subject body) ;;;
  try_except
    (let msg := mkMail to_email subject body in
     attached <- lift (build_message to_email subject body cc attachments) ;;
     host <- read_EMAIL_SERVER ;;
     smtp_send (mkSent host (EMAIL_PORT ns) (EMAIL_USER ns) (given_cc cc)
                       msg attached) ;;;
     logger INFO ("E-mail envoyé avec succès à " ++ to_email) ;;;
     ret true)
    (fun e =>
       logger ERROR ("Erreur lors de l'envoi de l'e-mail: " ++ str_of_exn rt e) ;;;
       ret false).

(** One turn of the loop of [check_emails]. *)
Definition check_emails_message (num : N) : M unit :=
  fetched <- imap_fetch num ;;
  match fetched with
  | None =>
      logger ERROR ("Impossible de récupérer l'e-mail b'" ++ str_of_N num ++ "'")
  | Some email_message =>
      let subject := Subject email_message in
      let from_email := From email_message in
      body <- lift (body_of email_message) ;;
      let description := description_of from_email body in
      let project_id := default_project_id ns in
      issue <- create_redmine_issue subject description project_id
                                    None None None None ;;
      match issue with
      | Some issue =>
          imap_store_seen num ;;;
          send_email from_email (confirmation_subject (Issue.id issue))
                     (confirmation_body (Issue.id issue)) None [] ;;;
          ret tt
      | None => ret tt
      end
  end.

(** [mail.close()] and [mail.logout()], after the loop, change nothing
    that is modelled. *)
Definition check_emails : M unit :=
  try_except
    (host <- read_EMAIL_SERVER ;;
     imap_open host (EMAIL_USER ns) (EMAIL_PASSWORD ns) ;;;
     found <- imap_search_unseen ;;
     match found with
     | None => logger ERROR "Impossible de rechercher les e-mails"
     | Some nums => for_each nums check_emails_message
     end)
    (fun e =>
       logger ERROR ("Erreur lors de la vérification des e-mails: "
                     ++ str_of_exn rt e)).

(** The inner loop of [process_redmine_updates], for one journal:
    [hasattr(journal, 'created_on') and journal.created_on >= updated_since],
    then [hasattr(journal, 'notes') and journal.notes]. *)
Definition notify_journal (updated_since : Z) (issue : Issue.t)
    (requester : string) (journal : Journal.t) : M unit :=
  match Journal.created_on journal with
  | Some created_on =>
      recent <- lift (ge (a_datetime created_on) (an_int updated_since)) ;;
      if recent : bool
      then match Journal.notes journal with
           | Some notes =>
               if PyStr.truthy notes
               then send_email requester
                               (update_subject (Issue.id issue) (Issue.subject issue))
                               (update_body (Issue.id issue) notes) None [] ;;;
                    ret tt
               else ret tt
           | None => ret tt
           end
      else ret tt
  | None => ret tt
  end.

(** The outer loop of [process_redmine_updates], for one issue. *)
Definition notify_issue (updated_since : Z) (issue : Issue.t) : M unit :=
  issue_detail <- get_redmine_issue (JNum (Z.of_N (Issue.id issue))) ;;
  match issue_detail with
  | None => ret tt
  | Some issue_detail =>
      match requester_email (Issue.description issue_detail) with
      | Some requester =>
          if PyStr.truthy requester
          then for_each (Issue.journals issue_detail)
                        (notify_journal updated_since issue requester)
          else ret tt
      | None => ret tt
      end
  end.

(** [int(time.time()) - (EMAIL_CHECK_INTERVAL * 60)], for the reading
    [time] of the clock. *)
Definition updated_since (time : Z) : Z :=
  (time - EMAIL_CHECK_INTERVAL ns * 60)%Z.

(** The query of [process_redmine_updates]:
    [updated_on=">=2000-01-01T00:00:00Z", sort="updated_on:desc", limit=100]. *)
Definition recent_issues : Query := mkQuery y2k updated_on_desc 100.

Definition process_redmine_updates (time : Z) : M unit :=
  try_except
    (let updated_since := updated_since time in
     issues <- redmine_issue_filter recent_issues ;;
     for_each issues (notify_issue updated_since))
    (fun e =>
       logger ERROR ("Erreur lors du traitement des mises à jour Redmine: "
                     ++ str_of_exn rt e)).

Definition invalid_json : Response :=
  mkResponse (JObj [("error", JStr "Données JSON invalides")]) 400.

Definition success : Response :=
  mkResponse (JObj [("status", JStr "success")]) 200.

Definition internal_error (e : exn) : Response :=
  mkResponse (JObj [("error", JStr (str_of_exn rt e))]) 500.

(** [POST /webhook/redmine].  [request_json] is what evaluating
    [request.json] gives: the parsed body, or the exception raised for a
    body that cannot be parsed. *)
Definition redmine_webhook (request_json : exn + json) : M Response :=
  try_except
    (data <- lift request_json ;;
     if negb (Json.truthy data) then ret invalid_json
     else
       has_issue <- lift (Json.contains "issue" data) ;;
       (if has_issue : bool
        then
          issue_obj <- lift (Json.getitem data "issue") ;;
          issue_id <- lift (Json.getitem issue_obj "id") ;;
          issue <- get_redmine_issue issue_id ;;
          match issue with
          | Some issue =>
              match requester_email (Issue.description issue) with
              | Some requester =>
                  if PyStr.truthy requester
                  then send_email requester
                                  (update_subject (Issue.id issue) (Issue.subject issue))
                                  (webhook_update_body (Issue.id issue)) None [] ;;;
                       ret tt
                  else ret tt
              | None => ret tt
              end
          | None => ret tt
          end
        else ret tt) ;;;
       ret success)
    (fun e =>
       logger ERROR ("Erreur dans le webhook Redmine: " ++ str_of_exn rt e) ;;;
       ret (internal_error e)).

(** [not data or 'from' not in data or 'subject' not in data
     or 'body' not in data], left to right. *)
Definition lacks_fields (data : json) : exn + bool :=
  if negb (Json.truthy data) then inr true
  else match Json.contains "from" data with
       | inl e => inl e
       | inr false => inr true
       | inr true =>
           match Json.contains "subject" data with
           | inl e => inl e
           | inr false => inr true
           | inr true =>
               match Json.contains "body" data with
               | inl e => inl e
               | inr b => inr (negb b)
               end
           end
       end.

(** [re.search(pattern, subject)] wants a string. *)
Definition re_search (subject : json) : exn + option string :=
  match subject with
  | JStr s => inr (re_search_tag (unicode_decimal rt) s)
  | _ => inl (TypeError "re.search" [Json.kind_of subject])
  end.

Definition subject_text (subject : json) : string :=
  match subject with JStr s => s | _ => format subject end.

(** [POST /webhook/email]; [request_json] as for [redmine_webhook]. *)
Definition email_webhook (request_json : exn + json) : M Response :=
  try_except
    (data <- lift request_json ;;
     invalid <- lift (lacks_fields data) ;;
     if invalid : bool then ret invalid_json
     else
       from_email <- lift (Json.getitem data "from") ;;
       subject <- lift (Json.getitem data "subject") ;;
       body <- lift (Json.getitem data "body") ;;
       ticket_id_match <- lift (re_search subject) ;;
       match ticket_id_match with
       | Some ticket_id =>
           add_comment_to_redmine_issue (JStr ticket_id)
             (comment_of (format from_email) (format body)) ;;;
           ret success
       | None =>
           let description := description_of (format from_email) (format body) in
           let project_id := default_project_id ns in
           issue <- create_redmine_issue (subject_text subject) description
                                         project_id None None None None ;;
           match issue with
           | Some issue =>
               send_email (format from_email)
                          (confirmation_subject (Issue.id issue))
                          (confirmation_body (Issue.id issue)) None [] ;;;
               ret success
           | None => ret success
           end
       end)
    (fun e =>
       logger ERROR ("Erreur dans le webhook e-mail: " ++ str_of_exn rt e) ;;;
       ret (internal_error e)).

End Connect.

(* ------------------------------------------------------------------ *)
(** ** Vocabulary of the statements *)

(** The two servers and the relay are as they were. *)
Definition same_servers (w w' : World) : Prop :=
  redmine w' = redmine w /\ mailbox w' = mailbox w
  /\ smtp_accepts w' = smtp_accepts w.

(** The e-mail that [process_redmine_updates] writes for a journal entry
    of an issue. *)
Definition announcement (issue : Issue.t) (requester notes : string) : Mail :=
  mkMail requester (update_subject (Issue.id issue) (Issue.subject issue))
         (update_body (Issue.id issue) notes).

(** [m] announces a journal entry of an issue of the server that was
    created strictly after [since] and has notes that are not empty. *)
Definition announces_new (rm : Redmine.t) (since : Z) (m : Mail) : Prop :=
  exists issue requester journal created_on notes,
    In issue (Redmine.issues rm)
    /\ In journal (Issue.journals issue)
    /\ Journal.created_on journal = Some created_on
    /\ (since < created_on)%Z
    /\ Journal.notes journal = Some notes
    /\ notes <> ""
    /\ m = announcement issue requester notes.

(** [a] was updated no earlier than [b]. *)
Definition more_recent (a b : Issue.t) : Prop :=
  (Issue.updated_on b <= Issue.updated_on a)%Z.

(** The issues that the loop of one pass ranges over. *)
Definition examined (rm : Redmine.t) : list Issue.t :=
  match Redmine.issue_filter rm recent_issues with
  | inr issues => issues
  | inl _ => []
  end.

(** [hasattr(journal, 'created_on')] *)
Definition dated (journal : Journal.t) : bool :=
  match Journal.created_on journal with Some _ => true | None => false end.

(** The issue has a requester and a journal entry that carries its date:
    the pass gets as far as comparing that date. *)
Definition commented (detail : Issue.t) : bool :=
  has_requester (requester_email (Issue.description detail))
  && existsb dated (Issue.journals detail).

(** What comparing a [datetime] with an [int] raises. *)
Definition incomparable : exn := TypeError ">=" [datetime_; int_].

(** The pass stops at the issue: what Redmine returns for its number is
    [commented]. *)
Definition stalls (rm : Redmine.t) (issue : Issue.t) : bool :=
  match Redmine.issue_get rm (JNum (Z.of_N (Issue.id issue))) with
  | inr detail => commented detail
  | inl _ => false
  end.

(** What the creation that [check_emails] asks for the letter [n] gives in
    the world [w]: the new issue and the new state of Redmine, or [None]
    when the letter cannot be fetched or decoded, or Redmine refuses. *)
Definition creation_of (ns : Namespace) (w : World) (n : N)
  : option (Issue.t * Redmine.t) :=
  match find (fun l => N.eqb (num l) n) (letters (mailbox w)) with
  | Some l =>
      if fetch_ok l
      then match body_of (raw_email l) with
           | inr body =>
               match Redmine.issue_create (redmine w) (Subject (raw_email l))
                       (description_of (From (raw_email l)) body)
                       (default_project_id ns) [] with
               | inr created => Some created
               | inl _ => None
               end
           | inl _ => None
           end
      else None
  | None => None
  end.

(** The sender of the letter [n]. *)
Definition sender_of (w : World) (n : N) : string :=
  match find (fun l => N.eqb (num l) n) (letters (mailbox w)) with
  | Some l => From (raw_email l)
  | None => ""
  end.

(** The issue that the body of a Redmine callback refers to:
    [data['issue']['id']], when the two keys are there and Redmine has the
    issue. *)
Definition referenced (rm : Redmine.t) (data : json) : option Issue.t :=
  match Json.getitem data "issue" with
  | inr issue_obj =>
      match Json.getitem issue_obj "id" with
      | inr issue_id =>
          match Redmine.issue_get rm issue_id with
          | inr issue => Some issue
          | inl _ => None
          end
      | inl _ => None
      end
  | inl _ => None
  end.

(** The issue [i'] is the issue [i] with, at most, journal entries added
    at the end. *)
Definition keeps (i i' : Issue.t) : Prop :=
  Issue.id i' = Issue.id i
  /\ Issue.subject i' = Issue.subject i
  /\ Issue.description i' = Issue.description i
  /\ Issue.project_id i' = Issue.project_id i
  /\ Issue.classifiers i' = Issue.classifiers i
  /\ exists more, Issue.journals i' = (Issue.journals i ++ more)%list.

(** The table of [rm'] is that of [rm], issue by issue and in the same
    order, each issue kept, followed by new issues. *)
Definition grows (rm rm' : Redmine.t) : Prop :=
  exists kept new,
    Redmine.issues rm' = (kept ++ new)%list
    /\ Forall2 keeps (Redmine.issues rm) kept.

(** The letter [n] is in the mailbox and [FETCH] answers OK for it. *)
Definition fetchable (mb : Mailbox) (n : N) : bool :=
  match find (fun l => N.eqb (num l) n) (letters mb) with
  | Some l => fetch_ok l
  | None => false
  end.

(** A part that the loop over [walk()] takes as the body: not an
    attachment, and plain text. *)
Definition is_text_body (part : Part) : bool :=
  negb (contains "attachment" (str_of_header (content_disposition part)))
  && String.eqb (content_type part) "text/plain".

(** [s] contains a correlation tag: the opening, at least one digit, the
    closing bracket. *)
Definition tagged (decimal : N -> bool) (s : string) : Prop :=
  exists pre g post : string,
    s = pre ++ tag_open ++ g ++ "]" ++ post
    /\ g <> "" /\ all_digits decimal g = true.

(** No character of [p] is [c]. *)
Fixpoint free_of (c : ascii) (p : string) : bool :=
  match p with
  | EmptyString => true
  | String a p' => negb (Ascii.eqb a c) && free_of c p'
  end.

(** The message that [send_email] hands to the relay when it is called
    with these arguments in the namespace [ns]. *)
Definition message_of (ns : Namespace) (host to_email subject body : string)
    (cc : option string) (attached : list (string * string)) : Sent :=
  mkSent host (EMAIL_PORT ns) (EMAIL_USER ns) (given_cc cc)
         (mkMail to_email subject body) attached.

(* ------------------------------------------------------------------ *)
(** ** A small installation, for the examples *)

Module Scenario.

Definition cfg : Config :=
  mkConfig 1 "imap.example.com" "smtp.example.com" 587
           "support@example.com" "secret" 5.

(** The module as it is written. *)
Definition as_written : Namespace := connect_module cfg.

(** The same namespace with [EMAIL_SERVER] bound from outside. *)
Definition patched : Namespace :=
  mkNamespace 1 "imap.example.com" "smtp.example.com" 587
              "support@example.com" "secret" 5 (Some "smtp.example.com").

(** *** An interpreter

    The decimal digits of Unicode 14: the digit zero of each script, which
    nine digits follow, and the five series of mathematical digits. *)

Definition decimal_zeros : list N :=
  [0x30; 0x660; 0x6F0; 0x7C0; 0x966; 0x9E6; 0xA66; 0xAE6; 0xB66; 0xBE6;
   0xC66; 0xCE6; 0xD66; 0xDE6; 0xE50; 0xED0; 0xF20; 0x1040; 0x1090; 0x17E0;
   0x1810; 0x1946; 0x19D0; 0x1A80; 0x1A90; 0x1B50; 0x1BB0; 0x1C40; 0x1C50;
   0xA620; 0xA8D0; 0xA900; 0xA9D0; 0xA9F0; 0xAA50; 0xABF0; 0xFF10; 0x104A0;
   0x10D30; 0x11066; 0x110F0; 0x11136; 0x111D0; 0x112F0; 0x11450; 0x114D0;
   0x11650; 0x116C0; 0x11730; 0x118E0; 0x11950; 0x11C50; 0x11D50; 0x11DA0;
   0x16A60; 0x16AC0; 0x16B50; 0x1E140; 0x1E2F0; 0x1E950; 0x1FBF0]%N.

Definition decimal (n : N) : bool :=
  existsb (fun zero => ((zero <=? n) && (n <? zero + 10))%N) decimal_zeros
  || ((0x1D7CE <=? n) && (n <=? 0x1D7FF))%N.

Definition no_repr (v : json) : string := "".

Definition kind_name (k : kind) : string :=
  match k with
  | NoneType => "NoneType"
  | bool_ => "bool"
  | int_ => "int"
  | str_ => "str"
  | list_ => "list"
  | dict_ => "dict"
  | datetime_ => "datetime.datetime"
  end.

(** A rendering of exceptions: the texts of Python for [NameError] and
    [KeyError], the name of the class and its subject for the others. *)
Definition str_exn (e : exn) : string :=
  match e with
  | NameError n => "name '" ++ n ++ "' is not defined"
  | KeyError k => "'" ++ k ++ "'"
  | TypeError op ks =>
      "TypeError: " ++ op ++ fold_right (fun k s => " " ++ kind_name k ++ s) "" ks
  | ValueError a => "ValueError: " ++ a
  | UnicodeEncodeError _ => "UnicodeEncodeError"
  | UnicodeDecodeError _ => "UnicodeDecodeError"
  | OSError p => "OSError: " ++ p
  | HTTPException c => "HTTPException: " ++ Json.str_of_Z c
  | ResourceNotFoundError => "Requested resource doesn't exist"
  | TransportError m => "TransportError: " ++ m
  end.

Definition cr : string := String "013"%char "".

Definition one_line (value : string) : bool :=
  negb (contains nl value) && negb (contains cr value).

(** An [EmailMessage] that refuses line breaks in headers and file names,
    and a text that cannot be encoded. *)
Definition header (name value : string) : option exn :=
  if one_line value then None else Some (ValueError name).

Definition content_of (body : string) : option exn :=
  if valid_utf8 body then None else Some (UnicodeEncodeError body).

Definition attachment (file_data file_name : string) : option exn :=
  if one_line file_name then None else Some (ValueError "filename").

(** A file system with one file. *)
Definition file (path : string) : exn + string :=
  if String.eqb path "/srv/reports/week.txt" then inr "all green"
  else inl (OSError path).

Definition runtime : Runtime :=
  mkRuntime no_repr str_exn decimal header content_of attachment file.

(** *** A Redmine *)

(** A moment in 2023, taken as the watermark of the examples. *)
Definition t0 : Z := 1700000000.

Definition ticket7 : Issue.t :=
  Issue.mk 7 "Need help" (description_of "a@b.com" "it's broken") 1 []
           t0 [].

(** A server that accepts every ticket and every comment; status 5 is
    the closed one. *)
Definition hosting (issues : list Issue.t) (next_id : N) (up : bool) (now : Z)
  : Redmine.t :=
  Redmine.mk issues next_id up (fun _ _ _ => true) now (fun _ _ => true)
             (fun s => (s =? 5)%Z).

Definition server (up : bool) : Redmine.t := hosting [ticket7] 8 up (t0 + 200).

(** The same server with comments on ticket 7 not allowed. *)
Definition locked : Redmine.t :=
  Redmine.mk [ticket7] 8 true (fun _ _ _ => true) (t0 + 200)
             (fun n _ => negb (N.eqb n 7)) (fun s => (s =? 5)%Z).

Definition journal_at (t : Z) (notes : string) : Journal.t :=
  Journal.mk (Some t) (Some notes).

(** Ticket 7 with three comments: before, at and after [t0]. *)
Definition followed : Issue.t :=
  Issue.mk 7 "Need help" (description_of "a@b.com" "it's broken") 1 []
           (t0 + 1)
           [journal_at (t0 - 1) "looking"; journal_at t0 "on it";
            journal_at (t0 + 1) "done"].

Definition quiet_mailbox : Mailbox := mkMailbox true true [].

Definition running (rm : Redmine.t) (mb : Mailbox) : World :=
  mkWorld rm mb (fun _ => true) [] [] [].

Definition busy : World := running (hosting [followed] 8 true (t0 + 300)) quiet_mailbox.

(** *** A mailbox *)

Definition letter1 : Letter :=
  mkLetter 1 false true
           (mkEmailMessage "[Redmine #7] thanks" "a@b.com" (SinglePart "it works")).

Definition letter2 : Letter :=
  mkLetter 2 false true
           (mkEmailMessage "Printer" "c@d.org" (SinglePart "no paper")).

Definition inbox : Mailbox := mkMailbox true true [letter1; letter2].

Definition world (up : bool) : World := running (server up) inbox.

(** A letter that [FETCH] does not deliver, and one in Latin-1, whose
    bytes do not decode. *)
Definition letter3 : Letter :=
  mkLetter 3 false false
           (mkEmailMessage "Lost" "e@f.net" (SinglePart "unread")).

Definition latin1 : string :=
  String "233"%char (String "t"%char (String "233"%char "")).

Definition letter4 : Letter :=
  mkLetter 4 false true (mkEmailMessage "Garbled" "g@h.io" (SinglePart latin1)).

Definition mixed : World :=
  running (server true) (mkMailbox true true [letter1; letter3; letter2]).

Definition poisoned : World :=
  running (server true) (mkMailbox true true [letter4; letter2]).

(** The mailbox with the reply to ticket 7 only. *)
Definition reply_waiting : World :=
  running (server true) (mkMailbox true true [letter1]).

(** The mailbox with the letter about the printer only. *)
Definition printer_waiting (up : bool) : World :=
  running (server up) (mkMailbox true true [letter2]).

Definition post (from_email subject body : string) : exn + json :=
  inr (JObj [("from", JStr from_email); ("subject", JStr subject);
             ("body", JStr body)]).

(** *** A crowded Redmine

    101 tickets, ticket [k] updated [k] seconds after [t0].  The first
    hundred are open and have no comment; ticket 101, the most recently
    updated, is closed. *)
Definition numbered (k : nat) : Issue.t :=
  Issue.mk (N.of_nat k) "Ticket" (description_of "a@b.com" "it's broken") 1 []
           (t0 + Z.of_nat k) [].

Definition closed101 : Issue.t :=
  Issue.mk 101 "Ticket" (description_of "a@b.com" "it's broken") 1
           [("status_id", 5%Z)] (t0 + 101) [journal_at (t0 + 101) "closing"].

(** Ticket 1 with a comment. *)
Definition commented1 : Issue.t :=
  Issue.mk 1 "Ticket" (description_of "a@b.com" "it's broken") 1 []
           (t0 + 1) [journal_at (t0 + 1) "news"].

Definition crowded (first : Issue.t) : World :=
  running (hosting (first :: map numbered (seq 2 99) ++ [closed101])%list
                   102 true (t0 + 300))
          quiet_mailbox.

End Scenario.

Example tag_of_42 : tag_of 42 = "[Redmine #42]".
Proof. reflexivity. Qed.

Example search_plain : re_search_tag Scenario.decimal "Need help" = None.
Proof. reflexivity. Qed.

Example search_reply :
  re_search_tag Scenario.decimal "Re: [Redmine #42] Re: help" = Some "42".
Proof. reflexivity. Qed.

Example search_two :
  re_search_tag Scenario.decimal "[Redmine #7] and [Redmine #9]" = Some "7".
Proof. reflexivity. Qed.

Example search_unclosed :
  re_search_tag Scenario.decimal "[Redmine #7 [Redmine #9]" = Some "9".
Proof. reflexivity. Qed.

(** [\d] takes the digits of every script: here ARABIC-INDIC DIGIT THREE,
    then a run that mixes two scripts. *)
Example search_arabic :
  re_search_tag Scenario.decimal "[Redmine #٣] merci" = Some "٣"
  /\ re_search_tag Scenario.decimal "[Redmine #٣] [Redmine #7]" = Some "٣"
  /\ re_search_tag Scenario.decimal "[Redmine #4٢] merci" = Some "4٢".
Proof. vm_compute. repeat split. Qed.

Example chars_of_text : chars "a٣é b" = ["a"; "٣"; "é"; " "; "b"].
Proof. reflexivity. Qed.

Example split_lines :
  split "010" ("a" ++ nl ++ nl ++ "b" ++ nl) = ["a"; ""; "b"; ""].
Proof. reflexivity. Qed.

Example replace_all : replace "De: De:x De:" "De:" "" = " x ".
Proof. reflexivity. Qed.

Example strip_both : strip ("  a b " ++ nl) = "a b".
Proof. reflexivity. Qed.

(** [strip] removes the no-break space and the em space as it removes the
    space. *)
Example strip_unicode :
  let nbsp := String "194"%char (String "160"%char "") in
  let emsp := String "226"%char (String "128"%char (String "131"%char "")) in
  strip (emsp ++ "x@example.com" ++ nbsp) = "x@example.com"
  /\ strip nbsp = "".
Proof. vm_compute. split; reflexivity. Qed.

Example decode_latin1 :
  decode "été" = inr "été"
  /\ decode Scenario.latin1 = inl (UnicodeDecodeError Scenario.latin1).
Proof. vm_compute. split; reflexivity. Qed.

Example basename_of_path :
  basename "/srv/reports/week.txt" = "week.txt" /\ basename "week.txt" = "week.txt".
Proof. split; reflexivity. Qed.

Example scenario_A :
  let '(r, w) := email_webhook Scenario.patched Scenario.runtime
                   (Scenario.post "a@b.com" "Need help" "it's broken")
                   (Scenario.world true) in
  r = inr success
  /\ map Issue.id (Redmine.issues (redmine w)) = [7%N; 8%N]
  /\ map mail_subject (requested w) = ["[Redmine #8] Votre demande a été enregistrée"]
  /\ length (outbox w) = 1%nat.
Proof. vm_compute. repeat split. Qed.

Example scenario_A_as_written :
  let '(r, w) := email_webhook Scenario.as_written Scenario.runtime
                   (Scenario.post "a@b.com" "Need help" "it's broken")
                   (Scenario.world true) in
  r = inr success
  /\ map Issue.id (Redmine.issues (redmine w)) = [7%N; 8%N]
  /\ map mail_subject (requested w) = ["[Redmine #8] Votre demande a été enregistrée"]
  /\ outbox w = []
  /\ hd_error (log w)
     = Some (ERROR, "Erreur lors de l'envoi de l'e-mail: name 'EMAIL_SERVER' is not defined").
Proof. vm_compute. repeat split. Qed.

Example scenario_B :
  let '(r, w) := email_webhook Scenario.as_written Scenario.runtime
                   (Scenario.post "a@b.com" "[Redmine #7] thanks" "it works")
                   (Scenario.world true) in
  r = inr success
  /\ map (fun i => map Journal.notes (Issue.journals i)) (Redmine.issues (redmine w))
     = [[Some (comment_of "a@b.com" "it works")]]
  /\ requested w = [].
Proof. vm_compute. repeat split. Qed.

Example poll_as_written :
  let '(r, w) := check_emails Scenario.as_written Scenario.runtime
                   (Scenario.world true) in
  r = inr tt
  /\ redmine w = Scenario.server true
  /\ mailbox w = Scenario.inbox
  /\ requested w = [] /\ outbox w = []
  /\ log w = [(ERROR, "Erreur lors de la vérification des e-mails: name 'EMAIL_SERVER' is not defined")].
Proof. vm_compute. repeat split. Qed.

Example poll_patched :
  let '(r, w) := check_emails Scenario.patched Scenario.runtime
                   (Scenario.world true) in
  r = inr tt
  /\ map Issue.id (Redmine.issues (redmine w)) = [7%N; 8%N; 9%N]
  /\ unseen (mailbox w) = []
  /\ map mail_to (requested w) = ["c@d.org"; "a@b.com"].
Proof. vm_compute. repeat split. Qed.

(** The pass over a ticket with comments: the first comparison of a date
    with the watermark raises, and nothing is sent. *)
Example pass_on_comments :
  let '(r, w) := process_redmine_updates Scenario.as_written Scenario.runtime
                   (Scenario.t0 + 300) Scenario.busy in
  r = inr tt
  /\ requested w = []
  /\ log w = [(ERROR, "Erreur lors du traitement des mises à jour Redmine: "
                      ++ Scenario.str_exn (TypeError ">=" [datetime_; int_]))].
Proof. vm_compute. repeat split. Qed.

(** A header with a line break, a file that is not there. *)
Example send_email_refusals :
  fst (send_email Scenario.patched Scenario.runtime ("a@b.com" ++ nl ++ "Bcc: x")
         "s" "b" None [] (Scenario.world true)) = inr false
  /\ fst (send_email Scenario.patched Scenario.runtime "a@b.com" "s" "b" None
            ["/srv/reports/none.txt"] (Scenario.world true)) = inr false
  /\ map sent_attachments
       (outbox (snd (send_email Scenario.patched Scenario.runtime "a@b.com" "s" "b"
                       None ["/srv/reports/week.txt"] (Scenario.world true))))
     = [[("week.txt", "all green")]].
Proof. vm_compute. repeat split. Qed.

(* ------------------------------------------------------------------ *)
(** * Strings *)

Section StringFacts.

Lemma append_assoc (a b c : string) : (a ++ b) ++ c = a ++ (b ++ c).
Proof. induction a as [|x a IH]; simpl; [reflexivity | now rewrite IH]. Qed.

Lemma append_nil_r (a : string) : a ++ "" = a.
Proof. induction a as [|x a IH]; simpl; [reflexivity | now rewrite IH]. Qed.

Lemma strip_prefix_app (p s : string) : strip_prefix p (p ++ s) = Some s.
Proof.
  induction p as [|a p IH]; simpl; [reflexivity|].
  now rewrite Ascii.eqb_refl.
Qed.

Lemma strip_prefix_cons (a b : ascii) (p s : string) :
  strip_prefix (String a p) (String b s)
  = if Ascii.eqb a b then strip_prefix p s else None.
Proof. reflexivity. Qed.

Lemma strip_prefix_some (p s r : string) :
  strip_prefix p s = Some r -> s = p ++ r.
Proof.
  revert s; induction p as [|a p IH]; intros s; simpl.
  - now intros [= ->].
  - destruct s as [|b s]; [discriminate|].
    destruct (Ascii.eqb_spec a b) as [->|]; [|discriminate].
    intros H. f_equal. now apply IH.
Qed.

Lemma strip_prefix_app_some (p s r t : string) :
  strip_prefix p s = Some r -> strip_prefix p (s ++ t) = Some (r ++ t).
Proof.
  intros H. rewrite (strip_prefix_some _ _ _ H), append_assoc.
  apply strip_prefix_app.
Qed.

(** A prefix that does not hold the character [c] cannot be completed by a
    text that starts with [c]. *)
Lemma strip_prefix_app_none (c : ascii) (p s t : string) :
  free_of c p = true ->
  strip_prefix p s = None ->
  strip_prefix p (s ++ String c t) = None.
Proof.
  revert s; induction p as [|a p IH]; intros s Hp; simpl; [discriminate|].
  simpl in Hp. apply andb_true_iff in Hp as [Ha Hp].
  destruct s as [|b s]; simpl.
  - intros _. destruct (Ascii.eqb a c); [discriminate | reflexivity].
  - destruct (Ascii.eqb a b); [now apply IH | reflexivity].
Qed.

(** ** The characters of a string *)

Lemma join_cons (c : string) (l : list string) : join (c :: l) = c ++ join l.
Proof. reflexivity. Qed.

Lemma join_app (l1 l2 : list string) :
  join (l1 ++ l2)%list = join l1 ++ join l2.
Proof.
  induction l1 as [|c l1 IH]; [reflexivity|].
  cbn [app]. now rewrite !join_cons, IH, append_assoc.
Qed.

Lemma take_conts_join (k : nat) (cs : list string) (t : string)
    (rest : list string) :
  take_conts k cs = Some (t, rest) -> join cs = t ++ join rest.
Proof.
  revert cs t rest. induction k as [|k IH]; intros cs t rest; cbn [take_conts].
  - now intros [= <- <-].
  - destruct cs as [|[|b [|? ?]] cs]; try discriminate.
    destruct (is_cont b); [|discriminate].
    destruct (take_conts k cs) as [[u r]|] eqn:E; [|discriminate].
    intros [= <- <-]. rewrite join_cons. cbn [append].
    now rewrite (IH _ _ _ E).
Qed.

(** Cutting a string into characters loses nothing. *)
Lemma join_chars (s : string) : join (chars s) = s.
Proof.
  induction s as [|a r IH]; [reflexivity|].
  cbn [chars].
  destruct (take_conts (expects a) (chars r)) as [[t rest]|] eqn:E.
  - apply take_conts_join in E. rewrite join_cons. cbn [append].
    now rewrite <- E, IH.
  - rewrite join_cons. cbn [append]. now rewrite IH.
Qed.

Lemma chars_single (a : ascii) (r : string) :
  expects a = 0%nat -> chars (String a r) = String a "" :: chars r.
Proof. intros H. cbn [chars]. now rewrite H. Qed.

Lemma is_cont_expects (a : ascii) : is_cont a = true -> expects a = 0%nat.
Proof.
  unfold is_cont, expects. intros H. apply andb_true_iff in H as [_ H].
  apply N.ltb_lt in H.
  destruct (N.ltb_spec (byte a) 0xC2); [reflexivity | lia].
Qed.

Lemma chars_head (a : ascii) (r : string) :
  exists u rest, chars (String a r) = String a u :: rest.
Proof.
  cbn [chars]. destruct (take_conts _ _) as [[t rest]|]; eauto.
Qed.

Lemma take_conts_app (k : nat) (l1 l2 : list string) :
  take_conts 1 l2 = None ->
  take_conts k (l1 ++ l2)%list
  = match take_conts k l1 with
    | Some (u, r) => Some (u, (r ++ l2)%list)
    | None => None
    end.
Proof.
  intros H2. revert l1. induction k as [|k IH]; intros l1; [reflexivity|].
  destruct l1 as [|c l1].
  - cbn [app]. cbn [take_conts] in *.
    destruct l2 as [|[|b [|? ?]] l2]; try reflexivity.
    destruct (is_cont b); [discriminate | reflexivity].
  - cbn [app take_conts].
    destruct c as [|b [|? ?]]; try reflexivity.
    destruct (is_cont b); [|reflexivity].
    rewrite IH. now destruct (take_conts k l1) as [[u r]|].
Qed.

(** The characters of a text do not depend on what follows it, when what
    follows starts a character. *)
Lemma chars_app (s t : string) :
  match t with String a _ => is_cont a = false | EmptyString => True end ->
  chars (s ++ t) = (chars s ++ chars t)%list.
Proof.
  intros Ht.
  assert (H2 : take_conts 1 (chars t) = None).
  { destruct t as [|a t]; [reflexivity|].
    destruct (chars_head a t) as (u & rest & ->). cbn.
    destruct u; [now rewrite Ht | reflexivity]. }
  induction s as [|x s IH]; [reflexivity|].
  cbn [append chars]. rewrite IH, take_conts_app by exact H2.
  now destruct (take_conts (expects x) (chars s)) as [[u r]|].
Qed.

(** A well-formed character is one character, whatever follows it. *)
Lemma chars_char (c t : string) (n : N) :
  code_point c = Some n -> chars (c ++ t) = c :: chars t.
Proof.
  unfold code_point. destruct c as [|a u]; [discriminate|].
  destruct (expects a) as [|[|[|[|k]]]] eqn:E.
  - destruct u; [|discriminate]. intros _. now apply chars_single.
  - destruct u as [|b [|? ?]]; try discriminate.
    destruct (is_cont b) eqn:Hb; [|discriminate]. intros _.
    cbn [append chars]. rewrite E, (is_cont_expects _ Hb). cbn. now rewrite Hb.
  - destruct u as [|b [|c [|? ?]]]; try discriminate.
    destruct (is_cont b) eqn:Hb; [|discriminate].
    destruct (is_cont c) eqn:Hc; [|discriminate]. intros _.
    cbn [append chars].
    rewrite E, (is_cont_expects _ Hb), (is_cont_expects _ Hc). cbn.
    now rewrite Hb, Hc.
  - destruct u as [|b [|c [|d [|? ?]]]]; try discriminate.
    destruct (is_cont b) eqn:Hb; [|discriminate].
    destruct (is_cont c) eqn:Hc; [|discriminate].
    destruct (is_cont d) eqn:Hd; [|discriminate]. intros _.
    cbn [append chars].
    rewrite E, (is_cont_expects _ Hb), (is_cont_expects _ Hc),
      (is_cont_expects _ Hd). cbn.
    now rewrite Hb, Hc, Hd.
  - now destruct u.
Qed.

Lemma chars_join (l : list string) (t : string) :
  Forall (fun c => code_point c <> None) l ->
  chars (join l ++ t) = (l ++ chars t)%list.
Proof.
  induction 1 as [|c l Hc Hl IH]; [reflexivity|].
  rewrite join_cons, append_assoc. cbn [app].
  destruct (code_point c) as [n|] eqn:E; [|contradiction].
  now rewrite (chars_char _ _ _ E), IH.
Qed.

(** ** Runs *)

Lemma span_spec {A : Type} (p : A -> bool) (l a b : list A) :
  span p l = (a, b) -> l = (a ++ b)%list /\ forallb p a = true.
Proof.
  revert a b. induction l as [|x l IH]; intros a b; cbn [span].
  - now intros [= <- <-].
  - destruct (p x) eqn:Hx.
    + destruct (span p l) as [a' b'] eqn:Hs. intros [= <- <-].
      destruct (IH _ _ eq_refl) as [-> Ha]. cbn. now rewrite Hx, Ha.
    + now intros [= <- <-].
Qed.

Lemma span_all {A : Type} (p : A -> bool) (l : list A) :
  forallb p l = true -> span p l = (l, []).
Proof.
  induction l as [|x l IH]; [reflexivity|].
  cbn [forallb span]. intros H. apply andb_true_iff in H as [-> H].
  now rewrite (IH H).
Qed.

Lemma span_app_stop {A : Type} (p : A -> bool) (l1 l2 : list A) (x : A) :
  p x = false ->
  span p (l1 ++ x :: l2)%list
  = (fst (span p l1), (snd (span p l1) ++ x :: l2)%list).
Proof.
  intros Hx. induction l1 as [|y l1 IH]; cbn [app span].
  - now rewrite Hx.
  - destruct (p y); [|reflexivity].
    rewrite IH. now destruct (span p l1).
Qed.

Section Runs.

Variable decimal : N -> bool.

Lemma isdecimal_char (c : string) :
  isdecimal decimal c = true -> code_point c <> None.
Proof. unfold isdecimal. destruct (code_point c); [discriminate | discriminate]. Qed.

Lemma forallb_isdecimal_chars (l : list string) :
  forallb (isdecimal decimal) l = true ->
  Forall (fun c => code_point c <> None) l.
Proof.
  induction l as [|c l IH]; [constructor|].
  cbn [forallb]. intros H. apply andb_true_iff in H as [Hc Hl].
  constructor; [now apply isdecimal_char | now apply IH].
Qed.

Lemma span_digits_spec (s ds r : string) :
  span_digits decimal s = (ds, r) ->
  s = ds ++ r /\ all_digits decimal ds = true.
Proof.
  unfold span_digits, all_digits.
  destruct (span (isdecimal decimal) (chars s)) as [a b] eqn:Hs.
  intros [= <- <-]. apply span_spec in Hs as [Hl Ha]. split.
  - now rewrite <- join_app, <- Hl, join_chars.
  - pose proof (chars_join a "" (forallb_isdecimal_chars _ Ha)) as H.
    rewrite append_nil_r in H. cbn [chars] in H.
    now rewrite H, List.app_nil_r.
Qed.

(** Appending a text that starts with a character that is not a digit
    leaves the run alone. *)
Lemma span_digits_app (s t : string) (c : ascii) :
  expects c = 0%nat -> is_cont c = false ->
  isdecimal decimal (String c "") = false ->
  span_digits decimal (s ++ String c t)
  = (fst (span_digits decimal s), snd (span_digits decimal s) ++ String c t).
Proof.
  intros He Hc Hd. unfold span_digits.
  rewrite chars_app by exact Hc. rewrite (chars_single _ _ He).
  rewrite span_app_stop by exact Hd.
  destruct (span (isdecimal decimal) (chars s)) as [a b]. cbn [fst snd].
  now rewrite join_app, join_cons, join_chars.
Qed.

Lemma span_digits_all (ds : string) :
  all_digits decimal ds = true -> span_digits decimal ds = (ds, "").
Proof.
  unfold all_digits, span_digits. intros H.
  rewrite (span_all _ _ H). now rewrite join_chars.
Qed.

(** ** The digits of the module's own numbers *)

Hypothesis Hascii : ascii_digits decimal = true.

Lemma ascii_digits_spec (n : N) :
  (n < 128)%N -> decimal n = ((0x30 <=? n) && (n <=? 0x39))%N.
Proof.
  intros Hn. unfold ascii_digits in Hascii.
  rewrite forallb_forall in Hascii.
  apply eqb_prop. apply Hascii.
  apply in_map_iff. exists (N.to_nat n). split; [apply N2Nat.id|].
  apply in_seq. lia.
Qed.

Lemma byte_lt_256 (c : ascii) : (byte c < 256)%N.
Proof. apply N_ascii_bounded. Qed.

Lemma isdecimal_ascii (c : ascii) :
  (byte c < 128)%N ->
  isdecimal decimal (String c "") = is_ascii_digit c.
Proof.
  intros Hc. unfold isdecimal, code_point, expects, is_ascii_digit.
  destruct (N.ltb_spec (byte c) 0xC2) as [_|H]; [|lia].
  destruct (N.ltb_spec (byte c) 0x80) as [_|H]; [|lia].
  now apply ascii_digits_spec.
Qed.

Lemma is_ascii_digit_lt (c : ascii) :
  is_ascii_digit c = true -> (byte c < 128)%N.
Proof.
  unfold is_ascii_digit. intros H. apply andb_true_iff in H as [_ H].
  apply N.leb_le in H. lia.
Qed.

Lemma expects_ascii (c : ascii) : (byte c < 128)%N -> expects c = 0%nat.
Proof.
  intros H. unfold expects.
  destruct (N.ltb_spec (byte c) 0xC2); [reflexivity | lia].
Qed.

Lemma all_ascii_digits_decimal (s : string) :
  all_ascii_digits s = true -> all_digits decimal s = true.
Proof.
  unfold all_digits. induction s as [|c s IH]; [reflexivity|].
  cbn [all_ascii_digits]. intros H. apply andb_true_iff in H as [Hc Hs].
  pose proof (is_ascii_digit_lt _ Hc) as Hlt.
  rewrite (chars_single _ _ (expects_ascii _ Hlt)). cbn [forallb].
  now rewrite (isdecimal_ascii _ Hlt), Hc, (IH Hs).
Qed.

End Runs.

Lemma all_ascii_digits_string_of_uint (d : Decimal.uint) :
  all_ascii_digits (NilEmpty.string_of_uint d) = true.
Proof. induction d; simpl; auto. Qed.

Lemma str_of_N_ascii_digits (n : N) : all_ascii_digits (str_of_N n) = true.
Proof.
  unfold str_of_N, NilZero.string_of_uint.
  destruct (N.to_uint n) eqn:E; try reflexivity;
    rewrite <- E at 1; try (rewrite E; apply all_ascii_digits_string_of_uint).
Qed.

(** The digits that an f-string writes for a number are digits for [\d]. *)
Lemma str_of_N_digits (decimal : N -> bool) (n : N) :
  ascii_digits decimal = true -> all_digits decimal (str_of_N n) = true.
Proof.
  intros H. apply all_ascii_digits_decimal; [exact H|].
  apply str_of_N_ascii_digits.
Qed.

Lemma ascii_digits_scenario : ascii_digits Scenario.decimal = true.
Proof. vm_compute. reflexivity. Qed.

End StringFacts.

(* ------------------------------------------------------------------ *)
(** * The correlation tag *)

Section Tag.

(** The decimal digits of the Unicode database of the interpreter: all
    that is known of them is that, below U+0080, they are ["0"] to
    ["9"]. *)
Variable decimal : N -> bool.
Hypothesis Hascii : ascii_digits decimal = true.

Lemma str_of_N_nonempty (n : N) : str_of_N n <> "".
Proof.
  unfold str_of_N, NilZero.string_of_uint.
  destruct (N.to_uint n); simpl; discriminate.
Qed.

Lemma to_uint_nonnil (n : N) : N.to_uint n <> Decimal.Nil.
Proof.
  rewrite <- (DecimalN.Unsigned.of_to n) at 1.
  rewrite DecimalN.Unsigned.to_of. apply unorm_nonnil.
Qed.

(** The digits the module writes for an issue name that issue. *)
Lemma number_of_str_of_N (n : N) :
  Redmine.number_of (JStr (str_of_N n)) = Some n.
Proof.
  unfold Redmine.number_of. rewrite str_of_N_ascii_digits.
  unfold N_of_str, str_of_N.
  rewrite NilZero.usu by apply to_uint_nonnil.
  simpl. now rewrite DecimalN.Unsigned.of_to.
Qed.

(** The two brackets are not digits. *)
Lemma bracket_not_decimal (c : ascii) :
  c = "]"%char \/ c = "["%char ->
  expects c = 0%nat /\ is_cont c = false
  /\ isdecimal decimal (String c "") = false.
Proof.
  intros [->| ->]; (split; [reflexivity|]; split; [reflexivity|]);
    rewrite (isdecimal_ascii decimal Hascii) by (vm_compute; reflexivity);
    reflexivity.
Qed.

Lemma span_digits_bracket (s t : string) (c : ascii) :
  c = "]"%char \/ c = "["%char ->
  span_digits decimal (s ++ String c t)
  = (fst (span_digits decimal s), snd (span_digits decimal s) ++ String c t).
Proof.
  intros Hc. destruct (bracket_not_decimal c Hc) as (He & Hn & Hd).
  now apply span_digits_app.
Qed.

(** At the position of a tag the pattern matches, and captures its digits. *)
Lemma match_tag_here_tag (g post : string) :
  g <> "" -> all_digits decimal g = true ->
  match_tag_here decimal (tag_open ++ g ++ "]" ++ post) = Some g.
Proof.
  intros Hne Hd. unfold match_tag_here.
  rewrite strip_prefix_app.
  change ("]" ++ post) with (String "]" post).
  rewrite span_digits_bracket by now left.
  rewrite (span_digits_all _ _ Hd). simpl.
  destruct g; [contradiction | reflexivity].
Qed.

Lemma match_tag_here_sound (s g : string) :
  match_tag_here decimal s = Some g ->
  exists post, s = tag_open ++ g ++ "]" ++ post
               /\ g <> "" /\ all_digits decimal g = true.
Proof.
  unfold match_tag_here.
  destruct (strip_prefix tag_open s) as [r|] eqn:Hp; [|discriminate].
  destruct (span_digits decimal r) as [ds r'] eqn:Hs.
  destruct ds as [|d ds]; [discriminate|].
  destruct r' as [|c r']; [discriminate|].
  destruct (Ascii.eqb_spec c "]") as [->|]; [|discriminate].
  intros [= <-].
  apply strip_prefix_some in Hp. apply span_digits_spec in Hs as [-> Hd].
  exists r'. repeat split; [exact Hp | discriminate | exact Hd].
Qed.

(** A failed attempt stays failed when a text starting with ["["] is put
    after the subject: no match runs across the seam. *)
Lemma match_tag_here_seam (u t : string) :
  u <> "" ->
  match_tag_here decimal u = None ->
  match_tag_here decimal (u ++ String "[" t) = None.
Proof.
  intros Hu. unfold match_tag_here.
  destruct (strip_prefix tag_open u) as [r|] eqn:Hp.
  - rewrite (strip_prefix_app_some _ _ _ _ Hp).
    rewrite span_digits_bracket by now right.
    destruct (span_digits decimal r) as [ds r']; simpl.
    destruct ds as [|d ds]; [reflexivity|].
    destruct r' as [|c r']; simpl; [reflexivity|].
    now destruct (Ascii.eqb c "]").
  - intros _.
    destruct u as [|b u]; [contradiction|].
    change tag_open with (String "[" "Redmine #") in *.
    change (String b u ++ String "[" t) with (String b (u ++ String "[" t)).
    rewrite strip_prefix_cons in *.
    destruct (Ascii.eqb "[" b); [|reflexivity].
    now rewrite (strip_prefix_app_none "[" "Redmine #" u t eq_refl Hp).
Qed.

Lemma re_search_tag_none_cons (c : ascii) (s : string) :
  re_search_tag decimal (String c s) = None ->
  match_tag_here decimal (String c s) = None /\ re_search_tag decimal s = None.
Proof.
  simpl. destruct (match_tag_here decimal (String c s)); [discriminate | auto].
Qed.

Lemma re_search_tag_here (s g : string) :
  match_tag_here decimal s = Some g -> re_search_tag decimal s = Some g.
Proof. intros H. destruct s; cbn [re_search_tag]; now rewrite H. Qed.

(** The leftmost tag is the one found. *)
Lemma re_search_tag_leftmost (pre g post : string) :
  re_search_tag decimal pre = None ->
  g <> "" -> all_digits decimal g = true ->
  re_search_tag decimal (pre ++ tag_open ++ g ++ "]" ++ post) = Some g.
Proof.
  intros Hpre Hne Hd. induction pre as [|c pre IH].
  - apply re_search_tag_here. now apply match_tag_here_tag.
  - apply re_search_tag_none_cons in Hpre as [Hhere Hrest].
    change (String c pre ++ tag_open ++ g ++ "]" ++ post)
      with (String c (pre ++ tag_open ++ g ++ "]" ++ post)).
    cbn [re_search_tag].
    change (String c (pre ++ tag_open ++ g ++ "]" ++ post))
      with (String c pre ++ String "[" ("Redmine #" ++ g ++ "]" ++ post)).
    rewrite match_tag_here_seam by (discriminate || assumption).
    now apply IH.
Qed.

Lemma re_search_tag_sound (s g : string) :
  re_search_tag decimal s = Some g -> tagged decimal s.
Proof.
  induction s as [|c s IH].
  - simpl. discriminate.
  - cbn [re_search_tag].
    destruct (match_tag_here decimal (String c s)) as [g'|] eqn:Hm.
    + intros _. destruct (match_tag_here_sound _ _ Hm) as (post & E & Hne & Hd).
      exists "", g', post. now rewrite E.
    + intros H. destruct (IH H) as (pre & g0 & post & E & Hne & Hd).
      exists (String c pre), g0, post. now rewrite E.
Qed.

Lemma re_search_tag_complete (s : string) :
  tagged decimal s -> exists g, re_search_tag decimal s = Some g.
Proof.
  intros (pre & g & post & -> & Hne & Hd).
  induction pre as [|c pre IH].
  - exists g. now apply (re_search_tag_leftmost "" g post).
  - change (String c pre ++ tag_open ++ g ++ "]" ++ post)
      with (String c (pre ++ tag_open ++ g ++ "]" ++ post)).
    cbn [re_search_tag].
    destruct (match_tag_here decimal _) as [g'|]; [now exists g' | exact IH].
Qed.

(** An attempt that succeeds does so whatever follows the subject. *)
Lemma match_tag_here_extend (u t g : string) :
  match_tag_here decimal u = Some g -> match_tag_here decimal (u ++ t) = Some g.
Proof.
  intros H. destruct (match_tag_here_sound _ _ H) as (post & -> & Hne & Hd).
  rewrite !append_assoc.
  change (("]" ++ post) ++ t) with ("]" ++ post ++ t).
  now apply match_tag_here_tag.
Qed.

(** What [re.search] returns, in full: the digits of the leftmost tag. *)
Lemma re_search_tag_spec (s g : string) :
  re_search_tag decimal s = Some g <->
  exists pre post,
    s = pre ++ tag_open ++ g ++ "]" ++ post
    /\ g <> "" /\ all_digits decimal g = true
    /\ re_search_tag decimal pre = None.
Proof.
  split.
  - revert g. induction s as [|c s IH]; intros g.
    + simpl. discriminate.
    + cbn [re_search_tag].
      destruct (match_tag_here decimal (String c s)) as [g'|] eqn:Hm.
      * intros [= <-].
        destruct (match_tag_here_sound _ _ Hm) as (post & E & Hne & Hd).
        exists "", post. now rewrite E.
      * intros H. destruct (IH _ H) as (pre & post & E & Hne & Hd & Hpre).
        exists (String c pre), post. rewrite E.
        split; [reflexivity|]. split; [exact Hne|]. split; [exact Hd|].
        cbn [re_search_tag]. rewrite Hpre.
        destruct (match_tag_here decimal (String c pre)) as [x|] eqn:Hx;
          [|reflexivity].
        apply (match_tag_here_extend _ (tag_open ++ g ++ "]" ++ post)) in Hx.
        rewrite E in Hm. cbn [append] in Hx, Hm. congruence.
  - intros (pre & post & -> & Hne & Hd & Hpre).
    now apply re_search_tag_leftmost.
Qed.

(** Decoding never fails: a subject without a tag gives [None], and only
    such a subject does. *)
Lemma re_search_tag_none_iff (s : string) :
  re_search_tag decimal s = None <-> ~ tagged decimal s.
Proof.
  split.
  - intros H Ht. destruct (re_search_tag_complete _ Ht) as [g Hg]. congruence.
  - intros H. destruct (re_search_tag decimal s) as [g|] eqn:E; [|reflexivity].
    exfalso. apply H. now apply (re_search_tag_sound _ g).
Qed.

(** The tag of an issue, wherever it is the first tag of a subject, is
    found with the digits of the issue. *)
Lemma re_search_tag_of (id : N) (pre post : string) :
  re_search_tag decimal pre = None ->
  re_search_tag decimal (pre ++ tag_of id ++ post) = Some (str_of_N id).
Proof.
  intros Hpre. unfold tag_of. rewrite !append_assoc.
  apply re_search_tag_leftmost;
    [exact Hpre | apply str_of_N_nonempty | now apply str_of_N_digits].
Qed.

End Tag.

(** C5.  Whatever digits the Unicode database of the interpreter has
    beyond ["0"] to ["9"]: decoding a subject that embeds [tag_of id]
    after a text without a tag returns the digits of [id], which name the
    issue [id]; decoding is total, [None] being the answer exactly for
    the subjects without a tag (an opening, a run of digits of any script
    and a closing bracket); and when a second tag follows, the first one
    is the one returned. *)
Theorem tag_round_trip (decimal : N -> bool) (id : N) (pre post : string) :
  ascii_digits decimal = true ->
  re_search_tag decimal pre = None ->
  re_search_tag decimal (pre ++ tag_of id ++ post) = Some (str_of_N id)
  /\ Redmine.number_of (JStr (str_of_N id)) = Some id
  /\ (forall s, re_search_tag decimal s = None <-> ~ tagged decimal s)
  /\ (forall (id' : N) (mid : string),
        re_search_tag decimal (pre ++ tag_of id ++ mid ++ tag_of id' ++ post)
        = Some (str_of_N id)).
Proof.
  intros Hascii Hpre.
  split; [now apply re_search_tag_of|].
  split; [apply number_of_str_of_N|].
  split; [intros s; now apply re_search_tag_none_iff|].
  intros id' mid. now apply re_search_tag_of.
Qed.

Lemma tag_round_trip_witness :
  re_search_tag Scenario.decimal "Re: " = None
  /\ re_search_tag Scenario.decimal ("Re: " ++ tag_of 42 ++ " help") = Some "42"
  /\ re_search_tag Scenario.decimal
       ("Re: " ++ tag_of 42 ++ " was " ++ tag_of 7 ++ " help") = Some "42".
Proof.
  split; [reflexivity|].
  destruct (tag_round_trip Scenario.decimal 42 "Re: " " help" eq_refl eq_refl)
    as (H1 & _ & _ & H4).
  split; [exact H1 | exact (H4 7%N " was ")].
Defined.

(** A text that holds a tag in the digits of another script is not a text
    without a tag: the tag found in what follows it is its own. *)
Example tag_after_arabic_tag :
  re_search_tag Scenario.decimal "[Redmine #٣] was " = Some "٣"
  /\ re_search_tag Scenario.decimal ("[Redmine #٣] was " ++ tag_of 7) = Some "٣".
Proof. vm_compute. split; reflexivity. Qed.

(* ------------------------------------------------------------------ *)
(** * The requester of a ticket *)

Section Requester.

Lemma split_nonempty (sep : ascii) (s : string) : split sep s <> [].
Proof.
  destruct s as [|c s]; simpl; [discriminate|].
  destruct (Ascii.eqb c sep); [discriminate|].
  destruct (split sep s); discriminate.
Qed.

Lemma contains_cons (needle : string) (c : ascii) (hay : string) :
  contains needle (String c hay)
  = startswith (String c hay) needle || contains needle hay.
Proof. reflexivity. Qed.

Lemma startswith_nl (c : ascii) (s : string) :
  startswith (String c s) nl = Ascii.eqb "010" c.
Proof.
  unfold startswith, nl. rewrite strip_prefix_cons.
  now destruct (Ascii.eqb "010" c).
Qed.

(** A text without a line feed is the first line of what it starts. *)
Lemma split_first_line (a rest : string) :
  contains nl a = false ->
  split "010" (a ++ nl ++ rest) = a :: split "010" rest.
Proof.
  induction a as [|c a IH]; intros H.
  - reflexivity.
  - rewrite contains_cons, startswith_nl in H.
    apply orb_false_iff in H as [Hc Ha].
    change (String c a ++ nl ++ rest) with (String c (a ++ nl ++ rest)).
    cbn [split]. rewrite Ascii.eqb_sym, Hc. now rewrite (IH Ha).
Qed.

(** Where [old] does not occur, [replace] changes nothing. *)
Lemma replace_go_absent (old new s : string) :
  contains old s = false -> replace_go old new 0 s = s.
Proof.
  induction s as [|c s IH]; intros H; [reflexivity|].
  rewrite contains_cons in H. apply orb_false_iff in H as [Hc Hs].
  cbn [replace_go]. rewrite Hc. now rewrite (IH Hs).
Qed.

(** The space that follows ["De:"] goes with the stripping. *)
Lemma strip_space (s : string) : strip (String " " s) = strip s.
Proof.
  unfold strip. now rewrite (chars_single " " s eq_refl).
Qed.

Lemma first_De_line_none (lines : list string) :
  (forall line, In line lines -> startswith line "De:" = false) ->
  first_De_line lines = None.
Proof.
  induction lines as [|l lines IH]; intros H; [reflexivity|].
  cbn [first_De_line]. rewrite (H l (or_introl eq_refl)).
  apply IH. intros line Hin. apply H. now right.
Qed.

(** The value is that of the first line that starts with ["De:"]. *)
Lemma first_De_line_some (before : list string) (line : string)
    (after : list string) :
  (forall l, In l before -> startswith l "De:" = false) ->
  startswith line "De:" = true ->
  first_De_line (before ++ line :: after)
  = Some (strip (replace line "De:" "")).
Proof.
  intros Hb Hl. induction before as [|b before IH]; cbn [first_De_line app].
  - now rewrite Hl.
  - rewrite (Hb b (or_introl eq_refl)). apply IH.
    intros l Hin. apply Hb. now right.
Qed.

(** C6.  For a description whose first line is ["De: "] followed by an
    address (a text without line feed, without ["De:"] in it, and that
    [strip] leaves as it is: no white space of any script at either end),
    the extraction returns that address, whatever follows the line; for a
    description none of whose lines starts with ["De:"] it returns
    [None]. *)
Theorem requester_extraction (addr rest : string) :
  contains nl addr = false ->
  contains "De:" addr = false ->
  strip addr = addr ->
  requester_email ("De: " ++ addr ++ nl ++ rest) = Some addr
  /\ (forall description,
        (forall line, In line (split "010" description) ->
                      startswith line "De:" = false) ->
        requester_email description = None).
Proof.
  intros Hnl Hde Hstrip. split.
  - unfold requester_email.
    rewrite <- append_assoc.
    rewrite split_first_line by exact Hnl.
    cbn [first_De_line]. unfold replace.
    change (startswith ("De: " ++ addr) "De:") with true. cbv iota.
    change (replace_go "De:" "" 0 ("De: " ++ addr))
      with (String " " (replace_go "De:" "" 0 addr)).
    rewrite (replace_go_absent _ _ _ Hde), strip_space.
    f_equal. exact Hstrip.
  - intros description H. now apply first_De_line_none.
Qed.

Lemma requester_extraction_witness :
  requester_email ("De: x@example.com" ++ nl ++ nl ++ "it's broken")
  = Some "x@example.com"
  /\ requester_email ("Bonjour," ++ nl ++ " De: nobody") = None.
Proof.
  split.
  - exact (proj1 (requester_extraction "x@example.com" (nl ++ "it's broken")
                    eq_refl eq_refl eq_refl)).
  - apply (proj2 (requester_extraction "x@example.com" ""
                    eq_refl eq_refl eq_refl)).
    intros line [<-|[<-|[]]]; reflexivity.
Defined.

(** Every ["De:"] of the line is removed, not only the leading one. *)
Example requester_inner_marker :
  requester_email ("De: De:x@example.com" ++ nl ++ "text") = Some "x@example.com".
Proof. reflexivity. Qed.

(** A header without an address counts as no requester, also when what
    follows ["De:"] is a no-break space. *)
Example requester_blank :
  let nbsp := String "194"%char (String "160"%char "") in
  requester_email ("De:  " ++ nl ++ "text") = Some ""
  /\ has_requester (requester_email ("De:  " ++ nl ++ "text")) = false
  /\ requester_email ("De: " ++ nbsp ++ nl ++ "text") = Some ""
  /\ requester_email ("De: x@example.com" ++ nbsp ++ nl ++ "text")
     = Some "x@example.com".
Proof. vm_compute. repeat split. Qed.

End Requester.

(* ------------------------------------------------------------------ *)
(** * The functions of [connect.py], one by one *)

Section Calls.

Variable ns : Namespace.
Variable rt : Runtime.

Lemma same_servers_refl (w : World) : same_servers w w.
Proof. now repeat split. Qed.

Lemma same_servers_trans (w1 w2 w3 : World) :
  same_servers w1 w2 -> same_servers w2 w3 -> same_servers w1 w3.
Proof.
  intros (A & B & C) (D & E & F). repeat split; congruence.
Qed.

(** [send_email] always returns, records the request, and touches neither
    server. *)
Lemma send_email_spec (to_email subject body : string) (cc : option string)
    (attachments : list string) (w : World) :
  exists ok w',
    send_email ns rt to_email subject body cc attachments w = (inr ok, w')
    /\ same_servers w w'
    /\ requested w' = mkMail to_email subject body :: requested w.
Proof.
  cbv beta iota zeta delta [send_email read_EMAIL_SERVER note_request
                            try_except bind lift smtp_send logger ret raise].
  destruct (build_message ns rt to_email subject body cc attachments)
    as [e|attached]; cbn.
  { eexists; eexists; (split; [reflexivity|]); now repeat split. }
  destruct (EMAIL_SERVER ns) as [host|]; cbn.
  - destruct (smtp_accepts w _) eqn:Hup; cbn;
      eexists; eexists; (split; [reflexivity|]); now repeat split.
  - eexists; eexists; (split; [reflexivity|]); now repeat split.
Qed.

(** As the module is written, nothing reaches an SMTP server. *)
Lemma send_email_as_written (cfg : Config) (to_email subject body : string)
    (cc : option string) (attachments : list string) (w : World) :
  exists w' e,
    send_email (connect_module cfg) rt to_email subject body cc attachments w
    = (inr false, w')
    /\ outbox w' = outbox w
    /\ log w' = (ERROR, "Erreur lors de l'envoi de l'e-mail: " ++ str_of_exn rt e)
                :: log w.
Proof.
  cbv beta iota zeta delta [send_email read_EMAIL_SERVER note_request
                            try_except bind lift smtp_send logger ret raise].
  destruct (build_message (connect_module cfg) rt to_email subject body cc
              attachments) as [e|attached]; cbn.
  - eexists; exists e. now repeat split.
  - eexists; exists (NameError "EMAIL_SERVER"). now repeat split.
Qed.

(** [get_redmine_issue] always returns, and changes the log only. *)
Lemma get_redmine_issue_spec (issue_id : json) (w : World) :
  exists w',
    get_redmine_issue rt issue_id w
    = (inr (match Redmine.issue_get (redmine w) issue_id with
            | inr issue => Some issue
            | inl _ => None
            end), w')
    /\ same_servers w w'
    /\ requested w' = requested w
    /\ outbox w' = outbox w.
Proof.
  unfold get_redmine_issue, try_except, bind, redmine_issue_get, ret, logger.
  destruct (Redmine.issue_get (redmine w) issue_id) as [e|issue].
  - destruct e; simpl; eexists; (split; [reflexivity|]); now repeat split.
  - eexists; (split; [reflexivity|]). now repeat split.
Qed.

(** An issue that Redmine has is returned as it is, and nothing is
    logged. *)
Lemma get_found (issue_id : json) (w : World) (issue : Issue.t) :
  Redmine.issue_get (redmine w) issue_id = inr issue ->
  get_redmine_issue rt issue_id w = (inr (Some issue), w).
Proof.
  intros H.
  cbv beta iota zeta delta [get_redmine_issue try_except bind
                            redmine_issue_get ret].
  now rewrite H.
Qed.

End Calls.

(* ------------------------------------------------------------------ *)
(** * One pass of [process_redmine_updates] *)

Section Pass.

Variable ns : Namespace.
Variable rt : Runtime.

(** The first test of the inner loop compares a [datetime] with an [int]:
    a journal entry that has its date stops the pass. *)
Lemma notify_journal_run (since : Z) (issue : Issue.t) (requester : string)
    (journal : Journal.t) (w : World) :
  notify_journal ns rt since issue requester journal w
  = if dated journal then (inl incomparable, w) else (inr tt, w).
Proof.
  unfold notify_journal, dated.
  now destruct (Journal.created_on journal).
Qed.

Lemma for_each_journals (since : Z) (issue : Issue.t) (requester : string)
    (journals : list Journal.t) (w : World) :
  for_each journals (notify_journal ns rt since issue requester) w
  = if existsb dated journals then (inl incomparable, w) else (inr tt, w).
Proof.
  induction journals as [|j journals IH]; [reflexivity|].
  cbn [for_each existsb]. unfold bind. rewrite notify_journal_run.
  destruct (dated j); [reflexivity | exact IH].
Qed.

Lemma notify_issue_run (since : Z) (issue detail : Issue.t) (w : World) :
  Redmine.issue_get (redmine w) (JNum (Z.of_N (Issue.id issue))) = inr detail ->
  notify_issue ns rt since issue w
  = if commented detail then (inl incomparable, w) else (inr tt, w).
Proof.
  intros Hget. unfold notify_issue, bind.
  rewrite (get_found rt _ _ _ Hget). unfold commented, has_requester.
  destruct (requester_email (Issue.description detail)) as [requester|];
    [|reflexivity].
  destruct (PyStr.truthy requester); [|reflexivity].
  apply for_each_journals.
Qed.

Lemma for_each_issues (since : Z) (l : list Issue.t) (w : World) :
  (forall i, In i l ->
     exists detail,
       Redmine.issue_get (redmine w) (JNum (Z.of_N (Issue.id i))) = inr detail) ->
  for_each l (notify_issue ns rt since) w
  = if existsb (stalls (redmine w)) l then (inl incomparable, w) else (inr tt, w).
Proof.
  induction l as [|i l IH]; intros H; [reflexivity|].
  cbn [for_each existsb]. unfold bind.
  destruct (H i (or_introl eq_refl)) as [detail Hget].
  rewrite (notify_issue_run since i detail w Hget).
  unfold stalls at 1. rewrite Hget.
  destruct (commented detail); [reflexivity|].
  apply IH. intros j Hj. apply H. now right.
Qed.

End Pass.

(* ------------------------------------------------------------------ *)
(** * The answer of the server to the query of the pass *)

Section Filter.

Lemma In_firstn {A : Type} (n : nat) (l : list A) (x : A) :
  In x (firstn n l) -> In x l.
Proof.
  intros H. rewrite <- (firstn_skipn n l). apply in_or_app. now left.
Qed.

Lemma insert_desc_perm (i : Issue.t) (l : list Issue.t) :
  Permutation (Redmine.insert_desc i l) (i :: l).
Proof.
  induction l as [|j l IH]; cbn [Redmine.insert_desc]; [reflexivity|].
  destruct (Issue.updated_on j <=? Issue.updated_on i)%Z; [reflexivity|].
  rewrite IH. apply perm_swap.
Qed.

Lemma sort_desc_perm (l : list Issue.t) : Permutation (Redmine.sort_desc l) l.
Proof.
  induction l as [|i l IH]; [reflexivity|].
  unfold Redmine.sort_desc in *. cbn [fold_right].
  rewrite insert_desc_perm. now constructor.
Qed.

Lemma insert_desc_sorted (i : Issue.t) (l : list Issue.t) :
  StronglySorted more_recent l ->
  StronglySorted more_recent (Redmine.insert_desc i l).
Proof.
  induction 1 as [|j l Hs IH Hj]; cbn [Redmine.insert_desc].
  - repeat constructor.
  - destruct (Z.leb_spec (Issue.updated_on j) (Issue.updated_on i)) as [Hle|Hlt].
    + constructor; [now constructor|].
      constructor; [exact Hle|].
      eapply Forall_impl; [|exact Hj].
      unfold more_recent. intros k Hk. lia.
    + constructor; [exact IH|].
      eapply Permutation_Forall; [symmetry; apply insert_desc_perm|].
      constructor; [unfold more_recent; lia | exact Hj].
Qed.

Lemma sort_desc_sorted (l : list Issue.t) :
  StronglySorted more_recent (Redmine.sort_desc l).
Proof.
  induction l as [|i l IH]; [constructor|].
  unfold Redmine.sort_desc in *. cbn [fold_right].
  now apply insert_desc_sorted.
Qed.

(** In a sorted list, what the first [n] places hold is at least as recent
    as what comes after. *)
Lemma sorted_firstn_skipn (n : nat) (l : list Issue.t) :
  StronglySorted more_recent l ->
  forall a b, In a (firstn n l) -> In b (skipn n l) -> more_recent a b.
Proof.
  intros Hs. revert n. induction Hs as [|x l Hs IH Hx]; intros n a b.
  - destruct n; simpl; contradiction.
  - destruct n as [|n]; cbn [firstn skipn]; [contradiction|].
    intros [<-|Ha] Hb.
    + rewrite Forall_forall in Hx. apply Hx.
      rewrite <- (firstn_skipn n l). apply in_or_app. now right.
    + now apply (IH n).
Qed.

Lemma examined_length (rm : Redmine.t) : (length (examined rm) <= 100)%nat.
Proof.
  unfold examined, Redmine.issue_filter.
  destruct (negb (Redmine.online rm)); [simpl; lia|].
  apply firstn_le_length.
Qed.

Lemma selected_spec (rm : Redmine.t) (i : Issue.t) :
  In i (Redmine.selected recent_issues rm) <->
  In i (Redmine.issues rm) /\ Redmine.is_closed rm i = false
  /\ (y2k <= Issue.updated_on i)%Z.
Proof.
  unfold Redmine.selected. rewrite filter_In, andb_true_iff, negb_true_iff.
  cbn [updated_on_ge recent_issues]. rewrite Z.leb_le. tauto.
Qed.

(** The issues of the list are issues of the server, open, and updated
    since 2000. *)
Lemma examined_selected (rm : Redmine.t) (i : Issue.t) :
  In i (examined rm) ->
  Redmine.online rm = true
  /\ In i (Redmine.issues rm) /\ Redmine.is_closed rm i = false
  /\ (y2k <= Issue.updated_on i)%Z.
Proof.
  unfold examined, Redmine.issue_filter.
  destruct (Redmine.online rm); cbn [negb]; [|contradiction].
  cbn [sort recent_issues limit]. intros H. split; [reflexivity|].
  apply In_firstn in H.
  apply (Permutation_in _ (sort_desc_perm _)) in H.
  now apply selected_spec.
Qed.

(** The issues of the list are the most recently updated ones among the
    open issues. *)
Lemma examined_most_recent (rm : Redmine.t) (i j : Issue.t) :
  In i (examined rm) ->
  In j (Redmine.issues rm) ->
  Redmine.is_closed rm j = false ->
  ~ In j (examined rm) ->
  more_recent i j.
Proof.
  intros Hi Hj Hopen Hnj.
  destruct (examined_selected _ _ Hi) as (_ & _ & _ & Hy).
  destruct (Z.leb_spec y2k (Issue.updated_on j)) as [Hle|Hlt];
    [|unfold more_recent; lia].
  revert Hi Hnj. unfold examined, Redmine.issue_filter.
  destruct (negb (Redmine.online rm)); [contradiction|].
  cbn [sort recent_issues limit]. intros Hi Hnj.
  apply (sorted_firstn_skipn 100 _ (sort_desc_sorted (Redmine.selected recent_issues rm)));
    [exact Hi|].
  assert (Hs : In j (Redmine.sort_desc (Redmine.selected recent_issues rm))).
  { apply (Permutation_in _ (Permutation_sym (sort_desc_perm _))).
    now apply selected_spec. }
  rewrite <- (firstn_skipn 100) in Hs. apply in_app_or in Hs as [Hs|Hs];
    [contradiction | exact Hs].
Qed.

(** Redmine has an issue under the number of each of its issues. *)
Lemma lookup_some (rm : Redmine.t) (i : Issue.t) :
  In i (Redmine.issues rm) ->
  exists detail, Redmine.lookup rm (Issue.id i) = Some detail.
Proof.
  intros Hin. unfold Redmine.lookup.
  destruct (find (fun j => N.eqb (Issue.id j) (Issue.id i)) (Redmine.issues rm))
    as [d|] eqn:Hf; [now exists d|].
  apply (find_none _ _ Hf) in Hin. now rewrite N.eqb_refl in Hin.
Qed.

Lemma number_of_id (n : N) : Redmine.number_of (JNum (Z.of_N n)) = Some n.
Proof.
  cbn [Redmine.number_of].
  destruct (Z.leb_spec 0 (Z.of_N n)); [|lia]. now rewrite N2Z.id.
Qed.

Lemma issue_get_id (rm : Redmine.t) (n : N) :
  Redmine.online rm = true ->
  Redmine.issue_get rm (JNum (Z.of_N n))
  = match Redmine.lookup rm n with
    | Some i => inr i
    | None => inl ResourceNotFoundError
    end.
Proof.
  intros Hon. unfold Redmine.issue_get. now rewrite Hon, number_of_id.
Qed.

(** Every issue of the list is found again when its detail is asked. *)
Lemma examined_get (rm : Redmine.t) (i : Issue.t) :
  In i (examined rm) ->
  exists detail,
    Redmine.issue_get rm (JNum (Z.of_N (Issue.id i))) = inr detail.
Proof.
  intros Hi. destruct (examined_selected _ _ Hi) as (Hon & Hin & _).
  destruct (lookup_some _ _ Hin) as [d Hd].
  exists d. now rewrite (issue_get_id _ _ Hon), Hd.
Qed.

Variable ns : Namespace.
Variable rt : Runtime.

(** One pass, in full.  When Redmine cannot be reached the pass logs that
    failure.  Otherwise it goes through the list until an issue has a
    requester and a journal entry with its date: the comparison of that
    date with the watermark raises, and the pass logs that and stops.
    When no issue of the list is so, the pass ends without a trace.  In
    no case is [send_email] called. *)
Lemma process_redmine_updates_run (time : Z) (w : World) :
  process_redmine_updates ns rt time w
  = if negb (Redmine.online (redmine w))
    then logger ERROR ("Erreur lors du traitement des mises à jour Redmine: "
                       ++ str_of_exn rt (TransportError "connection")) w
    else if existsb (stalls (redmine w)) (examined (redmine w))
    then logger ERROR ("Erreur lors du traitement des mises à jour Redmine: "
                       ++ str_of_exn rt incomparable) w
    else (inr tt, w).
Proof.
  cbv beta iota zeta delta [process_redmine_updates try_except bind
                            redmine_issue_filter].
  pose proof (examined_get (redmine w)) as Hget.
  unfold examined in *. unfold Redmine.issue_filter in *.
  destruct (negb (Redmine.online (redmine w))); [reflexivity|].
  rewrite (for_each_issues ns rt _ _ w Hget).
  now destruct (existsb _ _).
Qed.

End Filter.

(* ------------------------------------------------------------------ *)
(** * What a pass emits *)

Section Emission.

Lemma truthy_nonempty (s : string) : PyStr.truthy s = true <-> s <> "".
Proof. destruct s; simpl; split; (discriminate || congruence || auto). Qed.

(** The subject of a notification carries the tag of its issue. *)
Lemma update_subject_tag (decimal : N -> bool) (id : N) (subject : string) :
  ascii_digits decimal = true ->
  re_search_tag decimal (update_subject id subject) = Some (str_of_N id).
Proof.
  intros H. unfold update_subject.
  now apply (re_search_tag_of decimal H id "").
Qed.

(** A pass changes nothing but the log, and adds at most one line to it. *)
Lemma pass_frame (ns : Namespace) (rt : Runtime) (time : Z) (w : World) :
  exists w',
    process_redmine_updates ns rt time w = (inr tt, w')
    /\ same_servers w w'
    /\ requested w' = requested w
    /\ outbox w' = outbox w
    /\ (log w' = log w \/ exists msg, log w' = (ERROR, msg) :: log w).
Proof.
  rewrite process_redmine_updates_run.
  destruct (negb (Redmine.online (redmine w))).
  - eexists. split; [reflexivity|]. cbn.
    split; [now repeat split|]. split; [reflexivity|]. split; [reflexivity|].
    right. now eexists.
  - destruct (existsb _ _).
    + eexists. split; [reflexivity|]. cbn.
      split; [now repeat split|]. split; [reflexivity|]. split; [reflexivity|].
      right. now eexists.
    + exists w. split; [reflexivity|].
      split; [now repeat split|]. split; [reflexivity|]. split; [reflexivity|].
      now left.
Qed.

(** What a pass adds to the log depends on the list of issues and on
    their details only. *)
Lemma pass_log (ns : Namespace) (rt : Runtime) (time1 time2 : Z) (w1 w2 : World) :
  Redmine.online (redmine w2) = Redmine.online (redmine w1) ->
  examined (redmine w2) = examined (redmine w1) ->
  (forall i, In i (examined (redmine w1)) ->
     Redmine.issue_get (redmine w2) (JNum (Z.of_N (Issue.id i)))
     = Redmine.issue_get (redmine w1) (JNum (Z.of_N (Issue.id i)))) ->
  exists lines,
    log (snd (process_redmine_updates ns rt time1 w1)) = (lines ++ log w1)%list
    /\ log (snd (process_redmine_updates ns rt time2 w2)) = (lines ++ log w2)%list.
Proof.
  intros Hon Hex Hget. rewrite !process_redmine_updates_run, Hon, Hex.
  destruct (negb (Redmine.online (redmine w1))).
  { eexists [_]. split; reflexivity. }
  assert (Hst : existsb (stalls (redmine w2)) (examined (redmine w1))
                = existsb (stalls (redmine w1)) (examined (redmine w1))).
  { clear Hex. induction (examined (redmine w1)) as [|i l IH]; [reflexivity|].
    cbn [existsb]. unfold stalls at 1 3.
    rewrite (Hget i (or_introl eq_refl)). f_equal.
    apply IH. intros j Hj. apply Hget. now right. }
  rewrite Hst. clear Hst.
  destruct (existsb (stalls (redmine w1)) (examined (redmine w1))).
  - eexists [_]. split; reflexivity.
  - exists []. split; reflexivity.
Qed.

End Emission.

(** C3.  One pass hands to [send_email] only announcements of journal
    entries created strictly after the watermark, with notes that are not
    empty; none, then, for an entry created at or before the watermark.
    The list of what it hands over is in fact empty: the test
    [journal.created_on >= updated_since] compares a [datetime] with an
    [int], and the exception ends the pass before any e-mail. *)
Theorem pass_emits_only_new (ns : Namespace) (rt : Runtime) (time : Z)
    (w : World) :
  exists w' emitted,
    process_redmine_updates ns rt time w = (inr tt, w')
    /\ requested w' = (emitted ++ requested w)%list
    /\ (forall m, In m emitted ->
          announces_new (redmine w) (updated_since ns time) m)
    /\ emitted = []
    /\ outbox w' = outbox w.
Proof.
  destruct (pass_frame ns rt time w) as (w' & E & _ & R & O & _).
  exists w', []. split; [exact E|]. split; [exact R|].
  split; [intros m []|]. now split.
Qed.

(** C7.  Two passes that compute the same watermark over the same Redmine
    hand the same tuples to [send_email], in the same order, whatever the
    rest of the world and of the configuration is; a pass leaves Redmine,
    the mailbox and the relay as it found them; and under one interpreter
    the two passes write the same lines to the log. *)
Theorem pass_is_repeatable (ns1 ns2 : Namespace) (rt1 rt2 : Runtime)
    (time1 time2 : Z) (w1 w2 : World) :
  updated_since ns1 time1 = updated_since ns2 time2 ->
  redmine w1 = redmine w2 ->
  exists w1' w2' emitted,
    process_redmine_updates ns1 rt1 time1 w1 = (inr tt, w1')
    /\ process_redmine_updates ns2 rt2 time2 w2 = (inr tt, w2')
    /\ requested w1' = (emitted ++ requested w1)%list
    /\ requested w2' = (emitted ++ requested w2)%list
    /\ same_servers w1 w1'
    /\ same_servers w2 w2'
    /\ (rt1 = rt2 ->
        exists lines,
          log w1' = (lines ++ log w1)%list /\ log w2' = (lines ++ log w2)%list).
Proof.
  intros Hsince Hrm.
  destruct (pass_frame ns1 rt1 time1 w1) as (w1' & E1 & S1 & R1 & _).
  destruct (pass_frame ns2 rt2 time2 w2) as (w2' & E2 & S2 & R2 & _).
  exists w1', w2', []. split; [exact E1|]. split; [exact E2|].
  split; [exact R1|]. split; [exact R2|]. split; [exact S1|]. split; [exact S2|].
  intros <-. revert E1 E2. rewrite !process_redmine_updates_run, Hrm.
  destruct (negb (Redmine.online (redmine w2))).
  { intros [= <-] [= <-]. eexists [_]. split; reflexivity. }
  destruct (existsb _ _); intros [= <-] [= <-].
  - eexists [_]. split; reflexivity.
  - exists []. split; reflexivity.
Qed.

Lemma pass_is_repeatable_witness :
  let first := snd (process_redmine_updates Scenario.as_written Scenario.runtime
                      (Scenario.t0 + 300) Scenario.busy) in
  let second := snd (process_redmine_updates Scenario.as_written Scenario.runtime
                       (Scenario.t0 + 300) first) in
  exists emitted lines,
    requested first = emitted
    /\ requested second = (emitted ++ emitted)%list
    /\ log first = lines
    /\ log second = (lines ++ lines)%list
    /\ redmine second = redmine Scenario.busy.
Proof.
  intros first second.
  destruct (pass_is_repeatable Scenario.as_written Scenario.as_written
              Scenario.runtime Scenario.runtime
              (Scenario.t0 + 300) (Scenario.t0 + 300) Scenario.busy first
              eq_refl eq_refl)
    as (w1' & w2' & emitted & E1 & E2 & R1 & R2 & S1 & S2 & L).
  destruct (L eq_refl) as (lines & L1 & L2).
  assert (H1 : w1' = first) by (unfold first; now rewrite E1).
  assert (H2 : w2' = second) by (unfold second; now rewrite E2).
  subst w1' w2'. exists emitted, lines.
  change (requested Scenario.busy) with (@nil Mail) in R1.
  change (log Scenario.busy) with (@nil (level * string)) in L1.
  rewrite List.app_nil_r in R1, L1. rewrite R2, R1, L2, L1.
  repeat split.
Defined.




(* ------------------------------------------------------------------ *)
(** * The e-mail webhook *)

Section EmailWebhook.

Variable ns : Namespace.
Variable rt : Runtime.

Lemma getitem_object (data v : json) (k : string) :
  Json.getitem data k = inr v ->
  exists members, data = JObj members /\ Json.assoc k members = Some v.
Proof.
  destruct data; try discriminate. simpl.
  destruct (Json.assoc k members) eqn:E; [|discriminate].
  intros [= <-]. now exists members.
Qed.

(** A body that carries the three fields passes the check of the handler. *)
Lemma lacks_fields_complete (data from_email subject body : json) :
  Json.getitem data "from" = inr from_email ->
  Json.getitem data "subject" = inr subject ->
  Json.getitem data "body" = inr body ->
  lacks_fields data = inr false.
Proof.
  intros Hf Hs Hb.
  destruct (getitem_object _ _ _ Hf) as (members & -> & Af).
  destruct (getitem_object _ _ _ Hs) as (m2 & [= <-] & As).
  destruct (getitem_object _ _ _ Hb) as (m3 & [= <-] & Ab).
  unfold lacks_fields, Json.contains, Json.truthy.
  destruct members as [|m members]; [discriminate|].
  cbn [negb]. cbv iota. now rewrite Af, As, Ab.
Qed.

(** An object without one of the three fields does not. *)
Lemma lacks_fields_missing (members : list (string * json)) :
  Json.assoc "from" members = None
  \/ Json.assoc "subject" members = None
  \/ Json.assoc "body" members = None ->
  lacks_fields (JObj members) = inr true.
Proof.
  intros H. unfold lacks_fields, Json.contains, Json.truthy.
  destruct members as [|m members]; [reflexivity|].
  cbn [negb]. cbv iota.
  destruct (Json.assoc "from" (m :: members)); [|reflexivity].
  destruct (Json.assoc "subject" (m :: members)); [|reflexivity].
  destruct (Json.assoc "body" (m :: members)); [|reflexivity].
  destruct H as [H|[H|H]]; discriminate.
Qed.

(** [create_redmine_issue] always returns; it changes Redmine when the
    server accepts the creation, and the log. *)
Lemma create_redmine_issue_spec (subject description : string)
    (project_id : Z) (w : World) :
  exists w',
    create_redmine_issue rt subject description project_id None None None None w
    = (inr (match Redmine.issue_create (redmine w) subject description
                                       project_id [] with
            | inr (issue, _) => Some issue
            | inl _ => None
            end), w')
    /\ redmine w'
       = match Redmine.issue_create (redmine w) subject description
                                    project_id [] with
         | inr (_, rm') => rm'
         | inl _ => redmine w
         end
    /\ mailbox w' = mailbox w /\ smtp_accepts w' = smtp_accepts w
    /\ requested w' = requested w /\ outbox w' = outbox w.
Proof.
  unfold create_redmine_issue, try_except, bind, redmine_issue_create,
    logger, ret, given. cbn [app].
  destruct (Redmine.issue_create (redmine w) subject description project_id [])
    as [e|[issue rm']]; eexists; (split; [reflexivity|]); now repeat split.
Qed.

(** An update that Redmine takes is an update of an issue it has. *)
Lemma issue_update_get (rm rm' : Redmine.t) (issue_id : json) (comment : string) :
  Redmine.issue_update rm issue_id comment = inr rm' ->
  exists found, Redmine.issue_get rm issue_id = inr found.
Proof.
  unfold Redmine.issue_update, Redmine.issue_get.
  destruct (negb (Redmine.online rm)); [discriminate|].
  destruct (Redmine.number_of issue_id) as [n|]; [|discriminate].
  destruct (Redmine.lookup rm n) as [found|]; [|discriminate].
  intros _. now exists found.
Qed.

(** [update_redmine_issue] always returns [True] or [False]: [True]
    exactly when Redmine takes the update, which is then the only change
    but for the log. *)
Lemma update_redmine_issue_spec (issue_id : json) (notes : string) (w : World) :
  exists ok w',
    update_redmine_issue rt issue_id notes w = (inr ok, w')
    /\ ok = match Redmine.issue_update (redmine w) issue_id notes with
            | inr _ => true
            | inl _ => false
            end
    /\ redmine w'
       = match Redmine.issue_update (redmine w) issue_id notes with
         | inr rm' => rm'
         | inl _ => redmine w
         end
    /\ mailbox w' = mailbox w /\ smtp_accepts w' = smtp_accepts w
    /\ requested w' = requested w /\ outbox w' = outbox w
    /\ (Redmine.issue_get (redmine w) issue_id = inl ResourceNotFoundError ->
        log w' = (ERROR, "Ticket Redmine #" ++ format rt issue_id
                         ++ " non trouvé") :: log w).
Proof.
  unfold update_redmine_issue, try_except, bind, redmine_issue_get,
    redmine_issue_update, logger, ret.
  unfold Redmine.issue_get, Redmine.issue_update.
  destruct (negb (Redmine.online (redmine w))).
  - eexists; eexists. split; [reflexivity|]. repeat split; discriminate.
  - destruct (Redmine.number_of issue_id) as [n|].
    + destruct (Redmine.lookup (redmine w) n) as [i|].
      * destruct (Redmine.allows (redmine w) n notes);
          eexists; eexists; (split; [reflexivity|]); repeat split; discriminate.
      * eexists; eexists. split; [reflexivity|]. now repeat split.
    + eexists; eexists. split; [reflexivity|]. now repeat split.
Qed.

(** The handler on a body with the three fields as strings: the tag of the
    subject decides. *)
Lemma email_webhook_tagged (data : json) (from_email subject body ticket_id : string)
    (w : World) :
  Json.getitem data "from" = inr (JStr from_email) ->
  Json.getitem data "subject" = inr (JStr subject) ->
  Json.getitem data "body" = inr (JStr body) ->
  re_search_tag (unicode_decimal rt) subject = Some ticket_id ->
  email_webhook ns rt (inr data) w
  = (inr (success),
     snd (update_redmine_issue rt (JStr ticket_id)
            (comment_of from_email body) w)).
Proof.
  intros Hf Hs Hb Ht.
  cbv beta iota zeta delta [email_webhook try_except bind lift ret raise].
  rewrite (lacks_fields_complete _ _ _ _ Hf Hs Hb).
  rewrite Hf, Hs, Hb. cbv beta iota delta [re_search]. rewrite Ht.
  unfold add_comment_to_redmine_issue. cbn [format].
  destruct (update_redmine_issue_spec (JStr ticket_id)
              (comment_of from_email body) w) as (ok & w' & E & _).
  now rewrite E.
Qed.

Lemma email_webhook_untagged (data : json) (from_email subject body : string)
    (w : World) :
  Json.getitem data "from" = inr (JStr from_email) ->
  Json.getitem data "subject" = inr (JStr subject) ->
  Json.getitem data "body" = inr (JStr body) ->
  re_search_tag (unicode_decimal rt) subject = None ->
  email_webhook ns rt (inr data) w
  = (inr success,
     match create_redmine_issue rt subject (description_of from_email body)
             (default_project_id ns) None None None None w with
     | (inr (Some issue), w1) =>
         snd (send_email ns rt from_email (confirmation_subject (Issue.id issue))
                         (confirmation_body (Issue.id issue)) None [] w1)
     | (_, w1) => w1
     end).
Proof.
  intros Hf Hs Hb Ht.
  cbv beta iota zeta delta [email_webhook try_except bind lift ret raise].
  rewrite (lacks_fields_complete _ _ _ _ Hf Hs Hb).
  rewrite Hf, Hs, Hb. cbv beta iota delta [re_search]. rewrite Ht.
  cbn [format subject_text].
  destruct (create_redmine_issue_spec subject (description_of from_email body)
              (default_project_id ns) w) as (w1 & E & _).
  rewrite E.
  destruct (Redmine.issue_create _ _ _ _ _) as [e|[issue rm']]; [reflexivity|].
  destruct (send_email_spec ns rt from_email (confirmation_subject (Issue.id issue))
              (confirmation_body (Issue.id issue)) None [] w1) as (ok & w2 & E2 & _).
  now rewrite E2.
Qed.

(** A body that cannot be parsed is answered 500, and nothing else
    happens. *)
Lemma email_webhook_unparsed (e : exn) (w : World) :
  email_webhook ns rt (inl e) w
  = (inr (internal_error rt e),
     snd (logger ERROR ("Erreur dans le webhook e-mail: " ++ str_of_exn rt e) w)).
Proof. reflexivity. Qed.

Lemma redmine_webhook_unparsed (e : exn) (w : World) :
  redmine_webhook ns rt (inl e) w
  = (inr (internal_error rt e),
     snd (logger ERROR ("Erreur dans le webhook Redmine: " ++ str_of_exn rt e) w)).
Proof. reflexivity. Qed.

End EmailWebhook.

Section WebhookClaims.

Variable ns : Namespace.
Variable rt : Runtime.

Lemma contains_prefix (p s : string) : contains p (p ++ s) = true.
Proof.
  assert (H : startswith (p ++ s) p = true)
    by (unfold startswith; now rewrite strip_prefix_app).
  destruct (p ++ s) as [|c r] eqn:E.
  - destruct p; [reflexivity | discriminate].
  - cbn [contains]. now rewrite H.
Qed.

Lemma issue_create_shape (rm rm' : Redmine.t) (subject description : string)
    (project_id : Z) (extra : list (string * Z)) (issue : Issue.t) :
  Redmine.issue_create rm subject description project_id extra = inr (issue, rm') ->
  issue = Issue.mk (Redmine.next_id rm) subject description project_id extra
                   (Redmine.now rm) []
  /\ Redmine.issues rm' = (Redmine.issues rm ++ [issue])%list.
Proof.
  unfold Redmine.issue_create.
  destruct (negb (Redmine.online rm)); [discriminate|].
  destruct (negb (Redmine.accepts rm subject description project_id));
    [discriminate|].
  intros [= <- <-]. now split.
Qed.

Lemma issue_update_shape (rm rm' : Redmine.t) (issue_id : json) (comment : string) :
  Redmine.issue_update rm issue_id comment = inr rm' ->
  exists n found,
    Redmine.number_of issue_id = Some n
    /\ Redmine.lookup rm n = Some found
    /\ Redmine.allows rm n comment = true
    /\ Redmine.issues rm'
       = map (Redmine.add_journal rm n comment) (Redmine.issues rm).
Proof.
  unfold Redmine.issue_update.
  destruct (negb (Redmine.online rm)); [discriminate|].
  destruct (Redmine.number_of issue_id) as [n|]; [|discriminate].
  destruct (Redmine.lookup rm n) as [found|] eqn:E; [|discriminate].
  destruct (Redmine.allows rm n comment) eqn:Ha; [|discriminate].
  intros [= <-]. now exists n, found.
Qed.

(** Adding a comment puts one journal entry, holding the comment, at the
    end of the journals of the issue with that number, and leaves every
    other issue alone. *)
Lemma add_journal_spec (rm : Redmine.t) (n : N) (comment : string) (i : Issue.t) :
  (Issue.id i = n ->
   Issue.journals (Redmine.add_journal rm n comment i)
   = (Issue.journals i
      ++ [Journal.mk (Some (Redmine.now rm)) (Some comment)])%list)
  /\ (Issue.id i <> n -> Redmine.add_journal rm n comment i = i).
Proof.
  unfold Redmine.add_journal. split; intros H.
  - apply N.eqb_eq in H. now rewrite H.
  - apply N.eqb_neq in H. now rewrite H.
Qed.

Lemma issue_update_missing (rm : Redmine.t) (issue_id : json) (comment : string) :
  Redmine.issue_get rm issue_id = inl ResourceNotFoundError ->
  Redmine.issue_update rm issue_id comment = inl ResourceNotFoundError.
Proof.
  unfold Redmine.issue_get, Redmine.issue_update.
  destruct (negb (Redmine.online rm)); [discriminate|].
  destruct (Redmine.number_of issue_id) as [n|]; [|reflexivity].
  destruct (Redmine.lookup rm n); [discriminate | reflexivity].
Qed.

(** C1, as the code has it.  When the subject carries a tag (the digits
    being those of any script) and Redmine answers that the issue does
    not exist, the handler answers 200 [success]; it creates no ticket,
    adds no comment and asks for no e-mail: the only trace is an error
    line in the log, which names the digits of the tag. *)
Theorem tagged_unknown_ticket_only_logged (data : json)
    (from_email subject body ticket_id : string) (w : World) :
  Json.getitem data "from" = inr (JStr from_email) ->
  Json.getitem data "subject" = inr (JStr subject) ->
  Json.getitem data "body" = inr (JStr body) ->
  re_search_tag (unicode_decimal rt) subject = Some ticket_id ->
  Redmine.issue_get (redmine w) (JStr ticket_id) = inl ResourceNotFoundError ->
  exists w',
    email_webhook ns rt (inr data) w = (inr success, w')
    /\ redmine w' = redmine w
    /\ mailbox w' = mailbox w
    /\ requested w' = requested w
    /\ outbox w' = outbox w
    /\ log w' = (ERROR, "Ticket Redmine #" ++ ticket_id ++ " non trouvé") :: log w.
Proof.
  intros Hf Hs Hb Ht Hget.
  rewrite (email_webhook_tagged ns rt _ _ _ _ _ w Hf Hs Hb Ht).
  destruct (update_redmine_issue_spec rt (JStr ticket_id)
              (comment_of from_email body) w)
    as (ok & w' & E & _ & Hrm & Hmb & _ & Hreq & Hout & Hlog).
  exists w'. rewrite E. split; [reflexivity|].
  rewrite (issue_update_missing _ _ _ Hget) in Hrm.
  specialize (Hlog Hget). now repeat split.
Qed.

End WebhookClaims.

Lemma tagged_unknown_ticket_only_logged_witness :
  exists w',
    email_webhook Scenario.as_written Scenario.runtime
      (Scenario.post "a@b.com" "[Redmine #99] hello" "again")
      (Scenario.world true) = (inr success, w')
    /\ redmine w' = Scenario.server true
    /\ requested w' = []
    /\ log w' = [(ERROR, "Ticket Redmine #99 non trouvé")].
Proof.
  destruct (tagged_unknown_ticket_only_logged Scenario.as_written
              Scenario.runtime
              (JObj [("from", JStr "a@b.com"); ("subject", JStr "[Redmine #99] hello");
                     ("body", JStr "again")])
              "a@b.com" "[Redmine #99] hello" "again" "99" (Scenario.world true)
              eq_refl eq_refl eq_refl eq_refl eq_refl)
    as (w' & E & Hrm & _ & Hreq & _ & Hlog).
  exists w'. now repeat split.
Defined.

(** A tagged message for a ticket that does not exist creates nothing,
    where the same message without the tag creates a ticket and asks for
    a confirmation.  So does a tag in the digits of another script, which
    Redmine does not read as a number. *)
Lemma unknown_ticket_creates_nothing :
  let tagged_run :=
    email_webhook Scenario.as_written Scenario.runtime
      (Scenario.post "a@b.com" "[Redmine #99] hello" "again")
      (Scenario.world true) in
  let arabic_run :=
    email_webhook Scenario.as_written Scenario.runtime
      (Scenario.post "a@b.com" "[Redmine #٣] merci" "encore")
      (Scenario.world true) in
  let untagged_run :=
    email_webhook Scenario.as_written Scenario.runtime
      (Scenario.post "a@b.com" "hello" "again") (Scenario.world true) in
  re_search_tag Scenario.decimal "[Redmine #99] hello" = Some "99"
  /\ Redmine.issue_get (Scenario.server true) (JStr "99")
     = inl ResourceNotFoundError
  /\ fst tagged_run = inr success
  /\ Redmine.issues (redmine (snd tagged_run)) = [Scenario.ticket7]
  /\ requested (snd tagged_run) = []
  /\ fst arabic_run = inr success
  /\ Redmine.issues (redmine (snd arabic_run)) = [Scenario.ticket7]
  /\ log (snd arabic_run) = [(ERROR, "Ticket Redmine #٣ non trouvé")]
  /\ map Issue.id (Redmine.issues (redmine (snd untagged_run))) = [7%N; 8%N]
  /\ map mail_to (requested (snd untagged_run)) = ["a@b.com"].
Proof. vm_compute. repeat split. Qed.

Section WebhookEffects.

Variable ns : Namespace.
Variable rt : Runtime.

(** C4, as the code has it.  On a body with the three fields, each a
    string, the handler answers 200 [success] and leaves the mailbox
    alone.  Without a tag in
    the subject it asks Redmine for one ticket with the subject of the
    message and the description ["De: <sender>\n\n<body>"]: when Redmine
    creates it, that ticket is the only change of Redmine and
    [send_email] is called once, for the sender, with a subject that
    contains [[Redmine #<new id>]]; when Redmine refuses, nothing else
    happens.  With a tag it asks Redmine for one update of the issue the
    digits name: when Redmine takes it, the comment ["Commentaire par
    e-mail de <sender>:\n\n<body>"] is added to that issue and
    [send_email] is not called; when Redmine does not (the issue is not
    found, the update is refused, the server fails), nothing changes in
    Redmine and [send_email] is not called. *)
Theorem email_webhook_effects (data : json) (from_email subject body : string)
    (w : World) :
  Json.getitem data "from" = inr (JStr from_email) ->
  Json.getitem data "subject" = inr (JStr subject) ->
  Json.getitem data "body" = inr (JStr body) ->
  exists w',
    email_webhook ns rt (inr data) w = (inr success, w')
    /\ mailbox w' = mailbox w
    /\ (forall issue rm',
          re_search_tag (unicode_decimal rt) subject = None ->
          Redmine.issue_create (redmine w) subject
            (description_of from_email body) (default_project_id ns) []
          = inr (issue, rm') ->
          redmine w' = rm'
          /\ Redmine.issues rm' = (Redmine.issues (redmine w) ++ [issue])%list
          /\ Issue.subject issue = subject
          /\ Issue.description issue = "De: " ++ from_email ++ nl ++ nl ++ body
          /\ requested w'
             = mkMail from_email (confirmation_subject (Issue.id issue))
                      (confirmation_body (Issue.id issue)) :: requested w
          /\ contains (tag_of (Issue.id issue))
                      (confirmation_subject (Issue.id issue)) = true)
    /\ (forall e,
          re_search_tag (unicode_decimal rt) subject = None ->
          Redmine.issue_create (redmine w) subject
            (description_of from_email body) (default_project_id ns) []
          = inl e ->
          redmine w' = redmine w /\ requested w' = requested w)
    /\ (forall ticket_id rm',
          re_search_tag (unicode_decimal rt) subject = Some ticket_id ->
          Redmine.issue_update (redmine w) (JStr ticket_id)
            (comment_of from_email body) = inr rm' ->
          redmine w' = rm'
          /\ requested w' = requested w
          /\ exists n found,
               Redmine.number_of (JStr ticket_id) = Some n
               /\ Redmine.lookup (redmine w) n = Some found
               /\ Redmine.allows (redmine w) n
                    ("Commentaire par e-mail de " ++ from_email ++ ":"
                     ++ nl ++ nl ++ body) = true
               /\ Redmine.issues rm'
                  = map (Redmine.add_journal (redmine w) n
                           ("Commentaire par e-mail de " ++ from_email ++ ":"
                            ++ nl ++ nl ++ body))
                        (Redmine.issues (redmine w)))
    /\ (forall ticket_id e,
          re_search_tag (unicode_decimal rt) subject = Some ticket_id ->
          Redmine.issue_update (redmine w) (JStr ticket_id)
            (comment_of from_email body) = inl e ->
          redmine w' = redmine w /\ requested w' = requested w).
Proof.
  intros Hf Hs Hb.
  destruct (re_search_tag (unicode_decimal rt) subject) as [tid|] eqn:Ht.
  - rewrite (email_webhook_tagged ns rt _ _ _ _ _ w Hf Hs Hb Ht).
    destruct (update_redmine_issue_spec rt (JStr tid)
                (comment_of from_email body) w)
      as (ok & w' & E & _ & Hrm & Hmb & _ & Hreq & _).
    exists w'. rewrite E. split; [reflexivity|]. split; [exact Hmb|].
    split; [discriminate|]. split; [discriminate|]. split.
    + intros ticket_id rm' [= <-] Hu. rewrite Hu in Hrm.
      split; [exact Hrm|]. split; [exact Hreq|].
      now apply issue_update_shape.
    + intros ticket_id e [= <-] Hu. rewrite Hu in Hrm. now split.
  - rewrite (email_webhook_untagged ns rt _ _ _ _ w Hf Hs Hb Ht).
    destruct (create_redmine_issue_spec rt subject (description_of from_email body)
                (default_project_id ns) w)
      as (w1 & E & Hrm & Hmb & _ & Hreq & _).
    rewrite E.
    destruct (Redmine.issue_create (redmine w) subject
                (description_of from_email body) (default_project_id ns) [])
      as [e|[issue rm1]] eqn:Hc.
    + exists w1. split; [reflexivity|]. split; [exact Hmb|].
      split; [discriminate|]. split; [now split|].
      split; discriminate.
    + destruct (send_email_spec ns rt from_email
                  (confirmation_subject (Issue.id issue))
                  (confirmation_body (Issue.id issue)) None [] w1)
        as (ok & w2 & E2 & (Hrm2 & Hmb2 & _) & Hreq2).
      exists w2. rewrite E2. split; [reflexivity|].
      split; [congruence|]. split.
      * intros issue' rm' _ [= <- <-].
        destruct (issue_create_shape _ _ _ _ _ _ _ Hc) as [Hi Hl].
        split; [congruence|]. split; [exact Hl|].
        split; [now rewrite Hi|]. split; [now rewrite Hi|].
        split; [now rewrite Hreq2, Hreq|].
        apply contains_prefix.
      * split; [discriminate|]. split; discriminate.
Qed.

End WebhookEffects.

Lemma email_webhook_effects_witness :
  exists w',
    email_webhook Scenario.as_written Scenario.runtime
      (Scenario.post "a@b.com" "Need help" "it's broken")
      (Scenario.world true) = (inr success, w')
    /\ map Issue.description (Redmine.issues (redmine w'))
       = [description_of "a@b.com" "it's broken";
          "De: a@b.com" ++ nl ++ nl ++ "it's broken"]
    /\ map (fun m => (mail_to m, mail_subject m)) (requested w')
       = [("a@b.com", "[Redmine #8] Votre demande a été enregistrée")].
Proof.
  destruct (email_webhook_effects Scenario.as_written Scenario.runtime
              (JObj [("from", JStr "a@b.com"); ("subject", JStr "Need help");
                     ("body", JStr "it's broken")])
              "a@b.com" "Need help" "it's broken" (Scenario.world true)
              eq_refl eq_refl eq_refl)
    as (w' & E & _ & Hcreate & _).
  exists w'. split; [exact E|].
  destruct (Hcreate _ _ eq_refl eq_refl) as (-> & _ & _ & _ & Hreq & _).
  rewrite Hreq. split; reflexivity.
Defined.

(** A message without a tag while Redmine refuses the creation, and a
    message with the tag of a ticket that does not exist: in both cases
    the message has no valid tag, no ticket is created and no
    confirmation is asked for. *)
Lemma email_webhook_may_create_nothing :
  let refused :=
    snd (email_webhook Scenario.as_written Scenario.runtime
           (Scenario.post "a@b.com" "Need help" "it's broken")
           (Scenario.world false)) in
  let unknown :=
    snd (email_webhook Scenario.as_written Scenario.runtime
           (Scenario.post "a@b.com" "[Redmine #99] hello" "again")
           (Scenario.world true)) in
  re_search_tag Scenario.decimal "Need help" = None
  /\ Redmine.issues (redmine refused) = [Scenario.ticket7]
  /\ requested refused = []
  /\ Redmine.lookup (Scenario.server true) 99 = None
  /\ Redmine.issues (redmine unknown) = [Scenario.ticket7]
  /\ requested unknown = [].
Proof. vm_compute. repeat split. Qed.

(** A reply to ticket 7 while Redmine refuses comments on it, and a
    message whose subject is a number: nothing is created or added. *)
Example email_webhook_refused :
  let locked :=
    email_webhook Scenario.as_written Scenario.runtime
      (Scenario.post "a@b.com" "[Redmine #7] thanks" "it works")
      (Scenario.running Scenario.locked Scenario.inbox) in
  let numeric :=
    email_webhook Scenario.as_written Scenario.runtime
      (inr (JObj [("from", JStr "a@b.com"); ("subject", JNum 3);
                  ("body", JStr "x")]))
      (Scenario.world true) in
  fst locked = inr success
  /\ Redmine.issues (redmine (snd locked)) = [Scenario.ticket7]
  /\ requested (snd locked) = []
  /\ option_map status (match fst numeric with inr r => Some r | inl _ => None end)
     = Some 500%Z
  /\ Redmine.issues (redmine (snd numeric)) = [Scenario.ticket7]
  /\ requested (snd numeric) = [].
Proof. vm_compute. repeat split. Qed.

(** The scenario of the specification with a tag: the comment goes to
    ticket 7, and no e-mail is asked for. *)
Example email_webhook_comment :
  let w' :=
    snd (email_webhook Scenario.as_written Scenario.runtime
           (Scenario.post "a@b.com" "[Redmine #7] thanks" "it works")
           (Scenario.world true)) in
  map (fun i => (Issue.id i, map Journal.notes (Issue.journals i)))
      (Redmine.issues (redmine w'))
  = [(7%N, [Some ("Commentaire par e-mail de a@b.com:" ++ nl ++ nl ++ "it works")])]
  /\ requested w' = [].
Proof. vm_compute. split; reflexivity. Qed.

(* ------------------------------------------------------------------ *)
(** * Bodies the webhooks refuse *)

Section Refusals.

Variable ns : Namespace.
Variable rt : Runtime.

(** A body that fails the check is answered 400, and nothing happens. *)
Lemma email_webhook_invalid (data : json) (w : World) :
  lacks_fields data = inr true ->
  email_webhook ns rt (inr data) w = (inr invalid_json, w).
Proof.
  intros H.
  cbv beta iota zeta delta [email_webhook try_except bind lift ret raise].
  now rewrite H.
Qed.

Lemma lacks_fields_falsy (data : json) :
  Json.truthy data = false -> lacks_fields data = inr true.
Proof. intros H. unfold lacks_fields. now rewrite H. Qed.

(** A body that is not empty is answered 200 or 500 by the Redmine
    webhook. *)
Lemma redmine_webhook_truthy (data : json) (w : World) :
  Json.truthy data = true ->
  exists r w',
    redmine_webhook ns rt (inr data) w = (inr r, w')
    /\ (r = success \/ exists e, r = internal_error rt e).
Proof.
  intros Ht.
  cbv beta iota delta [redmine_webhook try_except bind lift ret raise].
  rewrite Ht. cbv beta iota delta [negb].
  destruct (Json.contains "issue" data) as [e|[|]]; cbv beta iota.
  - eexists; eexists. split; [reflexivity|]. right. now exists e.
  - destruct (Json.getitem data "issue") as [e|issue_obj]; cbv beta iota.
    { eexists; eexists. split; [reflexivity|]. right. now exists e. }
    destruct (Json.getitem issue_obj "id") as [e|issue_id]; cbv beta iota.
    { eexists; eexists. split; [reflexivity|]. right. now exists e. }
    destruct (get_redmine_issue_spec rt issue_id w) as (w1 & E1 & _).
    rewrite E1.
    destruct (Redmine.issue_get (redmine w) issue_id) as [e|issue];
      cbv beta iota.
    { eexists; eexists. split; [reflexivity|]. now left. }
    destruct (requester_email (Issue.description issue)) as [requester|];
      cbv beta iota.
    2: { eexists; eexists. split; [reflexivity|]. now left. }
    destruct (PyStr.truthy requester); cbv beta iota.
    2: { eexists; eexists. split; [reflexivity|]. now left. }
    destruct (send_email_spec ns rt requester
                (update_subject (Issue.id issue) (Issue.subject issue))
                (webhook_update_body (Issue.id issue)) None [] w1)
      as (ok & w2 & E2 & _).
    rewrite E2.
    eexists; eexists. split; [reflexivity|]. now left.
  - eexists; eexists. split; [reflexivity|]. now left.
Qed.

(** C8, as the code has it.  The e-mail webhook answers 400 with the
    error JSON, and changes nothing, for every parsed body that is empty
    ([null], [{}], ...) and for every JSON object that lacks one of
    ["from"], ["subject"], ["body"].  The Redmine webhook answers 400
    exactly for the parsed bodies that are empty, and then changes
    nothing; every other parsed body gets 200 or 500.  A body that cannot
    be parsed gets 500 from both handlers, which then only write to the
    log. *)
Theorem webhooks_refuse_empty_bodies (data : json) (w : World) :
  ((Json.truthy data = false
    \/ exists members,
         data = JObj members
         /\ (Json.assoc "from" members = None
             \/ Json.assoc "subject" members = None
             \/ Json.assoc "body" members = None)) ->
   email_webhook ns rt (inr data) w = (inr invalid_json, w)
   /\ status invalid_json = 400%Z)
  /\ (exists r w',
        redmine_webhook ns rt (inr data) w = (inr r, w')
        /\ (status r = 400%Z <-> Json.truthy data = false)
        /\ (Json.truthy data = false -> r = invalid_json /\ w' = w)
        /\ (Json.truthy data = true -> status r = 200%Z \/ status r = 500%Z))
  /\ (forall e handler,
        handler = email_webhook ns rt \/ handler = redmine_webhook ns rt ->
        exists r w',
          handler (inl e) w = (inr r, w')
          /\ status r = 500%Z
          /\ redmine w' = redmine w /\ mailbox w' = mailbox w
          /\ requested w' = requested w /\ outbox w' = outbox w).
Proof.
  split; [|split].
  - intros H. split; [|reflexivity].
    apply email_webhook_invalid.
    destruct H as [H|(members & -> & H)];
      [now apply lacks_fields_falsy | now apply lacks_fields_missing].
  - destruct (Json.truthy data) eqn:Ht.
    + destruct (redmine_webhook_truthy data w Ht) as (r & w' & E & Hr).
      exists r, w'. split; [exact E|].
      assert (Hs : status r = 200%Z \/ status r = 500%Z)
        by (destruct Hr as [->|[e ->]]; [now left | now right]).
      split; [|split; [discriminate | intros _; exact Hs]].
      split; [|discriminate].
      intros H. destruct Hs as [Hs|Hs]; rewrite Hs in H; discriminate.
    + exists invalid_json, w.
      cbv beta iota zeta delta [redmine_webhook try_except bind lift ret].
      rewrite Ht. split; [reflexivity|].
      split; [now split|]. split; [now split | discriminate].
  - intros e handler [->| ->]; eexists; eexists;
      (split; [reflexivity|]); now repeat split.
Qed.

End Refusals.

Lemma webhooks_refuse_empty_bodies_witness :
  email_webhook Scenario.as_written Scenario.runtime (inr (JObj []))
    (Scenario.world true)
  = (inr invalid_json, Scenario.world true)
  /\ email_webhook Scenario.as_written Scenario.runtime
       (inr (JObj [("from", JStr "a@b.com"); ("body", JStr "no subject")]))
       (Scenario.world true)
     = (inr invalid_json, Scenario.world true).
Proof.
  split.
  - apply (proj1 (webhooks_refuse_empty_bodies Scenario.as_written
                    Scenario.runtime (JObj []) (Scenario.world true))).
    left. reflexivity.
  - apply (proj1 (webhooks_refuse_empty_bodies Scenario.as_written
                    Scenario.runtime
                    (JObj [("from", JStr "a@b.com"); ("body", JStr "no subject")])
                    (Scenario.world true))).
    right. eexists. split; [reflexivity|]. right. left. reflexivity.
Defined.

(** Bodies that do not have the shape [{"issue": {"id": ...}}] and are not
    answered 400 by the Redmine webhook: an issue without ["id"], an
    issue that is a number and a body that is a number are answered 500,
    a body without ["issue"] is answered 200, a body that is not JSON is
    answered 500; and a number sent to the e-mail webhook is answered
    500. *)
Lemma malformed_bodies_not_400 :
  let answer (run : (exn + Response) * World) : option Z :=
    match fst run with inr r => Some (status r) | inl _ => None end in
  let redmine_hook := redmine_webhook Scenario.as_written Scenario.runtime in
  let email_hook := email_webhook Scenario.as_written Scenario.runtime in
  answer (redmine_hook (inr (JObj [("issue", JObj [])])) (Scenario.world true))
  = Some 500%Z
  /\ answer (redmine_hook (inr (JObj [("issue", JNum 7)])) (Scenario.world true))
     = Some 500%Z
  /\ answer (redmine_hook (inr (JNum 5)) (Scenario.world true)) = Some 500%Z
  /\ answer (redmine_hook (inr (JObj [("ticket", JNum 7)])) (Scenario.world true))
     = Some 200%Z
  /\ answer (redmine_hook (inl (HTTPException 400)) (Scenario.world true))
     = Some 500%Z
  /\ answer (email_hook (inr (JNum 5)) (Scenario.world true)) = Some 500%Z.
Proof. vm_compute. repeat split. Qed.

(* ------------------------------------------------------------------ *)
(** * The mailbox poll *)

Section Poll.

Variable ns : Namespace.
Variable rt : Runtime.

Lemma find_mark_seen (n : N) (ls : list Letter) (l : Letter) :
  find (fun l => N.eqb (num l) n) ls = Some l ->
  find (fun l => N.eqb (num l) n) (map (mark_seen n) ls)
  = Some (mkLetter (num l) true (fetch_ok l) (raw_email l)).
Proof.
  induction ls as [|a ls IH]; [discriminate|].
  cbn [find map]. unfold mark_seen at 1.
  destruct (N.eqb (num a) n) eqn:E.
  - intros [= <-]. unfold mark_seen. cbn [num]. now rewrite !E.
  - rewrite E. exact IH.
Qed.

Lemma mark_seen_twice (n : N) (ls : list Letter) :
  map (mark_seen n) (map (mark_seen n) ls) = map (mark_seen n) ls.
Proof.
  rewrite map_map. apply map_ext. intros a. unfold mark_seen.
  destruct (N.eqb (num a) n) eqn:E; cbn [num]; now rewrite E.
Qed.

(** Fetching a letter and then storing its flag leaves the mailbox as the
    fetch alone does. *)
Lemma with_seen_twice (n : N) (w : World) :
  mailbox (with_seen n (with_seen n w)) = mailbox (with_seen n w).
Proof. unfold with_seen. cbn. now rewrite mark_seen_twice. Qed.

(** One turn of the loop, case by case.  A letter that is fetched is
    seen, whatever becomes of it. *)
Lemma check_emails_message_spec (n : N) (w : World) :
  exists r w',
    check_emails_message ns rt n w = (r, w')
    /\ smtp_accepts w' = smtp_accepts w
    /\ mailbox w'
       = (if fetchable (mailbox w) n then mailbox (with_seen n w) else mailbox w)
    /\ match creation_of ns w n with
       | Some (issue, rm') =>
           r = inr tt
           /\ redmine w' = rm'
           /\ requested w'
              = mkMail (sender_of w n) (confirmation_subject (Issue.id issue))
                       (confirmation_body (Issue.id issue)) :: requested w
       | None =>
           redmine w' = redmine w
           /\ requested w' = requested w
           /\ outbox w' = outbox w
       end.
Proof.
  cbv beta iota zeta delta [check_emails_message creation_of sender_of
                            fetchable bind imap_fetch lift ret raise].
  destruct (find (fun l => N.eqb (num l) n) (letters (mailbox w))) as [l|].
  2: { eexists; eexists. split; [reflexivity|]. now repeat split. }
  destruct (fetch_ok l).
  2: { eexists; eexists. split; [reflexivity|]. now repeat split. }
  destruct (body_of (raw_email l)) as [e|body]; cbv beta iota.
  { eexists; eexists. split; [reflexivity|]. now repeat split. }
  destruct (create_redmine_issue_spec rt (Subject (raw_email l))
              (description_of (From (raw_email l)) body)
              (default_project_id ns) (with_seen n w))
    as (w1 & E1 & Hrm & Hmb & Hup & Hreq & Hout).
  rewrite E1. cbn [redmine with_seen] in *.
  destruct (Redmine.issue_create (redmine w) (Subject (raw_email l))
              (description_of (From (raw_email l)) body)
              (default_project_id ns) []) as [e|[issue rm']]; cbv beta iota.
  { eexists; eexists. split; [reflexivity|].
    split; [exact Hup|]. split; [exact Hmb|]. now repeat split. }
  unfold imap_store_seen at 1.
  match goal with
  | |- context [send_email ns rt ?a ?b ?c ?d ?f ?v] =>
      destruct (send_email_spec ns rt a b c d f v)
        as (ok & w2 & E2 & (Hrm2 & Hmb2 & Hup2) & Hreq2)
  end.
  rewrite E2. cbn [redmine mailbox smtp_accepts requested with_seen] in *.
  eexists; eexists. split; [reflexivity|].
  split; [congruence|]. split.
  { rewrite Hmb2, Hmb. cbn. now rewrite mark_seen_twice. }
  split; [reflexivity|]. split; [congruence|].
  now rewrite Hreq2, Hreq.
Qed.

End Poll.

Section PollLoop.

Variable ns : Namespace.

Lemma creation_of_shape (w : World) (n : N) (issue : Issue.t) (rm' : Redmine.t) :
  creation_of ns w n = Some (issue, rm') ->
  Redmine.issues rm' = (Redmine.issues (redmine w) ++ [issue])%list
  /\ exists l, find (fun l => N.eqb (num l) n) (letters (mailbox w)) = Some l.
Proof.
  unfold creation_of.
  destruct (find _ (letters (mailbox w))) as [l|]; [|discriminate].
  destruct (fetch_ok l); [|discriminate].
  destruct (body_of (raw_email l)) as [e|body]; [discriminate|].
  destruct (Redmine.issue_create _ _ _ _ _) as [e|[i rm1]] eqn:Hc;
    [discriminate|].
  intros [= <- <-]. split; [|now exists l].
  now destruct (issue_create_shape _ _ _ _ _ _ _ Hc).
Qed.

Lemma unseen_incl (mb : Mailbox) (n : N) :
  In n (unseen mb) -> In n (map num (letters mb)).
Proof.
  unfold unseen. intros H. apply in_map_iff in H as (l & <- & Hl).
  apply filter_In in Hl as [Hl _]. now apply in_map.
Qed.

(** With distinct message numbers, a number that the search returns is
    that of a letter not yet seen. *)
Lemma unseen_not_seen (mb : Mailbox) (n : N) :
  NoDup (map num (letters mb)) ->
  In n (unseen mb) -> is_seen mb n = false.
Proof.
  unfold is_seen, unseen. induction (letters mb) as [|a ls IH]; [contradiction|].
  cbn [map filter find]. intros Hnd Hin. inversion_clear Hnd as [|? ? Hna Hnd'].
  destruct (N.eqb_spec (num a) n) as [<-|Hne].
  - destruct (seen a); [|reflexivity]. exfalso. apply Hna.
    cbn [negb] in Hin. apply in_map_iff in Hin as (l & E & Hl).
    apply filter_In in Hl as [Hl _]. rewrite <- E. now apply in_map.
  - apply (IH Hnd'). destruct (negb (seen a)); [|exact Hin].
    destruct Hin as [Hin|Hin]; [contradiction | exact Hin].
Qed.

(** A letter that is not seen is returned by the next search. *)
Lemma not_seen_unseen (mb : Mailbox) (n : N) :
  In n (map num (letters mb)) -> is_seen mb n = false -> In n (unseen mb).
Proof.
  unfold is_seen, unseen. induction (letters mb) as [|a ls IH]; [contradiction|].
  cbn [map filter find]. intros Hin Hs.
  destruct (N.eqb_spec (num a) n) as [<-|Hne].
  - rewrite Hs. now left.
  - destruct Hin as [Hin|Hin]; [contradiction|].
    destruct (negb (seen a)); [right|]; now apply IH.
Qed.

Lemma num_mark_seen (n : N) (ls : list Letter) :
  map num (map (mark_seen n) ls) = map num ls.
Proof.
  induction ls as [|a ls IH]; [reflexivity|].
  cbn [map]. rewrite IH. f_equal. unfold mark_seen.
  now destruct (N.eqb (num a) n).
Qed.

Lemma mark_seen_same (n : N) (a : Letter) :
  N.eqb (num a) n = true ->
  mark_seen n a = mkLetter (num a) true (fetch_ok a) (raw_email a).
Proof. intros E. unfold mark_seen. now rewrite E. Qed.

Lemma mark_seen_other (n : N) (a : Letter) :
  N.eqb (num a) n = false -> mark_seen n a = a.
Proof. intros E. unfold mark_seen. now rewrite E. Qed.

(** Marking the letter [n] takes [n], and nothing else, out of the answer
    of the search. *)
Lemma unseen_mark_seen (r s : bool) (n : N) (ls : list Letter) :
  unseen (mkMailbox r s (map (mark_seen n) ls))
  = filter (fun m => negb (N.eqb m n)) (unseen (mkMailbox r s ls)).
Proof.
  unfold unseen. cbn [letters].
  induction ls as [|a ls IH]; [reflexivity|].
  cbn [map filter].
  destruct (N.eqb (num a) n) eqn:E.
  - rewrite (mark_seen_same _ _ E). cbn [seen negb].
    destruct (seen a); cbn [negb map filter]; [exact IH|].
    rewrite E. cbn [negb]. exact IH.
  - rewrite (mark_seen_other _ _ E).
    destruct (seen a); cbn [negb map filter]; [exact IH|].
    rewrite E. cbn [negb]. now rewrite IH.
Qed.

Lemma NoDup_unseen (mb : Mailbox) :
  NoDup (map num (letters mb)) -> NoDup (unseen mb).
Proof.
  unfold unseen. induction (letters mb) as [|a ls IH]; [constructor|].
  cbn [map filter]. intros Hnd. inversion_clear Hnd as [|? ? Hna Hnd'].
  destruct (negb (seen a)); [|now apply IH].
  cbn [map]. constructor; [|now apply IH].
  intros Hin. apply Hna. apply in_map_iff in Hin as (l & E & Hl).
  apply filter_In in Hl as [Hl _]. rewrite <- E. now apply in_map.
Qed.

End PollLoop.

Section PollClaims.

Variable ns : Namespace.
Variable rt : Runtime.

Lemma is_seen_marked (n : N) (w : World) :
  fetchable (mailbox w) n = true ->
  is_seen (mailbox (with_seen n w)) n = true.
Proof.
  unfold fetchable, is_seen, with_seen. cbn [mailbox letters].
  destruct (find (fun l => N.eqb (num l) n) (letters (mailbox w))) as [l|] eqn:Hf;
    [|discriminate].
  intros _. now rewrite (find_mark_seen _ _ _ Hf).
Qed.


(** The poll only ever creates: the tickets Redmine had are as they were,
    so no comment is added to any of them. *)
Lemma for_each_message_only_creates (l : list N) (w : World) :
  exists r w' created,
    for_each l (check_emails_message ns rt) w = (r, w')
    /\ Redmine.issues (redmine w')
       = (Redmine.issues (redmine w) ++ created)%list.
Proof.
  revert w. induction l as [|n l IH]; intros w.
  - exists (inr tt), w, []. split; [reflexivity | now rewrite List.app_nil_r].
  - destruct (check_emails_message_spec ns rt n w) as (r & w1 & E & _ & _ & Hcase).
    cbn [for_each]. unfold bind. rewrite E.
    assert (H1 : exists c1, Redmine.issues (redmine w1)
                            = (Redmine.issues (redmine w) ++ c1)%list).
    { destruct (creation_of ns w n) as [[issue rm']|] eqn:Hc.
      - destruct Hcase as (_ & Hrm & _).
        destruct (creation_of_shape _ _ _ _ _ Hc) as [Hiss _].
        exists [issue]. now rewrite Hrm.
      - destruct Hcase as (Hrm & _). exists []. now rewrite Hrm, List.app_nil_r. }
    destruct H1 as [c1 H1].
    destruct r as [e|[]].
    + now exists (inl e), w1, c1.
    + destruct (IH w1) as (r2 & w2 & c2 & E2 & H2).
      exists r2, w2, (c1 ++ c2)%list. split; [exact E2|].
      now rewrite H2, H1, List.app_assoc.
Qed.

Lemma check_emails_only_creates (w : World) :
  exists w' created,
    check_emails ns rt w = (inr tt, w')
    /\ Redmine.issues (redmine w')
       = (Redmine.issues (redmine w) ++ created)%list.
Proof.
  cbv beta iota delta [check_emails try_except bind read_EMAIL_SERVER
                       imap_open imap_search_unseen ret raise].
  destruct (EMAIL_SERVER ns) as [host|].
  2: { eexists; exists []. split; [reflexivity | now rewrite List.app_nil_r]. }
  destruct (reachable (mailbox w)).
  2: { eexists; exists []. split; [reflexivity | now rewrite List.app_nil_r]. }
  destruct (search_ok (mailbox w)).
  2: { eexists; exists []. split; [reflexivity | now rewrite List.app_nil_r]. }
  destruct (for_each_message_only_creates (unseen (mailbox w)) w)
    as (r & w' & created & E & H).
  rewrite E. destruct r as [e|[]].
  - eexists; exists created. split; [reflexivity | exact H].
  - now exists w', created.
Qed.

(** As the module is written, the poll stops at its first line. *)
Lemma check_emails_as_written (cfg : Config) (w : World) :
  check_emails (connect_module cfg) rt w
  = logger ERROR ("Erreur lors de la vérification des e-mails: "
                  ++ str_of_exn rt (NameError "EMAIL_SERVER")) w.
Proof. reflexivity. Qed.

End PollClaims.


(** The whole poll at that letter: Redmine cannot be reached, no ticket
    is created and no confirmation asked for, and yet the letter is seen;
    a second poll, with Redmine back, finds nothing to do. *)
Example poll_loses_refused_letter :
  let first := snd (check_emails Scenario.patched Scenario.runtime
                      (Scenario.printer_waiting false)) in
  let back := mkWorld (Scenario.server true) (mailbox first)
                      (smtp_accepts first) (requested first) (outbox first)
                      (log first) in
  let second := snd (check_emails Scenario.patched Scenario.runtime back) in
  unseen (mailbox (Scenario.printer_waiting false)) = [2%N]
  /\ unseen (mailbox first) = []
  /\ Redmine.issues (redmine first) = [Scenario.ticket7]
  /\ requested first = []
  /\ Redmine.issues (redmine second) = [Scenario.ticket7]
  /\ requested second = [].
Proof. vm_compute. repeat split. Qed.

(** C2, at a reply the mailbox holds.  The webhook adds the reply as a
    comment to ticket 7.  The poll, with [EMAIL_SERVER] bound, files the
    same reply as the new ticket 8 and leaves ticket 7 without a comment;
    as the module is written it stops on the unbound name before it
    reads the mailbox. *)
Theorem poll_files_reply_as_new_ticket :
  let by_webhook :=
    snd (email_webhook Scenario.as_written Scenario.runtime
           (Scenario.post "a@b.com" "[Redmine #7] thanks" "it works")
           Scenario.reply_waiting) in
  let by_poll :=
    snd (check_emails Scenario.patched Scenario.runtime Scenario.reply_waiting) in
  let as_written :=
    snd (check_emails Scenario.as_written Scenario.runtime Scenario.reply_waiting) in
  let comments (w : World) :=
    map (fun i => (Issue.id i, Issue.subject i, length (Issue.journals i)))
        (Redmine.issues (redmine w)) in
  re_search_tag Scenario.decimal "[Redmine #7] thanks" = Some "7"
  /\ comments by_webhook = [(7%N, "Need help", 1%nat)]
  /\ comments by_poll
     = [(7%N, "Need help", 0%nat); (8%N, "[Redmine #7] thanks", 0%nat)]
  /\ comments as_written = [(7%N, "Need help", 0%nat)]
  /\ unseen (mailbox as_written) = [1%N]
  /\ log as_written
     = [(ERROR, "Erreur lors de la vérification des e-mails: name 'EMAIL_SERVER' is not defined")].
Proof. vm_compute. repeat split. Qed.

(* ------------------------------------------------------------------ *)
(** * Further properties: the calls on Redmine and on the mail relay *)

Section RedmineCalls.

Variable ns : Namespace.
Variable rt : Runtime.

Lemma In_given (name name' : string) (v : option Z) (z : Z) :
  In (name', z) (given name v) <-> name' = name /\ v = Some z /\ z <> 0%Z.
Proof.
  unfold given. destruct v as [y|].
  - destruct (Z.eqb_spec y 0) as [->|Hy].
    + split; [contradiction|]. intros (_ & [= <-] & H). now apply H.
    + split.
      * intros [[= <- <-]|[]]. now repeat split.
      * intros (-> & [= ->] & _). now left.
  - split; [contradiction|]. now intros (_ & [=] & _).
Qed.

(** [create_redmine_issue] never raises.  When Redmine is reachable and
    accepts the data, it returns the new issue: the issue is put at the
    end of the table under the next number, with the subject, description
    and project passed, and with exactly the classifiers that were passed
    and are not zero; one INFO line is logged.  Otherwise it returns
    [None], Redmine is as before and one ERROR line is logged.  In both
    cases the mailbox, the relay, the requests and the outbox are
    untouched. *)
Theorem create_redmine_issue_outcome (subject description : string)
    (project_id : Z) (tracker_id status_id priority_id assigned_to_id : option Z)
    (w : World) :
  exists r w',
    create_redmine_issue rt subject description project_id
      tracker_id status_id priority_id assigned_to_id w = (inr r, w')
    /\ mailbox w' = mailbox w /\ smtp_accepts w' = smtp_accepts w
    /\ requested w' = requested w /\ outbox w' = outbox w
    /\ (Redmine.online (redmine w)
        && Redmine.accepts (redmine w) subject description project_id = true ->
        exists issue,
          r = Some issue
          /\ Redmine.issues (redmine w')
             = (Redmine.issues (redmine w) ++ [issue])%list
          /\ Issue.id issue = Redmine.next_id (redmine w)
          /\ Redmine.next_id (redmine w') = N.succ (Redmine.next_id (redmine w))
          /\ Issue.subject issue = subject
          /\ Issue.description issue = description
          /\ Issue.project_id issue = project_id
          /\ Issue.journals issue = []
          /\ (forall name z,
                In (name, z) (Issue.classifiers issue) <->
                z <> 0%Z
                /\ ((name = "tracker_id" /\ tracker_id = Some z)
                    \/ (name = "status_id" /\ status_id = Some z)
                    \/ (name = "priority_id" /\ priority_id = Some z)
                    \/ (name = "assigned_to_id" /\ assigned_to_id = Some z)))
          /\ log w'
             = (INFO, "Ticket Redmine créé avec succès: #"
                      ++ str_of_N (Redmine.next_id (redmine w))) :: log w)
    /\ (Redmine.online (redmine w)
        && Redmine.accepts (redmine w) subject description project_id = false ->
        r = None
        /\ redmine w' = redmine w
        /\ exists e,
             log w' = (ERROR, "Erreur lors de la création du ticket Redmine: "
                              ++ str_of_exn rt e) :: log w).
Proof.
  cbv beta iota zeta delta [create_redmine_issue try_except bind
                            redmine_issue_create logger ret].
  unfold Redmine.issue_create.
  destruct (Redmine.online (redmine w)); cbn [negb andb].
  - destruct (Redmine.accepts (redmine w) subject description project_id);
      cbn [negb].
    + eexists; eexists. split; [reflexivity|]. cbn.
      do 4 (split; [reflexivity|]). split; [|discriminate].
      intros _. eexists. split; [reflexivity|]. cbn.
      do 7 (split; [reflexivity|]). split; [|reflexivity].
      intros name z. rewrite !in_app_iff, !In_given. intuition congruence.
    + eexists; eexists. split; [reflexivity|]. cbn.
      do 4 (split; [reflexivity|]). split; [discriminate|].
      intros _. split; [reflexivity|]. split; [reflexivity|].
      now exists (TransportError "validation").
  - eexists; eexists. split; [reflexivity|]. cbn.
    do 4 (split; [reflexivity|]). split; [discriminate|].
    intros _. split; [reflexivity|]. split; [reflexivity|].
    now exists (TransportError "connection").
Qed.

End RedmineCalls.

Lemma create_redmine_issue_outcome_witness :
  let run := create_redmine_issue Scenario.runtime "Printer" "De: c@d.org" 1
               (Some 2%Z) (Some 0%Z) None (Some 5%Z) (Scenario.world true) in
  let refused := create_redmine_issue Scenario.runtime "Printer" "De: c@d.org" 1
               (Some 2%Z) (Some 0%Z) None (Some 5%Z) (Scenario.world false) in
  (exists issue,
     fst run = inr (Some issue)
     /\ Issue.id issue = 8%N
     /\ In ("tracker_id", 2%Z) (Issue.classifiers issue)
     /\ ~ In ("status_id", 0%Z) (Issue.classifiers issue))
  /\ fst refused = inr None
  /\ redmine (snd refused) = Scenario.server false.
Proof.
  intros run refused. split.
  - destruct (create_redmine_issue_outcome Scenario.runtime "Printer" "De: c@d.org" 1
                (Some 2%Z) (Some 0%Z) None (Some 5%Z) (Scenario.world true))
      as (r & w' & E & _ & _ & _ & _ & Hok & _).
    destruct (Hok eq_refl) as (issue & -> & _ & Hid & _ & _ & _ & _ & _ & Hcl & _).
    exists issue. unfold run. rewrite E. split; [reflexivity|].
    split; [exact Hid|]. split.
    + apply Hcl. split; [discriminate|]. left. now split.
    + intros H. apply Hcl in H as [H _]. now apply H.
  - destruct (create_redmine_issue_outcome Scenario.runtime "Printer" "De: c@d.org" 1
                (Some 2%Z) (Some 0%Z) None (Some 5%Z) (Scenario.world false))
      as (r & w' & E & _ & _ & _ & _ & _ & Hno).
    destruct (Hno eq_refl) as (-> & Hrm & _).
    unfold refused. rewrite E. now split.
Defined.

Section RedmineUpdates.

Variable ns : Namespace.
Variable rt : Runtime.

Lemma add_journal_id (rm : Redmine.t) (n : N) (c : string) (i : Issue.t) :
  Issue.id (Redmine.add_journal rm n c i) = Issue.id i.
Proof. unfold Redmine.add_journal. now destruct (N.eqb (Issue.id i) n). Qed.

Lemma find_add_journal (rm : Redmine.t) (n m : N) (c : string)
    (l : list Issue.t) :
  find (fun i => N.eqb (Issue.id i) m) (map (Redmine.add_journal rm n c) l)
  = option_map (Redmine.add_journal rm n c)
               (find (fun i => N.eqb (Issue.id i) m) l).
Proof.
  induction l as [|i l IH]; [reflexivity|].
  cbn [map find]. rewrite add_journal_id.
  destruct (N.eqb (Issue.id i) m); [reflexivity | exact IH].
Qed.

Lemma find_some_id (m : N) (l : list Issue.t) (i : Issue.t) :
  find (fun i => N.eqb (Issue.id i) m) l = Some i -> Issue.id i = m.
Proof.
  intros H. apply find_some in H as [_ H]. now apply N.eqb_eq.
Qed.

Lemma update_found (issue_id : json) (notes : string) (w : World) (n : N)
    (found : Issue.t) :
  Redmine.online (redmine w) = true ->
  Redmine.number_of issue_id = Some n ->
  Redmine.lookup (redmine w) n = Some found ->
  Redmine.allows (redmine w) n notes = true ->
  exists w1,
    update_redmine_issue rt issue_id notes w = (inr true, w1)
    /\ redmine w1
       = Redmine.mk (map (Redmine.add_journal (redmine w) n notes)
                         (Redmine.issues (redmine w)))
                    (Redmine.next_id (redmine w)) (Redmine.online (redmine w))
                    (Redmine.accepts (redmine w)) (Redmine.now (redmine w))
                    (Redmine.allows (redmine w))
                    (Redmine.closed_status (redmine w))
    /\ mailbox w1 = mailbox w /\ smtp_accepts w1 = smtp_accepts w
    /\ requested w1 = requested w /\ outbox w1 = outbox w.
Proof.
  intros Hon Hn Hl Ha.
  cbv beta iota zeta delta [update_redmine_issue try_except bind
                            redmine_issue_get redmine_issue_update logger ret].
  unfold Redmine.issue_get, Redmine.issue_update.
  rewrite Hon, Hn, Hl, Ha. cbn [negb].
  eexists. split; [reflexivity|]. now repeat split.
Qed.

(** [update_redmine_issue] never raises.  It returns [True] exactly when
    Redmine takes the update, which it asks for once Redmine has returned
    the issue; Redmine is then as the update leaves it and one INFO line
    is logged.  It returns [False] when the lookup or the update raises;
    Redmine is then as before and one ERROR line is logged: the "non
    trouvé" one when the exception is [ResourceNotFoundError], the one
    that carries the text of the exception otherwise.  The mailbox, the
    relay, the requests and the outbox are untouched. *)
Theorem update_redmine_issue_outcome (issue_id : json) (notes : string)
    (w : World) :
  exists ok w',
    update_redmine_issue rt issue_id notes w = (inr ok, w')
    /\ mailbox w' = mailbox w /\ smtp_accepts w' = smtp_accepts w
    /\ requested w' = requested w /\ outbox w' = outbox w
    /\ (ok = true <->
        exists rm', Redmine.issue_update (redmine w) issue_id notes = inr rm')
    /\ (ok = true ->
        (exists found, Redmine.issue_get (redmine w) issue_id = inr found)
        /\ Redmine.issue_update (redmine w) issue_id notes = inr (redmine w')
        /\ log w' = (INFO, "Ticket Redmine #" ++ format rt issue_id
                           ++ " mis à jour avec succès") :: log w)
    /\ (ok = false ->
        redmine w' = redmine w
        /\ exists e,
             (Redmine.issue_get (redmine w) issue_id = inl e
              \/ ((exists found, Redmine.issue_get (redmine w) issue_id = inr found)
                  /\ Redmine.issue_update (redmine w) issue_id notes = inl e))
             /\ log w'
                = (ERROR,
                   match e with
                   | ResourceNotFoundError =>
                       "Ticket Redmine #" ++ format rt issue_id ++ " non trouvé"
                   | _ =>
                       "Erreur lors de la mise à jour du ticket Redmine #"
                       ++ format rt issue_id ++ ": " ++ str_of_exn rt e
                   end) :: log w).
Proof.
  cbv beta iota zeta delta [update_redmine_issue try_except bind
                            redmine_issue_get redmine_issue_update logger ret].
  unfold Redmine.issue_get, Redmine.issue_update.
  destruct (negb (Redmine.online (redmine w))).
  - eexists; eexists. split; [reflexivity|]. cbn.
    do 4 (split; [reflexivity|]).
    split; [split; [discriminate | now intros [? [=]]]|].
    split; [discriminate|]. intros _. split; [reflexivity|].
    eexists. split; [now left | reflexivity].
  - destruct (Redmine.number_of issue_id) as [n|].
    + destruct (Redmine.lookup (redmine w) n) as [found|].
      * destruct (Redmine.allows (redmine w) n notes).
        -- eexists; eexists. split; [reflexivity|]. cbn.
           do 4 (split; [reflexivity|]).
           split; [split; [now eexists | reflexivity]|].
           split; [|discriminate].
           intros _. split; [now exists found|]. now split.
        -- eexists; eexists. split; [reflexivity|]. cbn.
           do 4 (split; [reflexivity|]).
           split; [split; [discriminate | now intros [? [=]]]|].
           split; [discriminate|]. intros _. split; [reflexivity|].
           eexists. split; [right; split; [now exists found | reflexivity]|].
           reflexivity.
      * eexists; eexists. split; [reflexivity|]. cbn.
        do 4 (split; [reflexivity|]).
        split; [split; [discriminate | now intros [? [=]]]|].
        split; [discriminate|]. intros _. split; [reflexivity|].
        eexists. split; [now left | reflexivity].
    + eexists; eexists. split; [reflexivity|]. cbn.
      do 4 (split; [reflexivity|]).
      split; [split; [discriminate | now intros [? [=]]]|].
      split; [discriminate|]. intros _. split; [reflexivity|].
      eexists. split; [now left | reflexivity].
Qed.

(** On a Redmine that can be reached, has the issue and allows the
    comment on it, [add_comment_to_redmine_issue] returns [True], and
    [get_redmine_issue] then shows the comment as the last journal entry
    of the issue, after the entries the issue had; the issue keeps its
    number, subject and description, and every issue with another number
    is as before. *)
Theorem comment_then_get (issue_id : json) (comment : string) (w : World)
    (n : N) (found : Issue.t) :
  Redmine.online (redmine w) = true ->
  Redmine.number_of issue_id = Some n ->
  Redmine.lookup (redmine w) n = Some found ->
  Redmine.allows (redmine w) n comment = true ->
  exists w1 w2 issue,
    add_comment_to_redmine_issue rt issue_id comment w = (inr true, w1)
    /\ get_redmine_issue rt issue_id w1 = (inr (Some issue), w2)
    /\ Issue.journals issue
       = (Issue.journals found
          ++ [Journal.mk (Some (Redmine.now (redmine w))) (Some comment)])%list
    /\ Issue.id issue = n
    /\ Issue.subject issue = Issue.subject found
    /\ Issue.description issue = Issue.description found
    /\ (forall m, m <> n ->
          Redmine.lookup (redmine w2) m = Redmine.lookup (redmine w) m).
Proof.
  intros Hon Hn Hl Ha.
  destruct (update_found issue_id comment w n found Hon Hn Hl Ha)
    as (w1 & E1 & Hrm & _).
  assert (Hid : Issue.id found = n) by now apply (find_some_id _ _ _ Hl).
  assert (Hget : Redmine.issue_get (redmine w1) issue_id
                 = inr (Redmine.add_journal (redmine w) n comment found)).
  { unfold Redmine.issue_get. rewrite Hrm. cbn [Redmine.online].
    rewrite Hon, Hn. cbn [negb]. unfold Redmine.lookup. cbn [Redmine.issues].
    rewrite find_add_journal. fold (Redmine.lookup (redmine w) n).
    now rewrite Hl. }
  exists w1, w1, (Redmine.add_journal (redmine w) n comment found).
  split; [exact E1|]. split; [now apply get_found|].
  destruct (add_journal_spec (redmine w) n comment found) as [Hj _].
  split; [now apply Hj|]. split; [now rewrite add_journal_id|].
  split; [unfold Redmine.add_journal; now destruct (N.eqb (Issue.id found) n)|].
  split; [unfold Redmine.add_journal; now destruct (N.eqb (Issue.id found) n)|].
  intros m Hm. unfold Redmine.lookup. rewrite Hrm. cbn [Redmine.issues].
  rewrite find_add_journal.
  destruct (find (fun i => N.eqb (Issue.id i) m) (Redmine.issues (redmine w)))
    as [i|] eqn:Hf; [|reflexivity].
  cbn [option_map]. f_equal.
  apply add_journal_spec. rewrite (find_some_id _ _ _ Hf). exact Hm.
Qed.

(** [get_redmine_issue] never raises and changes nothing but the log.  It
    returns the issue when Redmine has it, and then logs nothing; it
    returns [None] when Redmine fails, and then logs one ERROR line. *)
Theorem get_redmine_issue_outcome (issue_id : json) (w : World) :
  exists r w',
    get_redmine_issue rt issue_id w = (inr r, w')
    /\ redmine w' = redmine w /\ mailbox w' = mailbox w
    /\ smtp_accepts w' = smtp_accepts w
    /\ requested w' = requested w /\ outbox w' = outbox w
    /\ (forall issue,
          r = Some issue <-> Redmine.issue_get (redmine w) issue_id = inr issue)
    /\ (r <> None -> w' = w)
    /\ (r = None -> exists msg, log w' = (ERROR, msg) :: log w).
Proof.
  cbv beta iota zeta delta [get_redmine_issue try_except bind
                            redmine_issue_get logger ret].
  destruct (Redmine.issue_get (redmine w) issue_id) as [e|issue].
  - destruct e; eexists; eexists; (split; [reflexivity|]); cbn;
      do 5 (split; [reflexivity|]);
      (split; [intros i; split; discriminate|]);
      (split; [intros H; now contradiction H|]);
      intros _; eexists; reflexivity.
  - eexists; eexists. split; [reflexivity|].
    do 5 (split; [reflexivity|]).
    split; [intros i; split; congruence|].
    split; [reflexivity | discriminate].
Qed.

End RedmineUpdates.

Lemma comment_then_get_witness :
  exists w1 w2 issue,
    add_comment_to_redmine_issue Scenario.runtime (JStr "7") "merci"
      (Scenario.world true) = (inr true, w1)
    /\ get_redmine_issue Scenario.runtime (JStr "7") w1 = (inr (Some issue), w2)
    /\ map Journal.notes (Issue.journals issue) = [Some "merci"].
Proof.
  destruct (comment_then_get Scenario.runtime (JStr "7") "merci"
              (Scenario.world true) 7%N Scenario.ticket7
              eq_refl eq_refl eq_refl eq_refl)
    as (w1 & w2 & issue & E1 & E2 & Hj & _).
  exists w1, w2, issue. split; [exact E1|]. split; [exact E2|].
  now rewrite Hj.
Defined.

(* ------------------------------------------------------------------ *)
(** * Further properties: [send_email] and the two webhooks *)

Section Sending.

Variable ns : Namespace.
Variable rt : Runtime.

(** The files that the loop of [send_email] attaches: one per path, in
    order, each read from its path and attached under its base name. *)
Lemma attach_spec (attachments : list string) (attached : list (string * string)) :
  attach rt attachments = inr attached ->
  Forall2 (fun path file =>
             fst file = basename path
             /\ read_file rt path = inr (snd file)
             /\ add_attachment rt (snd file) (fst file) = None)
          attachments attached.
Proof.
  revert attached. induction attachments as [|p l IH]; intros attached.
  - intros [= <-]. constructor.
  - cbn [attach]. destruct (read_file rt p) as [e|data] eqn:Hr; [discriminate|].
    unfold also. destruct (add_attachment rt data (basename p)) eqn:Ha;
      [discriminate|].
    destruct (attach rt l) as [e|rest]; [discriminate|].
    intros [= <-]. constructor; [now repeat split | now apply IH].
Qed.

(** [send_email] never raises and touches neither Redmine nor the mailbox.
    It returns [True] exactly when the message can be built (no header,
    content or attachment is refused, every file is read), [EMAIL_SERVER]
    is bound and the relay takes the message: the outbox then gains that
    one message, sent from [EMAIL_USER] through [EMAIL_SERVER] and
    [EMAIL_PORT], with the carbon copy when one is given and not empty
    and with each file attached under its base name, and one INFO line is
    logged.  When it returns [False] the outbox is as before and one
    ERROR line is logged; a recipient that the [To] header refuses is such
    a case.  With the namespace that [connect.py] builds, it returns
    [False] for every message. *)
Theorem send_email_outcome (to_email subject body : string)
    (cc : option string) (attachments : list string) (w : World) :
  exists ok w',
    send_email ns rt to_email subject body cc attachments w = (inr ok, w')
    /\ redmine w' = redmine w /\ mailbox w' = mailbox w
    /\ smtp_accepts w' = smtp_accepts w
    /\ (ok = true <->
        exists attached host,
          build_message ns rt to_email subject body cc attachments = inr attached
          /\ EMAIL_SERVER ns = Some host
          /\ smtp_accepts w (message_of ns host to_email subject body cc attached)
             = true)
    /\ (forall attached host,
          ok = true ->
          build_message ns rt to_email subject body cc attachments = inr attached ->
          EMAIL_SERVER ns = Some host ->
          outbox w'
          = message_of ns host to_email subject body cc attached :: outbox w
          /\ Forall2 (fun path file =>
                        fst file = basename path
                        /\ read_file rt path = inr (snd file))
                     attachments attached
          /\ log w' = (INFO, "E-mail envoyé avec succès à " ++ to_email) :: log w)
    /\ (ok = false ->
        outbox w' = outbox w
        /\ exists e,
             log w' = (ERROR, "Erreur lors de l'envoi de l'e-mail: "
                              ++ str_of_exn rt e) :: log w)
    /\ (forall e,
          set_item rt "Subject" subject = None ->
          set_item rt "From" (EMAIL_USER ns) = None ->
          set_item rt "To" to_email = Some e ->
          ok = false
          /\ log w' = (ERROR, "Erreur lors de l'envoi de l'e-mail: "
                              ++ str_of_exn rt e) :: log w)
    /\ (forall cfg, ns = connect_module cfg -> ok = false).
Proof.
  cbv beta iota zeta delta [send_email read_EMAIL_SERVER note_request
                            try_except bind lift smtp_send logger ret raise
                            message_of].
  destruct (build_message ns rt to_email subject body cc attachments)
    as [e|attached] eqn:Hb; cbn.
  { eexists; eexists. split; [reflexivity|]. cbn.
    do 3 (split; [reflexivity|]).
    split; [split; [discriminate | now intros (a & h & [=] & _)]|].
    split; [discriminate|].
    split; [intros _; split; [reflexivity | now exists e]|].
    split; [|reflexivity].
    intros e' Hs Hf Ht. split; [reflexivity|].
    revert Hb. unfold build_message, also. rewrite Hs, Hf, Ht.
    now intros [= ->]. }
  assert (Hto : forall e, set_item rt "Subject" subject = None ->
                          set_item rt "From" (EMAIL_USER ns) = None ->
                          set_item rt "To" to_email = Some e -> False).
  { intros e Hs Hf Ht. revert Hb. unfold build_message, also.
    now rewrite Hs, Hf, Ht. }
  assert (Hatt : Forall2 (fun path file =>
                            fst file = basename path
                            /\ read_file rt path = inr (snd file))
                         attachments attached).
  { revert Hb. unfold build_message, also.
    destruct (set_item rt "Subject" subject); [discriminate|].
    destruct (set_item rt "From" (EMAIL_USER ns)); [discriminate|].
    destruct (set_item rt "To" to_email); [discriminate|].
    destruct (match given_cc cc with Some c => set_item rt "Cc" c | None => None end);
      [discriminate|].
    destruct (set_content rt body); [discriminate|].
    intros Ha. apply attach_spec in Ha.
    eapply Forall2_impl; [|exact Ha]. cbn. intros p f (A & B & _). now split. }
  destruct (EMAIL_SERVER ns) as [host|] eqn:Hs; cbn.
  - destruct (smtp_accepts w _) eqn:Hup; cbn.
    + eexists; eexists. split; [reflexivity|]. cbn.
      do 3 (split; [reflexivity|]).
      split; [split; [now exists attached, host | reflexivity]|].
      split; [intros a h _ [= <-] [= <-]; now repeat split|].
      split; [discriminate|].
      split; [intros e H1 H2 H3; destruct (Hto e H1 H2 H3)|].
      intros cfg ->. discriminate Hs.
    + eexists; eexists. split; [reflexivity|]. cbn.
      do 3 (split; [reflexivity|]).
      split; [split; [discriminate|]|].
      { intros (a & h & [= <-] & [= <-] & Hacc). congruence. }
      split; [discriminate|].
      split; [intros _; split; [reflexivity | now exists (TransportError "SMTP")]|].
      split; [intros e H1 H2 H3; destruct (Hto e H1 H2 H3) | reflexivity].
  - eexists; eexists. split; [reflexivity|]. cbn.
    do 3 (split; [reflexivity|]).
    split; [split; [discriminate | now intros (a & h & _ & [=] & _)]|].
    split; [discriminate|].
    split; [intros _; split; [reflexivity | now exists (NameError "EMAIL_SERVER")]|].
    split; [intros e H1 H2 H3; destruct (Hto e H1 H2 H3) | reflexivity].
Qed.

End Sending.

Lemma send_email_outcome_witness :
  fst (send_email Scenario.as_written Scenario.runtime "a@b.com" "s" "b" None []
         (Scenario.world true))
  = inr false
  /\ fst (send_email Scenario.patched Scenario.runtime ("a@b.com" ++ nl ++ "Bcc: x")
            "s" "b" None [] (Scenario.world true))
     = inr false
  /\ map (fun s => (sent_from s, sent_attachments s))
       (outbox (snd (send_email Scenario.patched Scenario.runtime "a@b.com" "s" "b"
                       None ["/srv/reports/week.txt"] (Scenario.world true))))
     = [("support@example.com", [("week.txt", "all green")])].
Proof.
  split; [|split].
  - destruct (send_email_outcome Scenario.as_written Scenario.runtime
                "a@b.com" "s" "b" None [] (Scenario.world true))
      as (ok & w' & E & _ & _ & _ & _ & _ & _ & _ & H).
    rewrite E. cbn [fst]. f_equal. exact (H Scenario.cfg eq_refl).
  - destruct (send_email_outcome Scenario.patched Scenario.runtime
                ("a@b.com" ++ nl ++ "Bcc: x") "s" "b" None [] (Scenario.world true))
      as (ok & w' & E & _ & _ & _ & _ & _ & _ & H & _).
    rewrite E. cbn [fst]. f_equal.
    exact (proj1 (H (ValueError "To") eq_refl eq_refl eq_refl)).
  - destruct (send_email_outcome Scenario.patched Scenario.runtime
                "a@b.com" "s" "b" None ["/srv/reports/week.txt"]
                (Scenario.world true))
      as (ok & w' & E & _ & _ & _ & Hok & Hout & _).
    rewrite E. cbn [snd].
    assert (Ht : ok = true).
    { apply Hok. exists [("week.txt", "all green")], "smtp.example.com".
      now repeat split. }
    destruct (Hout [("week.txt", "all green")] "smtp.example.com" Ht eq_refl eq_refl)
      as (-> & _). reflexivity.
Defined.

(* ------------------------------------------------------------------ *)
(** * Further properties: what the entry points never do to Redmine *)

Section Growth.

Lemma keeps_refl (i : Issue.t) : keeps i i.
Proof.
  unfold keeps. repeat split. exists []. now rewrite List.app_nil_r.
Qed.

Lemma keeps_trans (a b c : Issue.t) : keeps a b -> keeps b c -> keeps a c.
Proof.
  intros (A1 & A2 & A3 & A4 & A5 & m1 & A6) (B1 & B2 & B3 & B4 & B5 & m2 & B6).
  unfold keeps. repeat split; try congruence.
  exists (m1 ++ m2)%list. now rewrite B6, A6, List.app_assoc.
Qed.

Lemma keeps_add_journal (rm : Redmine.t) (n : N) (c : string) (i : Issue.t) :
  keeps i (Redmine.add_journal rm n c i).
Proof.
  unfold Redmine.add_journal. destruct (N.eqb (Issue.id i) n).
  - unfold keeps. cbn. repeat split. now eexists.
  - apply keeps_refl.
Qed.

Lemma Forall2_keeps_refl (l : list Issue.t) : Forall2 keeps l l.
Proof. induction l; constructor; [apply keeps_refl | assumption]. Qed.

Lemma Forall2_keeps_trans (l1 l2 l3 : list Issue.t) :
  Forall2 keeps l1 l2 -> Forall2 keeps l2 l3 -> Forall2 keeps l1 l3.
Proof.
  intros H. revert l3. induction H as [|a b l1 l2 Hab H IH]; intros l3 H3.
  - inversion H3. constructor.
  - inversion H3 as [|? c ? l3' Hbc H3']; subst.
    constructor; [now apply (keeps_trans a b c) | now apply IH].
Qed.

Lemma grows_refl (rm : Redmine.t) : grows rm rm.
Proof.
  exists (Redmine.issues rm), []. split; [now rewrite List.app_nil_r|].
  apply Forall2_keeps_refl.
Qed.

Lemma grows_eq (rm rm' : Redmine.t) : rm' = rm -> grows rm rm'.
Proof. intros ->. apply grows_refl. Qed.

Lemma grows_trans (a b c : Redmine.t) : grows a b -> grows b c -> grows a c.
Proof.
  intros (k1 & n1 & E1 & F1) (k2 & n2 & E2 & F2).
  rewrite E1 in F2. apply Forall2_app_inv_l in F2 as (k2a & k2b & Fa & Fb & ->).
  exists k2a, (k2b ++ n2)%list. split.
  - now rewrite E2, List.app_assoc.
  - now apply (Forall2_keeps_trans _ k1).
Qed.

Lemma grows_create (rm rm' : Redmine.t) (subject description : string)
    (project_id : Z) (extra : list (string * Z)) (issue : Issue.t) :
  Redmine.issue_create rm subject description project_id extra = inr (issue, rm') ->
  grows rm rm'.
Proof.
  intros H. destruct (issue_create_shape _ _ _ _ _ _ _ H) as [_ Hl].
  exists (Redmine.issues rm), [issue]. split; [exact Hl|].
  apply Forall2_keeps_refl.
Qed.

Lemma grows_update (rm rm' : Redmine.t) (issue_id : json) (comment : string) :
  Redmine.issue_update rm issue_id comment = inr rm' -> grows rm rm'.
Proof.
  intros H. destruct (issue_update_shape _ _ _ _ H) as (n & found & _ & _ & _ & Hl).
  exists (Redmine.issues rm'), []. split; [now rewrite List.app_nil_r|].
  rewrite Hl. clear. induction (Redmine.issues rm) as [|i l IH]; cbn [map].
  - constructor.
  - constructor; [apply keeps_add_journal | exact IH].
Qed.

End Growth.

Section WebhookAnswers.

Variable ns : Namespace.
Variable rt : Runtime.

Lemma getitem_contains (data v : json) (k : string) :
  Json.getitem data k = inr v -> Json.contains k data = inr true.
Proof.
  intros H. destruct (getitem_object _ _ _ H) as (members & -> & A).
  cbn. now rewrite A.
Qed.

Lemma getitem_truthy (data v : json) (k : string) :
  Json.getitem data k = inr v -> Json.truthy data = true.
Proof.
  intros H. destruct (getitem_object _ _ _ H) as (members & -> & A).
  destruct members; [discriminate | reflexivity].
Qed.

Lemma contains_false_getitem (data : json) (k : string) :
  Json.contains k data = inr false -> exists e, Json.getitem data k = inl e.
Proof.
  destruct data; cbn; try (intros _; eexists; reflexivity); try discriminate.
  destruct (Json.assoc k members); [discriminate | intros _; eexists; reflexivity].
Qed.

Local Ltac ok_status :=
  split;
  [ intros _; split; [reflexivity|]; right; eexists; eexists;
    split; [reflexivity | eassumption]
  | reflexivity ].

Local Ltac ok_answer :=
  split; [ intros _; eexists; eexists; eexists; repeat split | reflexivity ].

Lemma redmine_webhook_run (data : json) (w : World) :
  exists r w',
    redmine_webhook ns rt (inr data) w = (inr r, w')
    /\ redmine w' = redmine w /\ mailbox w' = mailbox w
    /\ (forall issue requester,
          referenced (redmine w) data = Some issue ->
          requester_email (Issue.description issue) = Some requester ->
          requester <> "" ->
          r = success
          /\ requested w'
             = mkMail requester
                      (update_subject (Issue.id issue) (Issue.subject issue))
                      (webhook_update_body (Issue.id issue)) :: requested w)
    /\ ((forall issue,
           referenced (redmine w) data = Some issue ->
           has_requester (requester_email (Issue.description issue)) = false) ->
        requested w' = requested w)
    /\ (status r = 200%Z <->
        Json.truthy data = true
        /\ (Json.contains "issue" data = inr false
            \/ exists issue_obj issue_id,
                 Json.getitem data "issue" = inr issue_obj
                 /\ Json.getitem issue_obj "id" = inr issue_id))
    /\ (status r <> 200%Z -> requested w' = requested w).
Proof.
  cbv beta iota delta [redmine_webhook try_except bind lift ret raise referenced].
  destruct (Json.truthy data) eqn:Ht; cbv beta iota delta [negb].
  2: { exists invalid_json, w. split; [reflexivity|].
       do 2 (split; [reflexivity|]).
       split.
       { intros issue requester H.
         destruct (Json.getitem data "issue") as [e|o] eqn:Hg; [discriminate|].
         apply getitem_truthy in Hg. congruence. }
       split; [reflexivity|].
       split; [split; [discriminate | now intros [[=] _]] | reflexivity]. }
  destruct (Json.contains "issue" data) as [e|[|]] eqn:Hc; cbv beta iota.
  - eexists; eexists. split; [reflexivity|]. cbn.
    do 2 (split; [reflexivity|]).
    split.
    { intros issue requester H.
      destruct (Json.getitem data "issue") as [e'|o] eqn:Hg; [discriminate|].
      apply getitem_contains in Hg. congruence. }
    split; [reflexivity|].
    split; [|reflexivity].
    split; [discriminate|].
    intros [_ [[=]|(o & i & Hg & _)]]. apply getitem_contains in Hg. congruence.
  - destruct (Json.getitem data "issue") as [e|issue_obj] eqn:Hg; cbv beta iota.
    { eexists; eexists. split; [reflexivity|]. cbn.
      do 2 (split; [reflexivity|]). split; [discriminate|].
      split; [reflexivity|]. split; [|reflexivity].
      split; [discriminate|].
      now intros [_ [[=]|(o & i & [=] & _)]]. }
    destruct (Json.getitem issue_obj "id") as [e|issue_id] eqn:Hi; cbv beta iota.
    { eexists; eexists. split; [reflexivity|]. cbn.
      do 2 (split; [reflexivity|]). split; [discriminate|].
      split; [reflexivity|]. split; [|reflexivity].
      split; [discriminate|].
      intros [_ [[=]|(o & i & [= <-] & Hi')]]. congruence. }
    destruct (get_redmine_issue_spec rt issue_id w)
      as (w1 & E1 & (Hrm1 & Hmb1 & _) & Hreq1 & _).
    rewrite E1.
    destruct (Redmine.issue_get (redmine w) issue_id) as [e|issue];
      cbv beta iota.
    { exists success, w1. split; [reflexivity|].
      do 2 (split; [assumption|]). split; [discriminate|].
      split; [intros _; exact Hreq1|]. split; [ok_status|].
      intros H. now contradiction H. }
    destruct (requester_email (Issue.description issue)) as [requester|] eqn:Hr;
      cbv beta iota.
    2: { exists success, w1. split; [reflexivity|].
         do 2 (split; [assumption|]).
         split; [intros i r [= <-]; congruence|].
         split; [intros _; exact Hreq1|]. split; [ok_status|].
         intros H. now contradiction H. }
    destruct (PyStr.truthy requester) eqn:Hn; cbv beta iota.
    2: { exists success, w1. split; [reflexivity|].
         do 2 (split; [assumption|]).
         split.
         { intros i r [= <-] Hr' Hne. rewrite Hr in Hr'. injection Hr' as <-.
           apply truthy_nonempty in Hne. congruence. }
         split; [intros _; exact Hreq1|]. split; [ok_status|].
         intros H. now contradiction H. }
    destruct (send_email_spec ns rt requester
                (update_subject (Issue.id issue) (Issue.subject issue))
                (webhook_update_body (Issue.id issue)) None [] w1)
      as (ok & w2 & E2 & (Hrm2 & Hmb2 & _) & Hreq2).
    rewrite E2.
    exists success, w2. split; [reflexivity|].
    split; [congruence|]. split; [congruence|].
    split.
    { intros i r [= <-] Hr' _. rewrite Hr in Hr'. injection Hr' as <-.
      split; [reflexivity|]. now rewrite Hreq2, Hreq1. }
    split.
    { intros H. specialize (H issue eq_refl). rewrite Hr in H.
      cbn in H. congruence. }
    split; [ok_status|]. intros H. now contradiction H.
  - exists success, w. split; [reflexivity|].
    do 2 (split; [reflexivity|]).
    split.
    { intros issue requester H.
      destruct (contains_false_getitem _ _ Hc) as [e He].
      rewrite He in H. discriminate. }
    split; [reflexivity|].
    split; [|intros H; now contradiction H].
    split; [|reflexivity]. intros _. split; [reflexivity | now left].
Qed.

Local Ltac refused :=
  eexists; eexists; split; [reflexivity|]; cbn;
  split; [reflexivity|]; split; [apply grows_refl|]; split; [auto|];
  split; [|split; [split; discriminate | now split]].

Lemma email_webhook_run (data : json) (w : World) :
  exists r w',
    email_webhook ns rt (inr data) w = (inr r, w')
    /\ mailbox w' = mailbox w
    /\ grows (redmine w) (redmine w')
    /\ (status r = 200%Z \/ status r = 400%Z \/ status r = 500%Z)
    /\ (status r = 200%Z <->
        exists from_email subject body,
          Json.getitem data "from" = inr from_email
          /\ Json.getitem data "subject" = inr (JStr subject)
          /\ Json.getitem data "body" = inr body)
    /\ (status r = 400%Z <-> lacks_fields data = inr true)
    /\ (status r <> 200%Z ->
        redmine w' = redmine w /\ requested w' = requested w).
Proof.
  cbv beta iota delta [email_webhook try_except bind lift ret raise].
  destruct (lacks_fields data) as [e|[|]] eqn:Hl; cbv beta iota.
  - refused. split; [discriminate|].
    intros (f & s & b & Hf & Hs & Hb).
    rewrite (lacks_fields_complete _ _ _ _ Hf Hs Hb) in Hl. discriminate.
  - exists invalid_json, w. split; [reflexivity|].
    split; [reflexivity|]. split; [apply grows_refl|]. split; [auto|].
    split; [|split; [now split | now split]].
    split; [discriminate|].
    intros (f & s & b & Hf & Hs & Hb).
    rewrite (lacks_fields_complete _ _ _ _ Hf Hs Hb) in Hl. discriminate.
  - destruct (Json.getitem data "from") as [e|from_email] eqn:Hf; cbv beta iota.
    { refused. split; [discriminate | now intros (f & s & b & [=] & _)]. }
    destruct (Json.getitem data "subject") as [e|subject] eqn:Hs; cbv beta iota.
    { refused. split; [discriminate | now intros (f & s & b & _ & [=] & _)]. }
    destruct (Json.getitem data "body") as [e|body] eqn:Hb; cbv beta iota.
    { refused. split; [discriminate | now intros (f & s & b & _ & _ & [=])]. }
    destruct subject as [| | |s| |];
      try (refused;
           split; [discriminate | now intros (f0 & s0 & b0 & _ & [=] & _)]).
    cbv beta iota delta [re_search].
    destruct (re_search_tag (unicode_decimal rt) s) as [ticket_id|]; cbv beta iota.
    + destruct (update_redmine_issue_spec rt (JStr ticket_id)
                  (comment_of (format rt from_email) (format rt body)) w)
        as (ok & w1 & E1 & _ & Hrm & Hmb & _).
      unfold add_comment_to_redmine_issue. rewrite E1.
      exists success, w1. split; [reflexivity|]. split; [exact Hmb|].
      split.
      { destruct (Redmine.issue_update (redmine w) (JStr ticket_id) _)
          as [e|rm'] eqn:Hu; rewrite Hrm;
          [apply grows_refl | now apply (grows_update _ _ _ _ Hu)]. }
      split; [auto|]. split; [ok_answer|].
      split; [split; discriminate|]. intros H. now contradiction H.
    + cbv zeta. cbn [subject_text].
      destruct (create_redmine_issue_spec rt s
                  (description_of (format rt from_email) (format rt body))
                  (default_project_id ns) w)
        as (w1 & E1 & Hrm & Hmb & _).
      rewrite E1.
      destruct (Redmine.issue_create (redmine w) s _ _ _) as [e|[issue rm']]
        eqn:Hc; cbv beta iota.
      * exists success, w1. split; [reflexivity|]. split; [exact Hmb|].
        split; [rewrite Hrm; apply grows_refl|].
        split; [auto|]. split; [ok_answer|].
        split; [split; discriminate|]. intros H. now contradiction H.
      * destruct (send_email_spec ns rt (format rt from_email)
                    (confirmation_subject (Issue.id issue))
                    (confirmation_body (Issue.id issue)) None [] w1)
          as (ok & w2 & E2 & (Hrm2 & Hmb2 & _) & _).
        rewrite E2.
        exists success, w2. split; [reflexivity|]. split; [congruence|].
        split; [rewrite Hrm2, Hrm; now apply (grows_create _ _ _ _ _ _ _ Hc)|].
        split; [auto|]. split; [ok_answer|].
        split; [split; discriminate|]. intros H. now contradiction H.
Qed.


(** The e-mail webhook never raises and never touches the mailbox.  It
    answers 200 exactly when the body is parsed to an object that carries
    ["from"], ["subject"] and ["body"] with a string as subject, whatever
    Redmine then does with the message; it answers 400 exactly when the
    body is parsed and the check of the fields fails; and an answer other
    than 200 comes with Redmine as it was and no call of [send_email]. *)
Theorem email_webhook_answer (request_json : exn + json) (w : World) :
  exists r w',
    email_webhook ns rt request_json w = (inr r, w')
    /\ mailbox w' = mailbox w
    /\ (status r = 200%Z \/ status r = 400%Z \/ status r = 500%Z)
    /\ (status r = 200%Z <->
        exists data from_email subject body,
          request_json = inr data
          /\ Json.getitem data "from" = inr from_email
          /\ Json.getitem data "subject" = inr (JStr subject)
          /\ Json.getitem data "body" = inr body)
    /\ (status r = 400%Z <->
        exists data, request_json = inr data /\ lacks_fields data = inr true)
    /\ (status r <> 200%Z ->
        redmine w' = redmine w /\ requested w' = requested w).
Proof.
  destruct request_json as [e|data].
  - rewrite email_webhook_unparsed. eexists; eexists.
    split; [reflexivity|]. cbn.
    split; [reflexivity|]. split; [auto|].
    split; [split; [discriminate | now intros (d & f & s & b & [=] & _)]|].
    split; [split; [discriminate | now intros (d & [=] & _)]|].
    now split.
  - destruct (email_webhook_run data w)
      as (r & w' & E & Hmb & _ & H3 & H200 & H400 & Hno).
    exists r, w'. split; [exact E|]. split; [exact Hmb|]. split; [exact H3|].
    split; [|split; [|exact Hno]].
    + rewrite H200. split.
      * intros (f & s & b & H). now exists data, f, s, b.
      * intros (d & f & s & b & [= <-] & H). now exists f, s, b.
    + rewrite H400. split.
      * intros H. now exists data.
      * now intros (d & [= <-] & H).
Qed.

End WebhookAnswers.

Section EntryPoints.

Variable ns : Namespace.
Variable rt : Runtime.

(** No entry point deletes, renumbers or rewrites a ticket, and none
    removes a journal entry: after the e-mail webhook or the mailbox poll,
    every ticket Redmine had is still there, in place, with its number,
    subject, description, project and classifiers, and with its journal
    entries followed at most by new ones; new tickets come after.  The
    Redmine webhook and the scan of updates leave Redmine exactly as it
    was. *)
Theorem entry_points_only_grow (request_json : exn + json) (time : Z)
    (w : World) :
  grows (redmine w) (redmine (snd (email_webhook ns rt request_json w)))
  /\ grows (redmine w) (redmine (snd (check_emails ns rt w)))
  /\ redmine (snd (redmine_webhook ns rt request_json w)) = redmine w
  /\ redmine (snd (process_redmine_updates ns rt time w)) = redmine w.
Proof.
  split; [|split; [|split]].
  - destruct request_json as [e|data].
    + rewrite email_webhook_unparsed. apply grows_refl.
    + destruct (email_webhook_run ns rt data w) as (r & w' & E & _ & G & _).
      now rewrite E.
  - destruct (check_emails_only_creates ns rt w) as (w' & created & E & H).
    rewrite E. exists (Redmine.issues (redmine w)), created.
    split; [exact H | apply Forall2_keeps_refl].
  - destruct request_json as [e|data].
    + now rewrite redmine_webhook_unparsed.
    + destruct (redmine_webhook_run ns rt data w) as (r & w' & E & H & _).
      now rewrite E.
  - destruct (pass_frame ns rt time w) as (w' & E & (H & _) & _).
    now rewrite E.
Qed.

Lemma find_app_last (A : Type) (p : A -> bool) (l : list A) (x : A) :
  find p l = None -> p x = true -> find p (l ++ [x]) = Some x.
Proof.
  intros Hl Hx. induction l as [|a l IH]; cbn [app find].
  - now rewrite Hx.
  - cbn [find] in Hl. destruct (p a); [discriminate | now apply IH].
Qed.

(** The description that the module writes gives back its sender. *)
Lemma requester_of_description (from_email body : string) :
  contains nl from_email = false ->
  contains "De:" from_email = false ->
  strip from_email = from_email ->
  requester_email (description_of from_email body) = Some from_email.
Proof.
  intros Hnl Hde Hstrip. unfold requester_email, description_of.
  rewrite <- append_assoc.
  rewrite split_first_line by exact Hnl.
  cbn [first_De_line]. unfold replace.
  change (startswith ("De: " ++ from_email) "De:") with true. cbv iota.
  change (replace_go "De:" "" 0 ("De: " ++ from_email))
    with (String " " (replace_go "De:" "" 0 from_email)).
  rewrite (replace_go_absent _ _ _ Hde), strip_space. f_equal. exact Hstrip.
Qed.

(** A whole conversation, on a Redmine that can be reached, accepts the
    ticket and allows the comment, under an interpreter for which the
    characters ["0"] to ["9"] are decimal digits.  A first message
    without a tag, from a plain address (not empty, without line feed or
    ["De:"], without white space at either end), becomes a ticket; the
    Redmine callback for that ticket asks for a notification to that
    address; the reply to the notification goes, as a comment, to the
    same ticket: no second ticket is created, and the reply gets no
    confirmation. *)
Theorem conversation_round_trip (from_email subject body reply : string)
    (w : World) :
  Redmine.online (redmine w) = true ->
  Redmine.accepts (redmine w) subject (description_of from_email body)
                  (default_project_id ns) = true ->
  Redmine.lookup (redmine w) (Redmine.next_id (redmine w)) = None ->
  Redmine.allows (redmine w) (Redmine.next_id (redmine w))
                 (comment_of from_email reply) = true ->
  ascii_digits (unicode_decimal rt) = true ->
  re_search_tag (unicode_decimal rt) subject = None ->
  from_email <> "" ->
  contains nl from_email = false ->
  contains "De:" from_email = false ->
  strip from_email = from_email ->
  let id := Redmine.next_id (redmine w) in
  let notification :=
    mkMail from_email (update_subject id subject) (webhook_update_body id) in
  exists w1 w2 w3 ticket,
    email_webhook ns rt
      (inr (JObj [("from", JStr from_email); ("subject", JStr subject);
             ("body", JStr body)])) w = (inr success, w1)
    /\ redmine_webhook ns rt
         (inr (JObj [("issue", JObj [("id", JNum (Z.of_N id))])])) w1
       = (inr success, w2)
    /\ email_webhook ns rt
         (inr (JObj [("from", JStr from_email);
                     ("subject", JStr ("Re: " ++ mail_subject notification));
                     ("body", JStr reply)])) w2 = (inr success, w3)
    /\ requested w3
       = notification
         :: mkMail from_email (confirmation_subject id) (confirmation_body id)
         :: requested w
    /\ length (Redmine.issues (redmine w3))
       = S (length (Redmine.issues (redmine w)))
    /\ Redmine.lookup (redmine w3) id = Some ticket
    /\ Issue.subject ticket = subject
    /\ Issue.description ticket = description_of from_email body
    /\ Issue.journals ticket
       = [Journal.mk (Some (Redmine.now (redmine w)))
                     (Some (comment_of from_email reply))].
Proof.
  intros Hon Hacc Hfresh Hallow Hascii Htag Hne Hnl Hde Hstrip id notification.
  set (ticket0 := Issue.mk id subject (description_of from_email body)
                           (default_project_id ns) []
                           (Redmine.now (redmine w)) []).
  set (rm1 := Redmine.mk (Redmine.issues (redmine w) ++ [ticket0])
                         (N.succ id) (Redmine.online (redmine w))
                         (Redmine.accepts (redmine w))
                         (Redmine.now (redmine w))
                         (Redmine.allows (redmine w))
                         (Redmine.closed_status (redmine w))).
  assert (Hc : Redmine.issue_create (redmine w) subject
                 (description_of from_email body) (default_project_id ns) []
               = inr (ticket0, rm1)).
  { unfold Redmine.issue_create. rewrite Hacc.
    replace (negb (Redmine.online (redmine w))) with false
      by now rewrite Hon.
    reflexivity. }
  (* the first message *)
  destruct (create_redmine_issue_spec rt subject (description_of from_email body)
              (default_project_id ns) w)
    as (v1 & Ev1 & Hrm_v1 & Hmb_v1 & Hup_v1 & Hreq_v1 & _).
  rewrite Hc in Ev1, Hrm_v1.
  destruct (send_email_spec ns rt from_email (confirmation_subject id)
              (confirmation_body id) None [] v1)
    as (ok1 & w1 & Ew1 & (Hrm1 & Hmb1 & Hup1) & Hreq1).
  assert (E1 : email_webhook ns rt
                 (inr (JObj [("from", JStr from_email); ("subject", JStr subject);
                             ("body", JStr body)])) w = (inr success, w1)).
  { rewrite (email_webhook_untagged ns rt
               (JObj [("from", JStr from_email); ("subject", JStr subject);
                      ("body", JStr body)])
               from_email subject body w eq_refl eq_refl eq_refl Htag).
    rewrite Ev1. cbn [Issue.id ticket0]. now rewrite Ew1. }
  assert (Hr1 : redmine w1 = rm1) by congruence.
  (* the callback *)
  assert (Hl1 : Redmine.lookup rm1 id = Some ticket0).
  { unfold Redmine.lookup. cbn [rm1 Redmine.issues].
    apply find_app_last; [exact Hfresh | apply N.eqb_refl]. }
  assert (Hg1 : Redmine.issue_get (redmine w1) (JNum (Z.of_N id)) = inr ticket0).
  { rewrite Hr1. unfold Redmine.issue_get. cbn [rm1 Redmine.online].
    rewrite Hon. cbn [negb Redmine.number_of].
    destruct (Z.leb_spec 0 (Z.of_N id)); [|lia].
    now rewrite N2Z.id, Hl1. }
  destruct (redmine_webhook_run ns rt
              (JObj [("issue", JObj [("id", JNum (Z.of_N id))])]) w1)
    as (r2 & w2 & E2 & Hrm2 & Hmb2 & Hsend & _).
  destruct (Hsend ticket0 from_email) as [-> Hreq2].
  { unfold referenced. cbn [Json.getitem Json.assoc String.eqb Ascii.eqb Bool.eqb].
    now rewrite Hg1. }
  { now apply requester_of_description. }
  { exact Hne. }
  cbn [Issue.id Issue.subject ticket0] in Hreq2.
  (* the reply *)
  assert (Ht3 : re_search_tag (unicode_decimal rt)
                  ("Re: " ++ update_subject id subject)
                = Some (str_of_N id)).
  { unfold update_subject.
    apply (re_search_tag_of (unicode_decimal rt) Hascii id "Re: ").
    reflexivity. }
  assert (Hl2 : Redmine.lookup (redmine w2) id = Some ticket0) by congruence.
  assert (Hon2 : Redmine.online (redmine w2) = true).
  { rewrite Hrm2, Hr1. exact Hon. }
  assert (Hal2 : Redmine.allows (redmine w2) id (comment_of from_email reply)
                 = true).
  { rewrite Hrm2, Hr1. exact Hallow. }
  destruct (update_found rt (JStr (str_of_N id)) (comment_of from_email reply)
              w2 id ticket0 Hon2 (number_of_str_of_N id) Hl2 Hal2)
    as (w3 & E3 & Hrm3 & _ & _ & Hreq3 & _).
  exists w1, w2, w3, (Redmine.add_journal (redmine w2) id
                        (comment_of from_email reply) ticket0).
  unfold notification. cbn [mail_subject].
  split; [exact E1|]. split; [exact E2|]. split.
  { rewrite (email_webhook_tagged ns rt
               (JObj [("from", JStr from_email);
                      ("subject", JStr ("Re: " ++ update_subject id subject));
                      ("body", JStr reply)])
               from_email
               ("Re: " ++ update_subject id subject) reply (str_of_N id) w2
               eq_refl eq_refl eq_refl Ht3).
    unfold add_comment_to_redmine_issue in *. now rewrite E3. }
  split; [now rewrite Hreq3, Hreq2, Hreq1, Hreq_v1|].
  split.
  { rewrite Hrm3. cbn [Redmine.issues]. rewrite length_map, Hrm2, Hr1.
    cbn [rm1 Redmine.issues]. rewrite length_app. cbn [length]. lia. }
  split.
  { unfold Redmine.lookup. rewrite Hrm3. cbn [Redmine.issues].
    rewrite find_add_journal. fold (Redmine.lookup (redmine w2) id).
    now rewrite Hl2. }
  unfold Redmine.add_journal. cbn [ticket0 Issue.id]. rewrite N.eqb_refl.
  cbn. rewrite Hrm2, Hr1. now repeat split.
Qed.

End EntryPoints.

Lemma conversation_round_trip_witness :
  exists w3 ticket,
    Redmine.lookup (redmine w3) 8 = Some ticket
    /\ map Journal.notes (Issue.journals ticket)
       = [Some (comment_of "c@d.org" "thanks")]
    /\ map mail_to (requested w3) = ["c@d.org"; "c@d.org"]
    /\ length (Redmine.issues (redmine w3)) = 2%nat.
Proof.
  destruct (conversation_round_trip Scenario.as_written Scenario.runtime
              "c@d.org" "Printer" "no paper" "thanks" (Scenario.world true)
              eq_refl eq_refl eq_refl eq_refl eq_refl eq_refl)
    as (w1 & w2 & w3 & ticket & _ & _ & _ & Hreq & Hlen & Hl & _ & _ & Hj);
    [discriminate | reflexivity | reflexivity | reflexivity |].
  exists w3, ticket. split; [exact Hl|]. split; [now rewrite Hj|].
  split; [now rewrite Hreq | exact Hlen].
Defined.

(* ------------------------------------------------------------------ *)
(** * Further properties: the scan of updates *)

Section PassMore.

Variable ns : Namespace.
Variable rt : Runtime.

Lemma sort_desc_length (l : list Issue.t) :
  length (Redmine.sort_desc l) = length l.
Proof. apply Permutation_length, sort_desc_perm. Qed.

(** With at most 100 issues, a reachable server shows to the pass all
    those that are open and were updated since 2000. *)
Lemma examined_all (rm : Redmine.t) (issue : Issue.t) :
  Redmine.online rm = true ->
  (length (Redmine.issues rm) <= 100)%nat ->
  In issue (Redmine.issues rm) ->
  Redmine.is_closed rm issue = false ->
  (y2k <= Issue.updated_on issue)%Z ->
  In issue (examined rm).
Proof.
  intros Hon Hlen Hin Hopen Hy. unfold examined, Redmine.issue_filter.
  rewrite Hon. cbn [negb sort limit recent_issues].
  rewrite firstn_all2.
  - apply (Permutation_in _ (Permutation_sym (sort_desc_perm _))).
    now apply selected_spec.
  - rewrite sort_desc_length. unfold Redmine.selected.
    pose proof (filter_length_le
                  (fun i => negb (Redmine.is_closed rm i)
                            && (updated_on_ge recent_issues <=? Issue.updated_on i)%Z)
                  (Redmine.issues rm)). lia.
Qed.

(** A server with distinct issue numbers returns, for the number of one of
    its issues, that issue. *)
Lemma lookup_own (rm : Redmine.t) (issue : Issue.t) :
  NoDup (map Issue.id (Redmine.issues rm)) ->
  In issue (Redmine.issues rm) ->
  Redmine.lookup rm (Issue.id issue) = Some issue.
Proof.
  unfold Redmine.lookup. induction (Redmine.issues rm) as [|a l IH];
    [contradiction|].
  cbn [map find]. intros Hnd Hin. inversion_clear Hnd as [|? ? Hna Hnd'].
  destruct Hin as [->|Hin]; [now rewrite N.eqb_refl|].
  destruct (N.eqb_spec (Issue.id a) (Issue.id issue)) as [E|_];
    [|now apply IH].
  exfalso. apply Hna. rewrite E. now apply in_map.
Qed.


(** When Redmine cannot be reached, the pass asks for no e-mail, changes
    nothing, and leaves one ERROR line in the log. *)
Lemma pass_offline (time : Z) (w : World) :
  Redmine.online (redmine w) = false ->
  process_redmine_updates ns rt time w
  = (inr tt,
     mkWorld (redmine w) (mailbox w) (smtp_accepts w) (requested w) (outbox w)
       ((ERROR, "Erreur lors du traitement des mises à jour Redmine: "
                ++ str_of_exn rt (TransportError "connection"))
        :: log w)).
Proof.
  intros Hoff. now rewrite process_redmine_updates_run, Hoff.
Qed.

End PassMore.


(* ------------------------------------------------------------------ *)
(** * Further properties: the mailbox poll *)

Section PollMore.

Variable ns : Namespace.
Variable rt : Runtime.

Lemma check_emails_message_unfetched (n : N) (w : World) (l : Letter) :
  find (fun l => N.eqb (num l) n) (letters (mailbox w)) = Some l ->
  fetch_ok l = false ->
  check_emails_message ns rt n w
  = logger ERROR ("Impossible de récupérer l'e-mail b'" ++ str_of_N n ++ "'") w.
Proof.
  intros Hf Hno.
  cbv beta iota zeta delta [check_emails_message bind imap_fetch].
  now rewrite Hf, Hno.
Qed.

Lemma check_emails_message_undecodable (n : N) (w : World) (l : Letter)
    (e : exn) :
  find (fun l => N.eqb (num l) n) (letters (mailbox w)) = Some l ->
  fetch_ok l = true ->
  body_of (raw_email l) = inl e ->
  check_emails_message ns rt n w = (inl e, with_seen n w).
Proof.
  intros Hf Hok Hb.
  cbv beta iota zeta delta [check_emails_message bind imap_fetch lift raise].
  now rewrite Hf, Hok, Hb.
Qed.

Lemma find_mark_seen_other (n m : N) (ls : list Letter) :
  m <> n ->
  find (fun l => N.eqb (num l) m) (map (mark_seen n) ls)
  = find (fun l => N.eqb (num l) m) ls.
Proof.
  intros Hne. induction ls as [|a ls IH]; [reflexivity|].
  cbn [map find]. destruct (N.eqb (num a) n) eqn:E.
  - rewrite (mark_seen_same _ _ E). cbn [num].
    apply N.eqb_eq in E. rewrite E.
    destruct (N.eqb_spec n m) as [->|_]; [contradiction | exact IH].
  - rewrite (mark_seen_other _ _ E).
    destruct (N.eqb (num a) m); [reflexivity | exact IH].
Qed.

Lemma fetchable_mark_seen (r s : bool) (n m : N) (ls : list Letter) :
  fetchable (mkMailbox r s (map (mark_seen n) ls)) m
  = fetchable (mkMailbox r s ls) m.
Proof.
  unfold fetchable. cbn [letters].
  destruct (N.eq_dec m n) as [->|Hne].
  - destruct (find (fun l => N.eqb (num l) n) ls) as [l|] eqn:Hf.
    + now rewrite (find_mark_seen _ _ _ Hf).
    + assert (H : find (fun l => N.eqb (num l) n) (map (mark_seen n) ls) = None).
      { clear -Hf. induction ls as [|a ls IH]; [reflexivity|].
        cbn [map find] in *. destruct (N.eqb (num a) n) eqn:E; [discriminate|].
        rewrite (mark_seen_other _ _ E), E. now apply IH. }
      now rewrite H.
  - now rewrite find_mark_seen_other.
Qed.

Lemma is_seen_mark_seen (r s : bool) (n m : N) (ls : list Letter) (l : Letter) :
  find (fun l => N.eqb (num l) n) ls = Some l ->
  is_seen (mkMailbox r s (map (mark_seen n) ls)) m
  = (N.eqb m n || is_seen (mkMailbox r s ls) m)%bool.
Proof.
  intros Hf. unfold is_seen. cbn [letters].
  destruct (N.eqb_spec m n) as [->|Hne].
  - now rewrite (find_mark_seen _ _ _ Hf).
  - now rewrite find_mark_seen_other.
Qed.

Lemma issue_create_keeps_server (rm rm' : Redmine.t) (subject description : string)
    (project_id : Z) (extra : list (string * Z)) (issue : Issue.t) :
  Redmine.issue_create rm subject description project_id extra = inr (issue, rm') ->
  Redmine.online rm' = Redmine.online rm
  /\ Redmine.accepts rm' = Redmine.accepts rm.
Proof.
  unfold Redmine.issue_create.
  destruct (negb (Redmine.online rm)); [discriminate|].
  destruct (negb (Redmine.accepts rm subject description project_id));
    [discriminate|].
  intros [= <- <-]. now split.
Qed.

(** The loop over letters that can all be decoded, in front of a Redmine
    that takes everything. *)
Lemma for_each_message_ready (nums : list N) (w : World) :
  NoDup nums ->
  Redmine.online (redmine w) = true ->
  (forall s d, Redmine.accepts (redmine w) s d (default_project_id ns) = true) ->
  (forall n, In n nums ->
     exists l, find (fun l => N.eqb (num l) n) (letters (mailbox w)) = Some l
               /\ (fetch_ok l = true -> exists b, body_of (raw_email l) = inr b)) ->
  exists w',
    for_each nums (check_emails_message ns rt) w = (inr tt, w')
    /\ (forall m, is_seen (mailbox w') m
                  = (is_seen (mailbox w) m
                     || (existsb (N.eqb m) nums && fetchable (mailbox w) m))%bool)
    /\ length (Redmine.issues (redmine w'))
       = (length (Redmine.issues (redmine w))
          + length (filter (fetchable (mailbox w)) nums))%nat
    /\ length (requested w')
       = (length (requested w)
          + length (filter (fetchable (mailbox w)) nums))%nat.
Proof.
  revert w. induction nums as [|n nums IH]; intros w Hnd Hon Hacc Hl.
  - exists w. split; [reflexivity|]. cbn.
    split; [intros m; now rewrite orb_false_r|]. split; lia.
  - inversion_clear Hnd as [|? ? Hnn Hnd'].
    destruct (Hl n (or_introl eq_refl)) as (l & Hf & Hdec).
    cbn [for_each]. unfold bind.
    destruct (fetch_ok l) eqn:Hfo.
    + (* fetched, decoded, created *)
      destruct (Hdec eq_refl) as [b Hb].
      destruct (Redmine.issue_create (redmine w) (Subject (raw_email l))
                  (description_of (From (raw_email l)) b)
                  (default_project_id ns) []) as [e|[issue rm']] eqn:Hc.
      { exfalso. revert Hc. unfold Redmine.issue_create.
        rewrite Hon, Hacc. discriminate. }
      assert (Hco : creation_of ns w n = Some (issue, rm')).
      { unfold creation_of. now rewrite Hf, Hfo, Hb, Hc. }
      assert (Hfn : fetchable (mailbox w) n = true).
      { unfold fetchable. now rewrite Hf. }
      destruct (check_emails_message_spec ns rt n w)
        as (r & w1 & E & _ & Hmb & Hcase).
      rewrite Hfn in Hmb. cbn [with_seen mailbox] in Hmb.
      rewrite Hco in Hcase. destruct Hcase as (-> & Hrm & Hreq).
      rewrite E.
      destruct (issue_create_shape _ _ _ _ _ _ _ Hc) as [_ Hiss].
      destruct (issue_create_keeps_server _ _ _ _ _ _ _ Hc) as [Hon' Hacc'].
      destruct (IH w1) as (w' & E' & Hseen & Hlen & Hlen2).
      * exact Hnd'.
      * rewrite Hrm, Hon'. exact Hon.
      * intros s d. rewrite Hrm, Hacc'. apply Hacc.
      * intros m Hm. rewrite Hmb. cbn [letters].
        rewrite find_mark_seen_other
          by (intros ->; contradiction).
        apply Hl. now right.
      * exists w'. split; [exact E'|].
        assert (Hfe : forall m, fetchable (mailbox w1) m = fetchable (mailbox w) m).
        { intros m. rewrite Hmb. rewrite fetchable_mark_seen.
          now destruct (mailbox w). }
        split.
        { intros m. rewrite Hseen, Hfe, Hmb.
          rewrite (is_seen_mark_seen _ _ _ _ _ l Hf).
          replace (is_seen {| reachable := reachable (mailbox w);
                              search_ok := search_ok (mailbox w);
                              letters := letters (mailbox w) |} m)
            with (is_seen (mailbox w) m) by now destruct (mailbox w).
          cbn [existsb].
          destruct (N.eqb_spec m n) as [->|_].
          - rewrite Hfn. cbn. now rewrite !orb_true_r.
          - cbn. reflexivity. }
        cbn [filter]. rewrite Hfn. cbn [length].
        rewrite (filter_ext _ _ Hfe) in Hlen, Hlen2.
        rewrite Hlen, Hlen2, Hrm, Hiss, Hreq, length_app. cbn [length].
        split; lia.
    + (* not fetched: skipped *)
      rewrite (check_emails_message_unfetched n w l Hf Hfo).
      cbv beta iota delta [logger].
      match goal with
      | |- context [for_each nums _ ?v] => destruct (IH v) as (w' & E' & Hseen & Hlen & Hlen2)
      end; try assumption.
      { intros m Hm. apply Hl. now right. }
      exists w'. split; [exact E'|].
      cbn [redmine mailbox requested] in *.
      assert (Hfn : fetchable (mailbox w) n = false).
      { unfold fetchable. now rewrite Hf. }
      split.
      { intros m. rewrite Hseen. cbn [existsb].
        destruct (N.eqb_spec m n) as [->|_]; [|reflexivity].
        rewrite Hfn. cbn. now rewrite andb_false_r. }
      cbn [filter]. rewrite Hfn. now split.
Qed.


Lemma body_of_error (email_message : EmailMessage) (e : exn) :
  body_of email_message = inl e ->
  exists bytes, e = UnicodeDecodeError bytes /\ valid_utf8 bytes = false.
Proof.
  assert (Hd : forall b, decode b = inl e ->
                         exists bytes, e = UnicodeDecodeError bytes
                                       /\ valid_utf8 bytes = false).
  { intros b. unfold decode. destruct (valid_utf8 b) eqn:Hv; [discriminate|].
    intros [= <-]. now exists b. }
  unfold body_of. destruct (content email_message) as [p|parts]; [apply Hd|].
  induction parts as [|part parts IH]; [discriminate|].
  cbn [first_text_plain].
  destruct (negb _); [|exact IH].
  destruct (String.eqb _ _); [apply Hd | exact IH].
Qed.

(** One letter that cannot be decoded stops the poll, and is lost.  When
    the first unread letter is fetched and its body does not decode (the
    bytes are not UTF-8), the poll creates nothing and asks for no
    e-mail, whatever the letters after it are: an ERROR line with the
    text of the [UnicodeDecodeError] is logged.  The fetch has marked the
    letter as seen, so the next poll does not meet it again; the other
    letters are as they were. *)
Theorem poll_stops_at_undecodable (host : string) (w : World) (n : N)
    (rest : list N) (l : Letter) (e : exn) :
  EMAIL_SERVER ns = Some host ->
  reachable (mailbox w) = true ->
  search_ok (mailbox w) = true ->
  unseen (mailbox w) = n :: rest ->
  find (fun l => N.eqb (num l) n) (letters (mailbox w)) = Some l ->
  fetch_ok l = true ->
  body_of (raw_email l) = inl e ->
  (exists bytes, e = UnicodeDecodeError bytes /\ valid_utf8 bytes = false)
  /\ check_emails ns rt w
     = (inr tt,
        mkWorld (redmine w) (mailbox (with_seen n w)) (smtp_accepts w)
          (requested w) (outbox w)
          ((ERROR, "Erreur lors de la vérification des e-mails: "
                   ++ str_of_exn rt e) :: log w))
  /\ is_seen (mailbox (with_seen n w)) n = true
  /\ (forall m, m <> n ->
        is_seen (mailbox (with_seen n w)) m = is_seen (mailbox w) m).
Proof.
  intros Hs Hre Hse Hun Hf Hok Hb.
  split; [now apply (body_of_error (raw_email l))|]. split.
  { cbv beta iota delta [check_emails try_except bind read_EMAIL_SERVER
                         imap_open imap_search_unseen ret].
    rewrite Hs, Hre, Hse, Hun. cbn [for_each]. unfold bind at 1.
    now rewrite (check_emails_message_undecodable n w l e Hf Hok Hb). }
  split.
  { apply is_seen_marked. unfold fetchable. now rewrite Hf. }
  intros m Hm. cbn [with_seen mailbox].
  rewrite (is_seen_mark_seen _ _ _ _ _ l Hf).
  destruct (N.eqb_spec m n) as [->|_]; [contradiction|].
  cbn [orb]. now destruct (mailbox w).
Qed.

End PollMore.


Lemma poll_stops_at_undecodable_witness :
  let w' := snd (check_emails Scenario.patched Scenario.runtime Scenario.poisoned) in
  redmine w' = redmine Scenario.poisoned
  /\ unseen (mailbox Scenario.poisoned) = [4%N; 2%N]
  /\ unseen (mailbox w') = [2%N]
  /\ requested w' = [].
Proof.
  destruct (poll_stops_at_undecodable Scenario.patched Scenario.runtime
              "smtp.example.com" Scenario.poisoned 4%N [2%N] Scenario.letter4
              (UnicodeDecodeError Scenario.latin1)
              eq_refl eq_refl eq_refl eq_refl eq_refl eq_refl eq_refl)
    as (_ & E & _).
  cbv zeta. rewrite E. now repeat split.
Defined.

Section PollGuards.

Variable ns : Namespace.
Variable rt : Runtime.

(** The poll does nothing without its mailbox.  When [EMAIL_SERVER] is not
    bound, when the mailbox cannot be opened, when the search fails or
    when no letter is unread, the poll leaves Redmine, the mailbox, the
    requests and the outbox as they were and logs at most one line.
    With the namespace that [connect.py] builds this is always so: the
    line is the [NameError] on [EMAIL_SERVER]. *)
Theorem poll_needs_its_mailbox (w : World) :
  EMAIL_SERVER ns = None
  \/ reachable (mailbox w) = false
  \/ search_ok (mailbox w) = false
  \/ unseen (mailbox w) = [] ->
  exists w',
    check_emails ns rt w = (inr tt, w')
    /\ redmine w' = redmine w /\ mailbox w' = mailbox w
    /\ requested w' = requested w /\ outbox w' = outbox w
    /\ (log w' = log w \/ exists msg, log w' = (ERROR, msg) :: log w)
    /\ (forall cfg, ns = connect_module cfg ->
          log w' = (ERROR, "Erreur lors de la vérification des e-mails: name 'EMAIL_SERVER' is not defined")
                   :: log w).
Proof.
  intros H.
  cbv beta iota delta [check_emails try_except bind read_EMAIL_SERVER
                       imap_open imap_search_unseen ret raise logger].
  destruct (EMAIL_SERVER ns) as [host|] eqn:Hs.
  2: { eexists. split; [reflexivity|]. cbn. do 4 (split; [reflexivity|]).
       split; [right; eexists; reflexivity|]. reflexivity. }
  assert (Hcfg : forall cfg, ns <> connect_module cfg).
  { intros cfg ->. discriminate Hs. }
  destruct (reachable (mailbox w)) eqn:Hr.
  2: { eexists. split; [reflexivity|]. cbn. do 4 (split; [reflexivity|]).
       split; [right; eexists; reflexivity|].
       intros cfg Hc. now contradiction (Hcfg cfg). }
  destruct (search_ok (mailbox w)) eqn:Hk.
  2: { eexists. split; [reflexivity|]. cbn. do 4 (split; [reflexivity|]).
       split; [right; eexists; reflexivity|].
       intros cfg Hc. now contradiction (Hcfg cfg). }
  destruct H as [H|[H|[H|H]]]; try discriminate H.
  rewrite H. cbn [for_each]. exists w. split; [reflexivity|].
  do 4 (split; [reflexivity|]). split; [now left|].
  intros cfg Hc. now contradiction (Hcfg cfg).
Qed.

End PollGuards.

Lemma poll_needs_its_mailbox_witness :
  exists w',
    check_emails Scenario.as_written Scenario.runtime (Scenario.world true) = (inr tt, w')
    /\ unseen (mailbox w') = [1%N; 2%N]
    /\ Redmine.issues (redmine w') = [Scenario.ticket7].
Proof.
  destruct (poll_needs_its_mailbox Scenario.as_written Scenario.runtime (Scenario.world true)
              (or_introl eq_refl))
    as (w' & E & Hrm & Hmb & _).
  exists w'. split; [exact E|]. now rewrite Hrm, Hmb.
Defined.

(* ------------------------------------------------------------------ *)
(** * Further properties: the body of a letter, and a ticket found again *)

(** The body taken from a multipart letter is the payload of the first
    part that is plain text and not an attachment: a letter without such
    a part has the empty body, and when that first part does not decode
    the extraction raises, whatever the later parts are. *)
Lemma body_of_multipart (subject from_email : string) (parts : list Part) :
  body_of (mkEmailMessage subject from_email (Multipart parts))
  = match find is_text_body parts with
    | Some part => decode (part_payload part)
    | None => inr ""
    end.
Proof.
  unfold body_of. cbn [content].
  induction parts as [|p parts IH]; [reflexivity|].
  cbn [first_text_plain find]. unfold is_text_body at 1.
  destruct (negb (contains "attachment" (str_of_header (content_disposition p))));
    cbn [andb]; [|exact IH].
  destruct (String.eqb (content_type p) "text/plain"); [reflexivity | exact IH].
Qed.

Lemma find_app_miss (A : Type) (p : A -> bool) (l : list A) (x : A) :
  p x = false -> find p (l ++ [x]) = find p l.
Proof.
  intros Hx. induction l as [|a l IH]; cbn [app find].
  - now rewrite Hx.
  - destruct (p a); [reflexivity | exact IH].
Qed.

Section FoundAgain.

Variable rt : Runtime.

(** A ticket that [create_redmine_issue] returns is the one that
    [get_redmine_issue] then finds under its number, provided Redmine had
    no issue under that number before. *)
Theorem create_then_get (subject description : string) (project_id : Z)
    (w : World) :
  Redmine.online (redmine w) = true ->
  Redmine.accepts (redmine w) subject description project_id = true ->
  Redmine.lookup (redmine w) (Redmine.next_id (redmine w)) = None ->
  exists issue w1,
    create_redmine_issue rt subject description project_id None None None None w
    = (inr (Some issue), w1)
    /\ get_redmine_issue rt (JNum (Z.of_N (Issue.id issue))) w1
       = (inr (Some issue), w1)
    /\ Issue.subject issue = subject
    /\ Issue.description issue = description
    /\ (forall n, n <> Issue.id issue ->
          Redmine.lookup (redmine w1) n = Redmine.lookup (redmine w) n).
Proof.
  intros Hon Hacc Hfresh.
  destruct (create_redmine_issue_spec rt subject description project_id w)
    as (w1 & E & Hrm & _).
  destruct (Redmine.issue_create (redmine w) subject description project_id [])
    as [e|[issue rm']] eqn:Hc.
  { exfalso. revert Hc. unfold Redmine.issue_create.
    rewrite Hon, Hacc. discriminate. }
  destruct (issue_create_shape _ _ _ _ _ _ _ Hc) as [Hi Hl].
  destruct (issue_create_keeps_server _ _ _ _ _ _ _ Hc) as [Hon' _].
  assert (Hid : Issue.id issue = Redmine.next_id (redmine w)) by now rewrite Hi.
  exists issue, w1. split; [exact E|]. split.
  - apply get_found. unfold Redmine.issue_get. rewrite Hrm, Hon', Hon.
    cbn [negb Redmine.number_of].
    destruct (Z.leb_spec 0 (Z.of_N (Issue.id issue))); [|lia].
    rewrite N2Z.id. unfold Redmine.lookup. rewrite Hl.
    rewrite find_app_last; [reflexivity | now rewrite Hid | apply N.eqb_refl].
  - split; [now rewrite Hi|]. split; [now rewrite Hi|].
    intros n Hn. unfold Redmine.lookup. rewrite Hrm, Hl.
    apply find_app_miss. apply N.eqb_neq. congruence.
Qed.

End FoundAgain.

Lemma create_then_get_witness :
  exists issue w1,
    create_redmine_issue Scenario.runtime "Printer" "De: c@d.org" 1 None None None None
      (Scenario.world true) = (inr (Some issue), w1)
    /\ get_redmine_issue Scenario.runtime (JNum 8) w1 = (inr (Some issue), w1).
Proof.
  destruct (create_then_get Scenario.runtime "Printer" "De: c@d.org" 1
              (Scenario.world true) eq_refl eq_refl eq_refl)
    as (issue & w1 & E & G & _).
  exists issue, w1. split; [exact E|].
  assert (Hid : Issue.id issue = 8%N).
  { revert E. vm_compute. now intros [= <- _]. }
  now rewrite Hid in G.
Defined.

Section PollTurn.

Variable ns : Namespace.
Variable rt : Runtime.


End PollTurn.


Lemma update_redmine_issue_outcome_witness :
  fst (update_redmine_issue Scenario.runtime (JStr "99") "merci"
         (Scenario.world true)) = inr false
  /\ fst (update_redmine_issue Scenario.runtime (JStr "7") "merci"
            (Scenario.running Scenario.locked Scenario.inbox)) = inr false
  /\ fst (update_redmine_issue Scenario.runtime (JStr "7") "merci"
            (Scenario.world true)) = inr true.
Proof.
  split; [|split].
  - destruct (update_redmine_issue_outcome Scenario.runtime (JStr "99") "merci"
                (Scenario.world true)) as (ok & w' & E & _ & _ & _ & _ & Hok & _).
    rewrite E. cbn [fst]. f_equal.
    destruct ok; [|reflexivity].
    destruct (proj1 Hok eq_refl) as [rm' Hrm']. discriminate Hrm'.
  - destruct (update_redmine_issue_outcome Scenario.runtime (JStr "7") "merci"
                (Scenario.running Scenario.locked Scenario.inbox))
      as (ok & w' & E & _ & _ & _ & _ & Hok & _).
    rewrite E. cbn [fst]. f_equal.
    destruct ok; [|reflexivity].
    destruct (proj1 Hok eq_refl) as [rm' Hrm']. discriminate Hrm'.
  - destruct (update_redmine_issue_outcome Scenario.runtime (JStr "7") "merci"
                (Scenario.world true)) as (ok & w' & E & _ & _ & _ & _ & Hok & _).
    rewrite E. cbn [fst]. f_equal.
    apply Hok. now eexists.
Defined.

Lemma get_redmine_issue_outcome_witness :
  fst (get_redmine_issue Scenario.runtime (JNum 7) (Scenario.world true))
  = inr (Some Scenario.ticket7)
  /\ fst (get_redmine_issue Scenario.runtime (JNum 7) (Scenario.world false))
     = inr None.
Proof.
  split.
  - destruct (get_redmine_issue_outcome Scenario.runtime (JNum 7)
                (Scenario.world true)) as (r & w' & E & _ & _ & _ & _ & _ & H & _).
    rewrite E. cbn [fst]. f_equal. now apply H.
  - destruct (get_redmine_issue_outcome Scenario.runtime (JNum 7)
                (Scenario.world false)) as (r & w' & E & _ & _ & _ & _ & _ & H & _).
    rewrite E. cbn [fst]. f_equal.
    destruct r as [i|]; [|reflexivity].
    specialize (proj1 (H i) eq_refl). discriminate.
Defined.


Lemma email_webhook_answer_witness :
  exists r w',
    email_webhook Scenario.as_written Scenario.runtime
      (inr (JObj [("from", JStr "a@b.com"); ("subject", JNum 3);
                  ("body", JStr "x")]))
      (Scenario.world true) = (inr r, w')
    /\ status r <> 200%Z
    /\ redmine w' = Scenario.server true
    /\ requested w' = [].
Proof.
  destruct (email_webhook_answer Scenario.as_written Scenario.runtime
              (inr (JObj [("from", JStr "a@b.com"); ("subject", JNum 3);
                          ("body", JStr "x")])) (Scenario.world true))
    as (r & w' & E & _ & _ & H200 & _ & Hno).
  assert (Hs : status r <> 200%Z).
  { intros H. apply H200 in H as (d & f & s & b & [= <-] & _ & Hsub & _).
    discriminate Hsub. }
  exists r, w'. split; [exact E|]. split; [exact Hs|].
  now destruct (Hno Hs).
Defined.
